(** * Static site generator of an academic portfolio: a shallow embedding

    The repository is a handful of Python build scripts.  [sidebar.py]
    holds the page shell shared by all pages (head, navigation, left
    sidebar, footer, client script); [build_index.py],
    [build_research.py], [build_publications.py] and [build_teaching.py]
    each map one JSON content document and the shared sidebar document to
    one HTML document, and their [main] functions read the two inputs and
    write the output file.

    Python values coming out of [json.load] are modelled by the type
    [json]; a Python call that may raise returns a [result]; text is a
    Rocq [string], that is a sequence of bytes, which for the UTF-8 text
    the scripts read and write is the encoded form of the Python [str].
    The file system seen by the drivers is a finite map from path to file
    contents. *)

From Stdlib Require Import String Ascii List ZArith Bool Lia DecimalString.
From stdpp Require Import gmap strings.
Import ListNotations.
Local Open Scope string_scope.

#[local] Set Warnings "-register-all".

(* ===================================================================== *)
(** * Text *)
(* ===================================================================== *)

Module Text.

(** The double quote character.  Templates of the source are full of it;
    below they are written with a backquote in its place (the source has
    no backquote anywhere) and passed through [tpl], which puts the double
    quotes back. *)
Definition dquote : ascii := Ascii.ascii_of_nat 34.
Definition backquote : ascii := Ascii.ascii_of_nat 96.
Definition lt_char : ascii := Ascii.ascii_of_nat 60.

Fixpoint tpl (s : string) : string :=
  match s with
  | EmptyString => EmptyString
  | String c s' =>
      String (if Ascii.eqb c backquote then dquote else c) (tpl s')
  end.

(** [s.startswith(pat)] *)
Fixpoint has_prefix (pat s : string) : bool :=
  match pat with
  | EmptyString => true
  | String c pat' =>
      match s with
      | EmptyString => false
      | String d s' => Ascii.eqb c d && has_prefix pat' s'
      end
  end.

(** [sep.join(items)] on a list of strings. *)
Fixpoint join (sep : string) (items : list string) : string :=
  match items with
  | [] => EmptyString
  | [x] => x
  | x :: rest => x ++ sep ++ join sep rest
  end.

(** [s.endswith(suffix)] and [s.endswith((suffix1, suffix2, ...))]. *)
Definition endswith (s suffix : string) : bool :=
  let n := String.length s in
  let m := String.length suffix in
  (m <=? n)%nat && String.eqb (substring (n - m) m s) suffix.

Definition endswith_any (s : string) (suffixes : list string) : bool :=
  existsb (endswith s) suffixes.

(** [s.replace(old, new)] for a non-empty [old]: the occurrences of [old]
    are found from left to right and do not overlap.  [skip] counts the
    characters of a match that are still to be passed over. *)
Fixpoint replace_from (old new : string) (skip : nat) (s : string) : string :=
  match s with
  | EmptyString => EmptyString
  | String c s' =>
      match skip with
      | S k => replace_from old new k s'
      | O =>
          if has_prefix old s
          then new ++ replace_from old new (String.length old - 1) s'
          else String c (replace_from old new 0 s')
      end
  end.

Definition str_replace (s old new : string) : string :=
  replace_from old new 0 s.

(** The code points of a UTF-8 encoded text, each as its own string:
    what iterating over a Python [str] yields.  A byte [10xxxxxx]
    continues the code point begun before it. *)
Definition is_continuation (c : ascii) : bool :=
  let n := Ascii.nat_of_ascii c in (128 <=? n)%nat && (n <? 192)%nat.

Fixpoint code_points_from (s : string) : string * list string :=
  match s with
  | EmptyString => (EmptyString, [])
  | String c s' =>
      let (pending, done) := code_points_from s' in
      if is_continuation c then (String c pending, done)
      else (EmptyString, String c pending :: done)
  end.

Definition code_points (s : string) : list string :=
  let (pending, done) := code_points_from s in
  match pending with
  | EmptyString => done
  | _ => pending :: done
  end.

(** [lacks c s]: the character [c] does not occur in [s]. *)
Fixpoint lacks (c : ascii) (s : string) : bool :=
  match s with
  | EmptyString => true
  | String d s' => negb (Ascii.eqb d c) && lacks c s'
  end.

(** A text the [utf-8] codec can write: one without a surrogate code
    point.  [json.load] yields a lone surrogate for an escape such as
    [\ud800]; in the byte form used here it is carried as the three
    bytes [0xED], [0xA0]..[0xBF], [0x80]..[0xBF], which no encoded text
    has. *)
Definition is_surrogate_lead (c d : ascii) : bool :=
  let n := Ascii.nat_of_ascii c in
  let m := Ascii.nat_of_ascii d in
  (n =? 237)%nat && (160 <=? m)%nat && (m <=? 191)%nat.

Fixpoint encodable (s : string) : bool :=
  match s with
  | EmptyString => true
  | String c s' =>
      match s' with
      | String d _ => negb (is_surrogate_lead c d)
      | EmptyString => true
      end && encodable s'
  end.

(** Number of positions of [s] at which [pat] starts. *)
Fixpoint occurrences (pat s : string) : nat :=
  match s with
  | EmptyString => 0
  | String _ s' => (if has_prefix pat s then 1 else 0) + occurrences pat s'
  end.

(** [s] has [pat] as a contiguous part. *)
Definition contains (pat s : string) : Prop :=
  exists before after, s = before ++ pat ++ after.

(** Matching a pattern against the front of a template piece whose
    continuation is not known: the pattern fits in the piece ([Full]),
    is refuted inside it ([Mismatch]), or the piece ends first
    ([RunsOff]). *)
Inductive verdict := Full | Mismatch | RunsOff.

Fixpoint pmatch (pat piece : string) : verdict :=
  match pat with
  | EmptyString => Full
  | String c pat' =>
      match piece with
      | EmptyString => RunsOff
      | String d piece' => if Ascii.eqb c d then pmatch pat' piece' else Mismatch
      end
  end.

(** Occurrences of [pat] that start inside a template piece, when every
    one of them is decided inside the piece. *)
Fixpoint lit_scan (pat piece : string) : option nat :=
  match piece with
  | EmptyString => Some 0
  | String _ piece' =>
      match pmatch pat piece, lit_scan pat piece' with
      | Full, Some k => Some (S k)
      | Mismatch, Some k => Some k
      | _, _ => None
      end
  end.

(** No proper suffix of [pat] obtained by dropping 1 to [k] characters
    starts the piece: a pattern begun inside the preceding text cannot
    be completed by this piece. *)
Fixpoint sdrop (n : nat) (s : string) : string :=
  match n, s with
  | O, _ => s
  | S n', EmptyString => EmptyString
  | S n', String _ s' => sdrop n' s'
  end.

Fixpoint no_completion (pat piece : string) (k : nat) : bool :=
  match k with
  | O => true
  | S k' =>
      match pmatch (sdrop k pat) piece with
      | Mismatch => no_completion pat piece k'
      | _ => false
      end
  end.

End Text.

Import Text.

(* ===================================================================== *)
(** * Python values and the operations the scripts apply to them *)
(* ===================================================================== *)

Module Py.

(** What [json.load] returns.  A dict keeps its items in insertion order
    (iteration and [repr] show it), so it is an association list; its
    keys are distinct, and a lookup takes the first item with the key.
    JSON numbers with a fraction or an exponent (Python floats) are not
    part of the model. *)
Inductive json :=
| JNull
| JBool (b : bool)
| JInt (z : Z)
| JStr (s : string)
| JList (items : list json)
| JDict (items : list (string * json)).

(** The exceptions these scripts can run into. *)
Inductive exn :=
| KeyError (key : string)
| TypeError
| AttributeError
| JSONDecodeError
| FileNotFoundError
| UnicodeEncodeError.

Inductive result (A : Type) :=
| Ok (a : A)
| Raise (e : exn).
Arguments Ok {A} a.
Arguments Raise {A} e.

Definition bind {A B : Type} (m : result A) (k : A -> result B) : result B :=
  match m with
  | Ok a => k a
  | Raise e => Raise e
  end.

Notation "'let*' x ':=' m 'in' k" := (bind m (fun x => k))
  (at level 10, x name, m at level 100, k at level 200).

(** Evaluation of the items of a comprehension from left to right; the
    first exception ends it. *)
Fixpoint traverse {A B : Type} (f : A -> result B) (l : list A) : result (list B) :=
  match l with
  | [] => Ok []
  | x :: rest =>
      let* y := f x in
      let* ys := traverse f rest in
      Ok (y :: ys)
  end.

Fixpoint dict_find (key : string) (items : list (string * json)) : option json :=
  match items with
  | [] => None
  | (k, v) :: rest => if String.eqb k key then Some v else dict_find key rest
  end.

(** [v[key]] with a string key. *)
Definition subscript (v : json) (key : string) : result json :=
  match v with
  | JDict items =>
      match dict_find key items with
      | Some x => Ok x
      | None => Raise (KeyError key)
      end
  | _ => Raise TypeError
  end.

(** [v.get(key, default)]; only a dict has the method. *)
Definition get (v : json) (key : string) (default : json) : result json :=
  match v with
  | JDict items =>
      match dict_find key items with
      | Some x => Ok x
      | None => Ok default
      end
  | _ => Raise AttributeError
  end.

(** Truth value of [v] in [if v:]. *)
Definition truthy (v : json) : bool :=
  match v with
  | JNull => false
  | JBool b => b
  | JInt z => negb (Z.eqb z 0)
  | JStr s => negb (String.eqb s EmptyString)
  | JList items => match items with [] => false | _ => true end
  | JDict items => match items with [] => false | _ => true end
  end.

Definition is_str (key : string) (v : json) : bool :=
  match v with
  | JStr s => String.eqb s key
  | _ => false
  end.

Fixpoint is_substring (pat s : string) : bool :=
  has_prefix pat s ||
  match s with
  | EmptyString => false
  | String _ s' => is_substring pat s'
  end.

(** [key in v] for a string [key]: a key of a dict, an item of a list, a
    part of a string. *)
Definition has (key : string) (v : json) : result bool :=
  match v with
  | JDict items =>
      Ok (match dict_find key items with Some _ => true | None => false end)
  | JList items => Ok (existsb (is_str key) items)
  | JStr s => Ok (is_substring key s)
  | _ => Raise TypeError
  end.

(** What [for x in v] goes through. *)
Definition iter (v : json) : result (list json) :=
  match v with
  | JList items => Ok items
  | JDict items => Ok (map (fun kv => JStr (fst kv)) items)
  | JStr s => Ok (map JStr (code_points s))
  | _ => Raise TypeError
  end.

(** [repr] of a string: single quotes unless the text has a single quote
    and no double quote; backslash, the chosen quote and control
    characters escaped.  Bytes above 127 are copied, as Python does for
    the printable code points they encode; for the others (U+0085,
    U+00A0, U+200B and the like) Python writes an escape, which is not
    followed here.  This bears on the text of a list or an object put
    into a template only: a string put there directly does not go
    through [repr]. *)
Definition hex_digit (n : nat) : ascii :=
  Ascii.ascii_of_nat (if (n <? 10)%nat then 48 + n else 87 + n).

Definition quote_char : ascii := Ascii.ascii_of_nat 39.
Definition backslash : ascii := Ascii.ascii_of_nat 92.

Definition repr_char (quote c : ascii) : string :=
  let n := Ascii.nat_of_ascii c in
  if Ascii.eqb c backslash then String backslash (String backslash EmptyString)
  else if Ascii.eqb c quote then String backslash (String quote EmptyString)
  else if (n =? 9)%nat then String backslash "t"
  else if (n =? 10)%nat then String backslash "n"
  else if (n =? 13)%nat then String backslash "r"
  else if (n <? 32)%nat || (n =? 127)%nat
       then String backslash
              (String "x" (String (hex_digit (n / 16))
                             (String (hex_digit (n mod 16)) EmptyString)))
  else String c EmptyString.

Fixpoint repr_chars (quote : ascii) (s : string) : string :=
  match s with
  | EmptyString => EmptyString
  | String c s' => repr_char quote c ++ repr_chars quote s'
  end.

Definition repr_str (s : string) : string :=
  let quote :=
    if negb (lacks quote_char s) && lacks dquote s then dquote else quote_char in
  String quote (repr_chars quote s ++ String quote EmptyString).

Definition str_of_int (z : Z) : string := NilZero.string_of_int (Z.to_int z).

Fixpoint repr (v : json) : string :=
  match v with
  | JNull => "None"
  | JBool true => "True"
  | JBool false => "False"
  | JInt z => str_of_int z
  | JStr s => repr_str s
  | JList items => "[" ++ join ", " (map repr items) ++ "]"
  | JDict items =>
      "{" ++ join ", " (map (fun kv => repr_str (fst kv) ++ ": " ++ repr (snd kv)) items)
          ++ "}"
  end.

(** [str(v)], which is what an f-string puts in place of [{v}]. *)
Definition str (v : json) : string :=
  match v with
  | JStr s => s
  | _ => repr v
  end.

(** [sep.join(v)]: [v] is gone through and every item must be a string. *)
Fixpoint strings_of (items : list json) : result (list string) :=
  match items with
  | [] => Ok []
  | JStr s :: rest => let* l := strings_of rest in Ok (s :: l)
  | _ :: _ => Raise TypeError
  end.

Definition join_iterable (sep : string) (v : json) : result string :=
  let* items := iter v in
  let* parts := strings_of items in
  Ok (join sep parts).

(** [v.endswith((...))]; only a string has the method. *)
Definition endswith (v : json) (suffixes : list string) : result bool :=
  match v with
  | JStr s => Ok (endswith_any s suffixes)
  | _ => Raise AttributeError
  end.

End Py.

Import Py.

(* ===================================================================== *)
(** * The world of a build driver: files and console *)
(* ===================================================================== *)

Module Io.

(** What a driver does that can be observed: a line printed, a file
    opened and read, the page rendered, a file opened for writing, which
    afterwards holds the text given (the empty text when the write
    fails). *)
Inductive event :=
| Print (line : string)
| Load (path : string)
| Render
| Write (path : string) (data : string).

(** The regular files of the working directory, by name, and the events
    so far, oldest first. *)
Record world := World {
  files : gmap string string;
  events : list event
}.

Definition io (A : Type) : Type := world -> result A * world.

Definition ret {A : Type} (a : A) : io A := fun w => (Ok a, w).

Definition and_then {A B : Type} (m : io A) (k : A -> io B) : io B :=
  fun w =>
    match m w with
    | (Ok a, w') => k a w'
    | (Raise e, w') => (Raise e, w')
    end.

Notation "'do*' x ':=' m 'in' k" := (and_then m (fun x => k))
  (at level 10, x name, m at level 100, k at level 200).
Notation "m ';;' k" := (and_then m (fun _ => k))
  (at level 100, k at level 200, right associativity).

Definition emit (ev : event) (w : world) : world :=
  World (files w) (events w ++ [ev])%list.

(** [print(line)] *)
Definition print (line : string) : io unit :=
  fun w => (Ok tt, emit (Print line) w).

(** [path.exists()] *)
Definition path_exists (path : string) : io bool :=
  fun w => (Ok (match files w !! path with Some _ => true | None => false end), w).

(** [open(path, "r")] and reading the whole text. *)
Definition read_text (path : string) : io string :=
  fun w =>
    match files w !! path with
    | Some text => (Ok text, emit (Load path) w)
    | None => (Raise FileNotFoundError, emit (Load path) w)
    end.

(** [open(path, "w", encoding="utf-8")] and [f.write(data)].  Opening
    empties the file; the text is encoded before any of it is written,
    and a text that cannot be encoded raises [UnicodeEncodeError] and
    leaves the file empty. *)
Definition write_text (path data : string) : io unit :=
  fun w =>
    if encodable data
    then (Ok tt, World (<[path := data]> (files w)) (events w ++ [Write path data])%list)
    else (Raise UnicodeEncodeError,
          World (<[path := EmptyString]> (files w))
            (events w ++ [Write path EmptyString])%list).

(** A call of a renderer, which touches nothing. *)
Definition render (page : result string) : io string :=
  fun w => (page, emit Render w).

Definition lift {A : Type} (r : result A) : io A := fun w => (r, w).

End Io.

Import Io.

(* ===================================================================== *)
(** * sidebar.py: the shared page shell *)
(* ===================================================================== *)

Module sidebar.

Section Load.
(** [json.load], which belongs to the Python library: the document a
    text denotes, or the exception raised for a malformed text. *)
Variable json_loads : string -> result json.

Definition load_sidebar (path : string) : io json :=
  do* text := read_text path in
  lift (json_loads text).
End Load.

Definition _generate_profile_image (profile : json) : result string :=
  let* image := get profile "image" JNull in
  if truthy image then
    let* image := subscript profile "image" in
    let* name := subscript profile "name" in
    Ok (tpl "<img src=`" ++ str image ++ tpl "` alt=`" ++ str name ++ tpl "`>")
  else Ok (tpl "<i class=`fas fa-user`></i>").

Definition sidebar_link (link : json) : result string :=
  let* icon := get link "icon" (JStr "fas fa-link") in
  let* label := get link "label" (JStr EmptyString) in
  let* url := get link "url" JNull in
  if truthy url then
    Ok (tpl "<li><a href=`" ++ str url ++ tpl "` target=`_blank` rel=`noopener`>"
        ++ tpl "<i class=`" ++ str icon ++ tpl "` aria-hidden=`true`></i> " ++ str label
        ++ "</a></li>")
  else
    Ok (tpl "<li><i class=`" ++ str icon ++ tpl "` aria-hidden=`true`></i> " ++ str label
        ++ "</li>").

Definition _generate_sidebar_links (links : json) : result string :=
  let* links := iter links in
  let* items := traverse sidebar_link links in
  Ok (join "
          " items).

Definition get_nav_brand (sidebar : json) : result json :=
  subscript sidebar "nav_brand".

Definition bio_line (line : json) : string :=
  tpl "<span class=`bio-line`>" ++ str line ++ "</span>".

(** The value of the local [bio_html] of [get_sidebar_html]: the lines
    when the profile has them, else the paragraph when it has one, else
    nothing. *)
Definition bio_html (profile : json) : result string :=
  let* bio_lines := get profile "bio_lines" JNull in
  if truthy bio_lines then
    let* bio_lines := subscript profile "bio_lines" in
    let* lines := iter bio_lines in
    let bio_items := join EmptyString (map bio_line lines) in
    Ok (tpl "<div class=`author__bio`>" ++ bio_items ++ "</div>")
  else
    let* bio := get profile "bio" JNull in
    if truthy bio then
      let* bio := subscript profile "bio" in
      Ok (tpl "<p class=`author__bio`>" ++ str bio ++ "</p>")
    else Ok EmptyString.

Definition get_sidebar_html (sidebar : json) : result string :=
  let* profile := subscript sidebar "profile" in
  let* links := get sidebar "sidebar_links" (JList []) in
  let* bio_html := bio_html profile in
  let* image_html := _generate_profile_image profile in
  let* name := subscript profile "name" in
  let* links_html := _generate_sidebar_links links in
  Ok (tpl "<aside class=`sidebar`>
      <div class=`sidebar-content`>
        <div class=`author__avatar`>
          " ++ image_html ++ tpl "
        </div>
        <div class=`author__content`>
          <h3 class=`author__name`>" ++ str name ++ "</h3>
          " ++ bio_html ++ tpl "
        </div>
        <div class=`author__urls-wrapper`>
          <ul class=`author__urls`>
            " ++ links_html ++ "
          </ul>
        </div>
      </div>
    </aside>").

Definition get_footer_html (sidebar : json) : result string :=
  let* footer := subscript sidebar "footer" in
  let* copyright_year := subscript footer "copyright_year" in
  let* copyright_name := subscript footer "copyright_name" in
  Ok (tpl "<footer>
    <p class=`footer-text`>
      © " ++ str copyright_year ++ " " ++ str copyright_name ++ ".
    </p>
  </footer>").

(** The table of destinations of [get_nav_html]: page id, target, label,
    and whether the link opens a new tab. *)
Definition pages (cv_file : json) : list (string * json * string * bool) :=
  [ ("bio", JStr "index.html", "Biography", false);
    ("research", JStr "research.html", "Research", false);
    ("publications", JStr "publications.html", "Publications", false);
    ("teaching", JStr "teaching.html", "Teaching", false);
    ("cv", cv_file, "CV", true) ].

Definition nav_link (active_page : string)
    (page : string * json * string * bool) : string :=
  let '(page_id, href, label, new_tab) := page in
  let active_class :=
    if String.eqb page_id active_page then tpl " class=`active`" else EmptyString in
  let target :=
    if new_tab then tpl " target=`_blank` rel=`noopener`" else EmptyString in
  tpl "<li><a href=`" ++ str href ++ tpl "`" ++ active_class ++ target ++ ">" ++ label
  ++ "</a></li>".

(** [sidebar] is [JNull] when the caller leaves the argument out (the
    default [None] of the source). *)
Definition cv_file_of (sidebar : json) : result json :=
  if truthy sidebar then get sidebar "cv_file" (JStr "cv.pdf")
  else Ok (JStr "cv.pdf").

Definition get_nav_html (active_page : string) (sidebar : json) : result string :=
  let* cv_file := cv_file_of sidebar in
  let links := map (nav_link active_page) (pages cv_file) in
  Ok (join "
        " links).

(** The light and dark colour tables of [get_base_css]. *)
Definition theme_tables (sidebar : json) : result (json * json) :=
  let* themed := if truthy sidebar then has "theme" sidebar else Ok false in
  if themed then
    let* theme := subscript sidebar "theme" in
    let* light := get theme "light" (JDict []) in
    let* theme := subscript sidebar "theme" in
    let* dark := get theme "dark" (JDict []) in
    Ok (light, dark)
  else Ok (JDict [], JDict []).

Definition get_base_css (sidebar : json) : result string :=
  let* tables := theme_tables sidebar in
  let '(light, dark) := tables in
  let* accent_light := get light "accent_color" (JStr "#0D9488") in
  let* accent_hover_light := get light "accent_hover" (JStr "#0F766E") in
  let* link_color_light := get light "link_color" (JStr "#0066cc") in
  let* link_hover_light := get light "link_hover" (JStr "#004499") in
  let* accent_dark := get dark "accent_color" (JStr "#2DD4BF") in
  let* accent_hover_dark := get dark "accent_hover" (JStr "#5EEAD4") in
  let* link_color_dark := get dark "link_color" (JStr "#60A5FA") in
  let* link_hover_dark := get dark "link_hover" (JStr "#93C5FD") in
  Ok ("
    /* ============================================
       CSS VARIABLES
       ============================================ */
    :root {
      --primary-color: #494e52;
      --link-color: #494e52;
      --link-hover: #000000;
      --text-color: #494e52;
      --text-muted: #494e52;
      --bg-color: #ffffff;
      --bg-sidebar: #ffffff;
      --border-color: #e0e0e0;
      --shadow: 0 1px 1px rgba(0,0,0,0.125);
      --sidebar-width: 260px;
      --nav-height: 50px;
      --accent-color: " ++ str accent_light ++ ";
      --accent-hover: " ++ str accent_hover_light ++ ";
      --action-link-color: " ++ str link_color_light ++ ";
      --action-link-hover: " ++ str link_hover_light ++ tpl ";
    }

    /* ============================================
       BASE STYLES
       ============================================ */
    *, *::before, *::after { box-sizing: border-box; margin: 0; padding: 0; }
    html { scroll-behavior: smooth; }
    body {
      font-family: 'Roboto', -apple-system, BlinkMacSystemFont, sans-serif;
      font-size: 16px;
      line-height: 1.6;
      color: var(--text-color);
      background-color: var(--bg-color);
    }

    a { color: var(--link-color); text-decoration: none; transition: color 0.2s ease; }
    a:hover { color: var(--link-hover); text-decoration: underline; }

    /* ============================================
       NAVIGATION BAR
       ============================================ */
    nav {
      position: fixed;
      top: 0;
      left: 0;
      right: 0;
      height: var(--nav-height);
      background: var(--bg-color);
      border-bottom: 1px solid var(--border-color);
      z-index: 1000;
      display: flex;
      align-items: center;
      justify-content: center;
    }

    .nav-container {
      width: 100%;
      max-width: 1400px;
      padding: 0 1.5rem;
      display: flex;
      align-items: center;
      justify-content: space-between;
    }

    .nav-brand {
      font-family: 'Roboto Slab', serif;
      font-size: 1.1rem;
      font-weight: 700;
      color: var(--text-color);
      letter-spacing: -0.5px;
    }
    .nav-brand:hover { text-decoration: none; color: var(--link-color); }

    .nav-links { display: flex; gap: 1.5rem; list-style: none; }
    .nav-links a { 
      color: var(--text-muted); 
      font-size: 0.85rem; 
      font-weight: 400; 
      text-transform: uppercase;
      letter-spacing: 0.5px;
    }
    .nav-links a:hover, .nav-links a.active { color: var(--text-color); text-decoration: none; }

    .nav-toggle {
      display: none;
      background: none;
      border: none;
      font-size: 1.25rem;
      cursor: pointer;
      color: var(--text-color);
    }

    .theme-toggle {
      background: none;
      border: none;
      cursor: pointer;
      font-size: 1rem;
      color: var(--text-muted);
      padding: 0.4rem;
      border-radius: 50%;
    }
    .theme-toggle:hover { color: var(--text-color); }

    /* ============================================
       PAGE LAYOUT
       ============================================ */
    .page-wrapper {
      display: flex;
      margin-top: var(--nav-height);
      min-height: calc(100vh - var(--nav-height));
      max-width: 1400px;
      margin-left: auto;
      margin-right: auto;
    }

    /* ============================================
       LEFT SIDEBAR
       ============================================ */
    .sidebar {
      width: var(--sidebar-width);
      flex-shrink: 0;
      background: var(--bg-color);
      border-right: 1px solid var(--border-color);
    }

    .sidebar-content {
      position: sticky;
      top: calc(var(--nav-height) + 1rem);
      padding: 1.5rem 1rem;
    }

    .author__avatar {
      display: block;
      width: 180px;
      height: 180px;
      margin: 0 0 0.75rem 0;
    }

    .author__avatar img {
      width: 100%;
      height: 100%;
      border-radius: 50%;
      object-fit: cover;
      border: 1px solid var(--border-color);
      padding: 3px;
      background: var(--bg-color);
    }

    .author__content {
      text-align: left;
      margin-bottom: 1rem;
    }

    .author__name {
      font-family: 'Roboto Slab', serif;
      font-size: 1.1rem;
      font-weight: 700;
      color: var(--text-color);
      margin-bottom: 0.25rem;
    }

    .author__bio {
      font-size: 0.85rem;
      color: var(--text-color);
      line-height: 1.5;
    }

    .author__bio .bio-line {
      display: block;
      margin-bottom: 0;
    }

    .author__urls-wrapper { margin-top: 1rem; }

    .author__urls {
      list-style: none;
      font-size: 0.8rem;
    }

    .author__urls li {
      white-space: nowrap;
      padding: 0.2rem 0;
      color: var(--text-muted);
    }

    .author__urls li i {
      width: 1.25em;
      text-align: center;
      margin-right: 0.4rem;
      color: var(--text-muted);
    }

    .author__urls a { color: var(--text-color); }
    .author__urls a:hover { color: var(--link-color); text-decoration: underline; }
    .author__urls a i { color: var(--text-muted); }

    /* ============================================
       MAIN CONTENT AREA
       ============================================ */
    .main-content {
      flex: 1;
      padding: 2rem 3rem 2rem 2.5rem;
    }

    /* Section headings */
    .main-content h2 {
      font-family: 'Roboto Slab', serif;
      font-size: 1.4rem;
      font-weight: 700;
      color: var(--text-color);
      margin-bottom: 0.6rem;
      padding-bottom: 0.4rem;
      border-bottom: 1px solid var(--border-color);
    }

    /* Section container */
    .section { margin-bottom: 2rem; }

    /* Default paragraph styling for sections */
    .section > p {
      color: var(--text-color);
      margin-bottom: 1.25rem;
      text-align: justify;
      font-size: 1.05rem;
      line-height: 1.7;
    }

    /* ============================================
       FOOTER
       ============================================ */
    footer {
      padding: 1.25rem 1.5rem;
      background: var(--bg-color);
      border-top: 1px solid var(--border-color);
      text-align: center;
    }

    .footer-text { color: var(--text-muted); font-size: 0.8rem; }
    .footer-text a { color: var(--text-muted); }

    /* ============================================
       DARK MODE
       ============================================ */
    [data-theme=`dark`] {
      --primary-color: #e2e2e2;
      --link-color: #e2e2e2;
      --link-hover: #ffffff;
      --text-color: #e2e2e2;
      --text-muted: #e2e2e2;
      --bg-color: #252a34;
      --bg-sidebar: #252a34;
      --border-color: #3a3f4b;
      --accent-color: " ++ str accent_dark ++ ";
      --accent-hover: " ++ str accent_hover_dark ++ ";
      --action-link-color: " ++ str link_color_dark ++ ";
      --action-link-hover: " ++ str link_hover_dark ++ ";
    }

    /* ============================================
       RESPONSIVE - TABLET (<=900px)
       ============================================ */
    @media (max-width: 900px) {
      .page-wrapper { flex-direction: column; }

      .sidebar {
        width: 100%;
        border-right: none;
        border-bottom: 1px solid var(--border-color);
      }

      .sidebar-content {
        position: static;
        padding: 1.25rem;
        display: flex;
        flex-direction: column;
        align-items: center;
      }

      .author__avatar { width: 100px; height: 100px; }

      .author__urls {
        display: flex;
        flex-wrap: wrap;
        justify-content: center;
        gap: 0.5rem 1rem;
      }

      .main-content { padding: 1.5rem; max-width: 100%; }
    }

    /* ============================================
       RESPONSIVE - MOBILE (<=768px)
       ============================================ */
    @media (max-width: 768px) {
      .nav-links {
        display: none;
        position: absolute;
        top: var(--nav-height);
        left: 0;
        right: 0;
        background: var(--bg-color);
        flex-direction: column;
        padding: 1rem 1.5rem;
        gap: 0.75rem;
        border-bottom: 1px solid var(--border-color);
        box-shadow: var(--shadow);
      }
      .nav-links.active { display: flex; }
      .nav-toggle { display: block; }
    }
").

Definition get_base_head_html (title description : json) (page_css : string)
    (sidebar : json) : result string :=
  let* base_css := get_base_css sidebar in
  Ok (tpl "<head>
  <meta charset=`UTF-8`>
  <meta name=`viewport` content=`width=device-width, initial-scale=1.0`>
  <meta name=`description` content=`" ++ str description ++ tpl "`>
  <title>" ++ str title ++ tpl "</title>
  
  <link rel=`preconnect` href=`https://fonts.googleapis.com`>
  <link rel=`preconnect` href=`https://fonts.gstatic.com` crossorigin>
  <link href=`https://fonts.googleapis.com/css2?family=Roboto:wght@300;400;500;700&family=Roboto+Slab:wght@400;500;700&display=swap` rel=`stylesheet`>
  <link rel=`stylesheet` href=`https://cdnjs.cloudflare.com/ajax/libs/font-awesome/6.5.1/css/all.min.css`>
  <link rel=`stylesheet` href=`https://cdn.jsdelivr.net/gh/jpswalsh/academicons@1/css/academicons.min.css`>
  
  <style>
" ++ base_css ++ "
" ++ page_css ++ "
  </style>
</head>").

Definition get_js_code : string :=
  "
    const navToggle = document.querySelector('.nav-toggle');
    const navLinks = document.querySelector('.nav-links');
    navToggle.addEventListener('click', () => navLinks.classList.toggle('active'));

    const themeToggle = document.querySelector('.theme-toggle');
    const themeIcon = themeToggle.querySelector('i');
    const savedTheme = localStorage.getItem('theme') || 'light';
    document.documentElement.setAttribute('data-theme', savedTheme);
    themeIcon.className = savedTheme === 'dark' ? 'fas fa-sun' : 'fas fa-moon';

    themeToggle.addEventListener('click', () => {
      const currentTheme = document.documentElement.getAttribute('data-theme');
      const newTheme = currentTheme === 'dark' ? 'light' : 'dark';
      document.documentElement.setAttribute('data-theme', newTheme);
      localStorage.setItem('theme', newTheme);
      themeIcon.className = newTheme === 'dark' ? 'fas fa-sun' : 'fas fa-moon';
    });

    navLinks.querySelectorAll('a').forEach(link => {
      link.addEventListener('click', () => navLinks.classList.remove('active'));
    });
".

(** The older entry point, kept by the source for its callers: no page
    CSS. *)
Definition get_head_html (title description : json) (sidebar : json) : result string :=
  get_base_head_html title description EmptyString sidebar.

End sidebar.

(* ===================================================================== *)
(** * build_index.py: the biography page *)
(* ===================================================================== *)

Module build_index.

Import sidebar.

Definition get_index_css : string :=
  tpl "
    /* ============================================
       AFFILIATIONS SECTION
       ============================================ */
    .affiliation-item {
      display: flex;
      gap: 0.5rem;
      align-items: stretch;
      margin-bottom: 0.5rem;
    }

    .affiliation-logo {
      width: 100px;
      min-height: 100px;
      flex-shrink: 0;
      background-size: contain;
      background-repeat: no-repeat;
      background-position: center;
    }

    .affiliation-logo i {
      font-size: 2.5rem;
      color: var(--text-muted);
    }

    .affiliation-info {
    }

    .affiliation-logo i {
      font-size: 1.5rem;
      color: var(--text-muted);
    }

    .affiliation-info h3 {
      font-family: 'Roboto Slab', serif;
      font-size: 1rem;
      font-weight: 700;
      color: var(--text-color);
      margin: 0;
      line-height: 1.4;
    }

    .affiliation-info p {
      margin: 0;
      font-size: 0.9rem;
      line-height: 1.4;
    }

    .affiliation-info .role {
      color: var(--text-color);
    }

    .affiliation-info .department {
      color: var(--text-muted);
    }

    /* ============================================
       DEGREES SECTION
       ============================================ */
    .degrees-list {
      list-style: disc;
      padding-left: 1.5rem;
      margin: 0;
    }

    .degrees-list li {
      margin-bottom: 0.5rem;
      font-size: 1rem;
      line-height: 1.5;
    }

    /* ============================================
       NEWS SECTION
       ============================================ */
    .news-container {
      max-height: 350px;
      overflow-y: auto;
      border: 1px solid var(--border-color);
      padding: 0.75rem 1rem;
      border-radius: 4px;
    }

    .news-list { 
      list-style: none;
      padding-left: 0;
      margin: 0;
    }

    .news-item {
      padding: 0.3rem 0;
      line-height: 1.5;
      font-size: 0.9rem;
    }

    .news-date {
      font-weight: 700;
      color: var(--text-color);
    }

    .news-date::after {
      content: `: `;
    }

    .news-content { 
      color: var(--text-color);
    }

    /* ============================================
       BIO SECTION LINKS
       ============================================ */
    .section p a {
      color: var(--action-link-color);
    }

    .section p a:hover {
      color: var(--action-link-hover);
      text-decoration: underline;
    }

    /* ============================================
       SPONSORS SECTION
       ============================================ */
    .sponsors-grid {
      display: flex;
      flex-wrap: wrap;
      gap: 1.5rem 2.5rem;
      align-items: center;
      justify-content: flex-start;
    }

    .sponsor-logo {
      height: 40px;
      width: auto;
      max-width: 280px;
      object-fit: contain;
    }

    /* Dark mode: invert logos for visibility */
    [data-theme=`dark`] .sponsor-logo {
      filter: invert(1) hue-rotate(180deg);
    }
".

Definition generate_bio_paragraphs (bio : json) : result string :=
  let* bio := iter bio in
  Ok (join "
        " (map (fun p => "<p>" ++ str p ++ "</p>") bio)).

Definition image_suffixes : list string :=
  [".png"; ".jpg"; ".jpeg"; ".svg"; ".gif"; ".webp"].

Definition affiliation (aff : json) : result string :=
  let* department := get aff "department" (JList []) in
  let* dept_lines := join_iterable "<br>" department in
  let* logo_icon := get aff "logo_icon" (JStr "fa-university") in
  let* is_image := endswith logo_icon image_suffixes in
  let logo_html :=
    if is_image then
      tpl "<div class=`affiliation-logo` style=`background-image: url('" ++ str logo_icon
      ++ tpl "');`></div>"
    else
      tpl "<div class=`affiliation-logo`><i class=`fas " ++ str logo_icon
      ++ tpl "`></i></div>" in
  let* institution := subscript aff "institution" in
  let* role := subscript aff "role" in
  Ok (tpl "<div class=`affiliation-item`>
          " ++ logo_html ++ tpl "
          <div class=`affiliation-info`>
            <h3>" ++ str institution ++ tpl "</h3>
            <p class=`role`>" ++ str role ++ tpl "</p>
            <p class=`department`>" ++ dept_lines ++ "</p>
          </div>
        </div>").

Definition generate_affiliations (affiliations : json) : result string :=
  let* affiliations := iter affiliations in
  let* items := traverse affiliation affiliations in
  Ok (join "
        " items).

Definition degree (d : json) : result string :=
  let* deg := subscript d "degree" in
  let* field := subscript d "field" in
  let* institution := subscript d "institution" in
  let* location := subscript d "location" in
  Ok ("<li><strong>" ++ str deg ++ ", " ++ str field ++ ",</strong> " ++ str institution
      ++ ", " ++ str location ++ "</li>").

Definition generate_degrees (degrees : json) : result string :=
  let* degrees := iter degrees in
  let* items := traverse degree degrees in
  Ok (join "
            " items).

Definition news_item (n : json) : result string :=
  let* date := subscript n "date" in
  let* content := subscript n "content" in
  Ok (tpl "<li class=`news-item`>
          <span class=`news-date`>" ++ str date ++ tpl "</span><span class=`news-content`>"
      ++ str content ++ "</span>
        </li>").

Definition generate_news (news : json) : result string :=
  let* news := iter news in
  let* items := traverse news_item news in
  Ok (join "
        " items).

Definition sponsor (s : json) : result string :=
  let* logo := subscript s "logo" in
  let* name := subscript s "name" in
  Ok (tpl "<img src=`" ++ str logo ++ tpl "` alt=`" ++ str name
      ++ tpl "` class=`sponsor-logo`>").

Definition generate_sponsors (sponsors : json) : result string :=
  let* sponsors := iter sponsors in
  let* items := traverse sponsor sponsors in
  Ok (join "
          " items).

(** The head of the page, as [build_html] asks for it: title,
    description and the page CSS, and no sidebar argument. *)
Definition head_html (content : json) : result string :=
  let* meta := subscript content "meta" in
  let* title := subscript meta "title" in
  let* meta := subscript content "meta" in
  let* description := subscript meta "description" in
  get_base_head_html title description get_index_css JNull.

Definition build_html (content sidebar : json) : result string :=
  let* head_html := head_html content in
  let* nav_brand := get_nav_brand sidebar in
  let* nav_html := get_nav_html "bio" sidebar in
  let* sidebar_html := get_sidebar_html sidebar in
  let* bio := subscript content "bio" in
  let* bio_html := generate_bio_paragraphs bio in
  let* affiliations := subscript content "affiliations" in
  let* affiliations_html := generate_affiliations affiliations in
  let* degrees := get content "degrees" (JList []) in
  let* degrees_html := generate_degrees degrees in
  let* news := subscript content "news" in
  let* news_html := generate_news news in
  let* sponsors := get content "sponsors" (JList []) in
  let* sponsors_html := generate_sponsors sponsors in
  let* footer_html := get_footer_html sidebar in
  Ok (tpl "<!DOCTYPE html>
<html lang=`en`>
" ++ head_html ++ tpl "
<body>
  <nav>
    <div class=`nav-container`>
      <a href=`index.html` class=`nav-brand`>" ++ str nav_brand ++ tpl "</a>
      <button class=`nav-toggle` aria-label=`Toggle navigation`>
        <i class=`fas fa-bars`></i>
      </button>
      <ul class=`nav-links`>
        " ++ nav_html ++ tpl "
      </ul>
      <button class=`theme-toggle` aria-label=`Toggle dark mode`>
        <i class=`fas fa-moon`></i>
      </button>
    </div>
  </nav>

  <div class=`page-wrapper`>
    " ++ sidebar_html ++ tpl "

    <main class=`main-content`>
      <section class=`section`>
        <h2>Biography</h2>
        " ++ bio_html ++ tpl "
      </section>

      <section class=`section`>
        <h2>Current Affiliations</h2>
        " ++ affiliations_html ++ tpl "
      </section>

      <section class=`section`>
        <h2>Degrees</h2>
        <ul class=`degrees-list`>
          " ++ degrees_html ++ tpl "
        </ul>
      </section>

      <section class=`section`>
        <h2>News</h2>
        <div class=`news-container`>
          <ul class=`news-list`>
            " ++ news_html ++ tpl "
          </ul>
        </div>
      </section>

      <section class=`section`>
        <h2>Affiliations &amp; Sponsors</h2>
        <div class=`sponsors-grid`>
          " ++ sponsors_html ++ "
        </div>
      </section>
    </main>
  </div>

  " ++ footer_html ++ "

  <script>" ++ get_js_code ++ "</script>
</body>
</html>").

Section Main.
Variable json_loads : string -> result json.

Definition load_content (path : string) : io json :=
  do* text := read_text path in
  lift (json_loads text).

Definition sidebar_path : string := "sidebar.json".
Definition content_path : string := "content_index.json".
Definition output_path : string := "index.html".

(** [main] returns the exit code of the script. *)
Definition main : io Z :=
  do* found := path_exists sidebar_path in
  if negb found then
    print ("Error: " ++ sidebar_path ++ " not found.") ;;
    ret 1%Z
  else
  do* found := path_exists content_path in
  if negb found then
    print ("Error: " ++ content_path ++ " not found.") ;;
    ret 1%Z
  else
  print ("Loading sidebar from " ++ sidebar_path ++ "...") ;;
  do* sidebar := load_sidebar json_loads sidebar_path in
  print ("Loading content from " ++ content_path ++ "...") ;;
  do* content := load_content content_path in
  print "Building index.html..." ;;
  do* html := render (build_html content sidebar) in
  print ("Writing to " ++ output_path ++ "...") ;;
  write_text output_path html ;;
  print "Done!" ;;
  ret 0%Z.
End Main.

End build_index.

(* ===================================================================== *)
(** * build_research.py: the research page *)
(* ===================================================================== *)

Module build_research.

Import sidebar.

Definition generate_interests_html (interests : json) : result string :=
  join_iterable ", " interests.

Definition generate_project_html (project : json) : result string :=
  let* image := get project "image" (JStr EmptyString) in
  let* image_html :=
    if truthy image then
      let* title := subscript project "title" in
      Ok (tpl "<div class=`project-image`>
            <img src=`" ++ str image ++ tpl "` alt=`" ++ str title ++ tpl "`>
          </div>")
    else Ok EmptyString in
  let* description := subscript project "description" in
  let* description := iter description in
  let desc_html := join "
          " (map (fun para => "<p>" ++ str para ++ "</p>") description) in
  let* title := subscript project "title" in
  Ok (tpl "<div class=`project-item`>
        <h3 class=`project-title`>" ++ str title ++ tpl "</h3>
        <div class=`project-content`>
          " ++ image_html ++ tpl "
          <div class=`project-description`>
            " ++ desc_html ++ "
          </div>
        </div>
      </div>").

Definition generate_projects_html (projects : json) : result string :=
  let* projects := iter projects in
  let* project_entries := traverse generate_project_html projects in
  Ok (join "
      " project_entries).

Definition get_research_css : string :=
  tpl "
    /* ============================================
       RESEARCH PAGE STYLES
       Styles specific to the research page
       ============================================ */
    
    /* Page introduction section */
    .research-intro {
      margin-bottom: 2rem;             /* Space below intro */
    }
    
    /* Research interests heading */
    .research-intro h1 {
      font-family: 'Roboto Slab', serif;  /* Serif font */
      font-size: 1.6rem;               /* Large heading */
      font-weight: 700;                /* Bold */
      color: var(--text-color);        /* Text color */
      margin-bottom: 0.75rem;          /* Space below */
    }
    
    /* Research interests list */
    .research-interests {
      color: var(--text-color);        /* Text color */
      font-size: 1rem;                 /* Standard size */
      font-style: italic;              /* Italic for emphasis */
      margin-bottom: 1.5rem;           /* Space below */
      padding-bottom: 1rem;            /* Padding above border */
      border-bottom: 1px solid var(--border-color);  /* Bottom border */
    }

    /* Research projects section heading */
    .projects-heading {
      font-family: 'Roboto Slab', serif;  /* Serif font */
      font-size: 1.4rem;               /* Heading size */
      font-weight: 700;                /* Bold */
      color: var(--text-color);        /* Text color */
      margin-bottom: 1.5rem;           /* Space below heading */
      padding-bottom: 0.4rem;          /* Padding above border */
      border-bottom: 1px solid var(--border-color);  /* Underline border */
    }

    /* Individual project item */
    .project-item {
      margin-bottom: 2.5rem;           /* Space between projects */
      padding-bottom: 2rem;            /* Padding above border */
      border-bottom: 1px solid var(--border-color);  /* Bottom border separator */
    }
    
    /* Remove border from last project */
    .project-item:last-child {
      border-bottom: none;             /* No border on last item */
      margin-bottom: 0;                /* No bottom margin */
      padding-bottom: 0;               /* No padding */
    }

    /* Project title */
    .project-title {
      font-family: 'Roboto Slab', serif;  /* Serif font */
      font-size: 1.15rem;              /* Slightly larger */
      font-weight: 600;                /* Semi-bold */
      color: #800020;                  /* Burgundy color */
      margin-bottom: 1rem;             /* Space below title */
      line-height: 1.4;                /* Line height */
    }

    /* Project content container (image + description) */
    .project-content {
      display: block;                  /* Block layout for float */
    }

    /* Project image container */
    .project-image {
      float: left;                     /* Float image to left */
      width: 700px;                    /* Larger fixed width */
      margin-right: 1.5rem;            /* Space between image and text */
      margin-bottom: 0.75rem;          /* Space below image */
      border-radius: 4px;              /* Rounded corners */
      overflow: hidden;                /* Hide overflow */
      border: 1px solid var(--border-color);  /* Border around image */
    }
    
    /* Project image */
    .project-image img {
      width: 100%;                     /* Fill container width */
      height: auto;                    /* Maintain aspect ratio */
      display: block;                  /* Remove inline spacing */
    }

    /* Project description container */
    .project-description {
      /* No overflow hidden - allows text to wrap under floated image */
    }

    /* Project description paragraphs */
    .project-description p {
      color: var(--text-color);        /* Text color */
      font-size: 0.95rem;              /* Slightly smaller */
      line-height: 1.7;                /* Comfortable line height */
      margin-bottom: 0.75rem;          /* Space between paragraphs */
      text-align: justify;             /* Justify text */
    }
    
    /* Remove margin from last paragraph */
    .project-description p:last-child {
      margin-bottom: 0;                /* No bottom margin */
    }

    /* Clear float after project content */
    .project-content::after {
      content: ``;
      display: table;
      clear: both;
    }

    /* ============================================
       RESPONSIVE STYLES FOR RESEARCH
       ============================================ */
    @media (max-width: 900px) {
      /* Stack project content vertically on tablet/mobile */
      .project-image {
        float: none;                   /* Remove float */
        width: 100%;                   /* Full width */
        max-width: 520px;              /* Maximum width */
        margin-right: 0;               /* Remove right margin */
        margin-bottom: 1rem;           /* Space below */
      }
    }
".

(** The head of the page, as [build_html] builds it: the older entry
    point without a sidebar argument, then the page CSS put in front of
    every closing style tag. *)
Definition head_html (content : json) : result string :=
  let* meta := subscript content "meta" in
  let* title := subscript meta "title" in
  let* meta := subscript content "meta" in
  let* description := subscript meta "description" in
  let* head_html := get_head_html title description JNull in
  let research_css := get_research_css in
  Ok (str_replace head_html "</style>" (research_css ++ "</style>")).

Definition build_html (content sidebar : json) : result string :=
  let* head_html := head_html content in
  let* interests := subscript content "interests" in
  let* interests_html := generate_interests_html interests in
  let* projects := subscript content "projects" in
  let* projects_html := generate_projects_html projects in
  let* nav_brand := get_nav_brand sidebar in
  let* nav_html := get_nav_html "research" JNull in
  let* sidebar_html := get_sidebar_html sidebar in
  let* footer_html := get_footer_html sidebar in
  Ok (tpl "<!DOCTYPE html>
<html lang=`en`>
" ++ head_html ++ tpl "
<body>
  <!-- Navigation Bar -->
  <nav>
    <div class=`nav-container`>
      <!-- Brand/Logo link to home -->
      <a href=`index.html` class=`nav-brand`>" ++ str nav_brand ++ tpl "</a>
      
      <!-- Mobile hamburger menu button -->
      <button class=`nav-toggle` aria-label=`Toggle navigation`>
        <i class=`fas fa-bars`></i>
      </button>
      
      <!-- Navigation links - research is active -->
      <ul class=`nav-links`>
        " ++ nav_html ++ tpl "
      </ul>
      
      <!-- Dark/light theme toggle button -->
      <button class=`theme-toggle` aria-label=`Toggle dark mode`>
        <i class=`fas fa-moon`></i>
      </button>
    </div>
  </nav>

  <!-- Two-Column Layout Container -->
  <div class=`page-wrapper`>
    <!-- Left Sidebar with Profile -->
    " ++ sidebar_html ++ tpl "

    <!-- Main Content Area -->
    <main class=`main-content`>
      <!-- Research Interests Section -->
      <div class=`research-intro`>
        <h1>Research Interests</h1>
        <p class=`research-interests`>" ++ interests_html ++ tpl "</p>
      </div>

      <!-- Research Projects Section -->
      <h2 class=`projects-heading`>Research Projects</h2>
      " ++ projects_html ++ "
    </main>
  </div>

  <!-- Page Footer -->
  " ++ footer_html ++ "

  <!-- JavaScript for Navigation and Theme Toggle -->
  <script>" ++ get_js_code ++ "</script>
</body>
</html>").

Section Main.
Variable json_loads : string -> result json.

Definition load_content (path : string) : io json :=
  do* text := read_text path in
  lift (json_loads text).

Definition sidebar_path : string := "sidebar.json".
Definition content_path : string := "content_research.json".
Definition output_path : string := "research.html".

(** [main] returns the exit code of the script. *)
Definition main : io Z :=
  do* found := path_exists sidebar_path in
  if negb found then
    print ("Error: " ++ sidebar_path ++ " not found.") ;;
    ret 1%Z
  else
  do* found := path_exists content_path in
  if negb found then
    print ("Error: " ++ content_path ++ " not found.") ;;
    ret 1%Z
  else
  print ("Loading sidebar from " ++ sidebar_path ++ "...") ;;
  do* sidebar := load_sidebar json_loads sidebar_path in
  print ("Loading content from " ++ content_path ++ "...") ;;
  do* content := load_content content_path in
  print "Building research.html..." ;;
  do* html := render (build_html content sidebar) in
  print ("Writing to " ++ output_path ++ "...") ;;
  write_text output_path html ;;
  print "Done!" ;;
  ret 0%Z.
End Main.

End build_research.

(* ===================================================================== *)
(** * build_publications.py: the publications page *)
(* ===================================================================== *)

Module build_publications.

Import sidebar.

Definition intro_link (link : json) : result string :=
  let* url := subscript link "url" in
  let* label := subscript link "label" in
  Ok (tpl "<a href=`" ++ str url ++ tpl "` target=`_blank` rel=`noopener`>[" ++ str label ++ "]</a>").

Definition generate_intro_links (links : json) : result string :=
  let* links := iter links in
  let* link_elements := traverse intro_link links in
  Ok (join " / " link_elements).

Definition paper_link (link : json) : result string :=
  let* url := subscript link "url" in
  let* label := subscript link "label" in
  Ok (tpl "<a href=`" ++ str url ++ tpl "` class=`paper-link` target=`_blank` rel=`noopener`>[" ++ str label ++ "]</a>").

Definition generate_paper_links (links : json) : result string :=
  let* links := iter links in
  let* link_elements := traverse paper_link links in
  Ok (join " | " link_elements).

Definition placeholder : string := "assets/img/pub_placeholder.png".

Definition generate_paper_html (paper : json) (show_image : bool) : result string :=
  let* authors := get paper "authors" (JStr EmptyString) in
  let* links := get paper "links" (JList []) in
  let* links_html := generate_paper_links links in
  if show_image then
    let* image := get paper "image" (JStr placeholder) in
    let* title := subscript paper "title" in
    let* venue := subscript paper "venue" in
    Ok (tpl "<div class=`paper-item`>
          <div class=`paper-image`>
            <img src=`" ++ str image ++ tpl "` alt=`" ++ str title ++ tpl "`>
          </div>
          <div class=`paper-content`>
            <h3 class=`paper-title`>" ++ str title ++ tpl "</h3>
            <p class=`paper-authors`>" ++ str authors ++ tpl "</p>
            <p class=`paper-venue`>" ++ str venue ++ tpl "</p>
            <div class=`paper-links`>
              " ++ links_html ++ "
            </div>
          </div>
        </div>")
  else
    let* title := subscript paper "title" in
    let* venue := subscript paper "venue" in
    Ok (tpl "<div class=`paper-item no-image`>
          <div class=`paper-content`>
            <h3 class=`paper-title`>" ++ str title ++ tpl "</h3>
            <p class=`paper-authors`>" ++ str authors ++ tpl "</p>
            <p class=`paper-venue`>" ++ str venue ++ tpl "</p>
            <div class=`paper-links`>
              " ++ links_html ++ "
            </div>
          </div>
        </div>").

Definition generate_year_section (year_group : json) (show_image : bool) : result string :=
  let* year := get year_group "year" JNull in
  let* papers := subscript year_group "papers" in
  let* papers := iter papers in
  let* paper_entries := traverse (fun paper => generate_paper_html paper show_image) papers in
  let papers_html := join "
        " paper_entries in
  if truthy year then
    Ok (tpl "<div class=`year-section`>
        <h2 class=`year-heading`>" ++ str year ++ "</h2>
        " ++ papers_html ++ "
      </div>")
  else
    Ok (tpl "<div class=`year-section no-year`>
        " ++ papers_html ++ "
      </div>").

Definition generate_publications_html (publications : json) : result string :=
  let* publications := iter publications in
  let* sections := traverse (fun year_group => generate_year_section year_group true) publications in
  Ok (join "
      " sections).

Definition generate_conference_abstracts_html (abstracts : json) : result string :=
  if negb (truthy abstracts) then Ok EmptyString
  else
    let* abstracts := iter abstracts in
    let* sections := traverse (fun year_group => generate_year_section year_group false) abstracts in
    Ok (join "
      " sections).

Definition get_publications_css : string :=
  "
    /* ============================================
       PUBLICATIONS PAGE STYLES
       Styles specific to the publications listing
       ============================================ */
    
    /* Section divider for Conference Abstracts */
    .section-divider {
      margin-top: 0.75rem;               /* Space above */
      margin-bottom: 0.3rem;             /* Space below */
    }
    
    /* Section title (Conference Abstracts) */
    .section-title {
      font-family: 'Roboto Slab', serif;  /* Serif font */
      font-size: 1.3rem;                 /* Heading size */
      font-weight: 700;                  /* Bold */
      color: var(--text-color);          /* Text color */
      margin-bottom: 0.15rem;            /* Space below */
    }

    /* Page introduction section */
    .pub-intro {
      margin-bottom: 0.75rem;          /* Space below intro */
    }
    
    /* Introduction title */
    .pub-intro h1 {
      font-family: 'Roboto Slab', serif;  /* Serif font */
      font-size: 1.4rem;               /* Heading */
      font-weight: 700;                /* Bold */
      color: var(--text-color);        /* Text color */
      margin-bottom: 0.2rem;           /* Space below */
    }
    
    /* Introduction description and links */
    .pub-intro p {
      color: var(--text-color);        /* Text color */
      font-size: 0.9rem;               /* Smaller */
      margin-bottom: 0;                /* No bottom margin */
    }
    
    .pub-intro a {
      color: var(--text-color);        /* Link color */
      font-weight: 500;                /* Medium weight */
    }
    
    .pub-intro a:hover {
      text-decoration: underline;      /* Underline on hover */
    }

    /* Year section container */
    .year-section {
      margin-bottom: 1rem;             /* Space between year sections */
    }
    
    /* Year heading */
    .year-heading {
      font-family: 'Roboto Slab', serif;  /* Serif font */
      font-size: 1.2rem;               /* Heading size */
      font-weight: 700;                /* Bold */
      color: var(--text-color);        /* Text color */
      margin-bottom: 0.2rem;           /* Space from ruler to content */
      padding-bottom: 0.1rem;          /* Space from text to ruler */
      border-bottom: 1px solid var(--border-color);  /* Underline border */
    }
    
    /* Year section without year heading */
    .year-section.no-year {
      margin-top: 0.5rem;              /* Slight top margin */
    }

    /* Individual paper item */
    .paper-item {
      display: flex;                   /* Flexbox for image + content layout */
      gap: 0.75rem;                    /* Space between image and content */
      padding: 0.4rem 0;               /* Vertical padding */
    }
    
    /* Paper item without image */
    .paper-item.no-image {
      gap: 0;                          /* No gap needed */
      padding: 0.3rem 0;               /* Slightly less padding for abstracts */
    }
    
    /* Last paper in section */
    .paper-item:last-child {
      padding-bottom: 0;               /* No padding on last item */
    }

    /* Paper thumbnail image container */
    .paper-image {
      width: 100px;                    /* Fixed width for thumbnail */
      height: 65px;                    /* Fixed height for thumbnail */
      flex-shrink: 0;                  /* Prevent shrinking */
      overflow: hidden;                /* Hide overflow */
      border-radius: 4px;              /* Rounded corners */
      border: 1px solid var(--border-color);  /* Border around image */
      background: var(--bg-color);     /* Background color */
    }
    
    /* Paper thumbnail image */
    .paper-image img {
      width: 100%;                     /* Fill container width */
      height: 100%;                    /* Fill container height */
      object-fit: cover;               /* Cover entire area */
    }

    /* Paper content container */
    .paper-content {
      flex: 1;                         /* Fill remaining space */
      min-width: 0;                    /* Allow text truncation */
    }

    /* Reset paragraph styles inside paper content */
    .paper-content p {
      margin-bottom: 0;                /* Override main-content p margins */
      text-align: left;                /* Left align, not justify */
    }

    /* Paper title */
    .paper-content .paper-title {
      font-family: 'Roboto Slab', serif;  /* Serif font */
      font-size: 0.95rem;              /* Slightly smaller */
      font-weight: 600;                /* Semi-bold */
      color: var(--accent-color);      /* Accent color from theme */
      margin-bottom: 0;                /* No space below */
      line-height: 1.35;               /* Line height */
    }

    /* Paper authors */
    .paper-content .paper-authors {
      font-size: 0.8rem;               /* Smaller font */
      color: var(--text-color);        /* Text color */
      margin-bottom: 0;                /* No space below */
      line-height: 1.35;               /* Line height */
    }

    /* Paper venue (journal/conference) */
    .paper-content .paper-venue {
      font-size: 0.8rem;               /* Smaller font */
      color: var(--text-color);        /* Muted color */
      font-style: italic;              /* Italic for venue */
      margin-bottom: 0;                /* No space below */
    }

    /* Paper action links container */
    .paper-links {
      font-size: 0.75rem;              /* Small font for links */
    }

    /* Individual paper link */
    .paper-link {
      color: var(--action-link-color); /* Action link color from theme */
      margin-right: 0.25rem;           /* Space between links */
    }
    
    .paper-link:hover {
      color: var(--action-link-hover); /* Action link hover from theme */
      text-decoration: underline;      /* Underline on hover */
    }

    /* ============================================
       RESPONSIVE STYLES FOR PUBLICATIONS
       ============================================ */
    @media (max-width: 600px) {
      /* Stack paper items vertically on mobile */
      .paper-item {
        flex-direction: column;        /* Stack vertically */
      }
      
      /* Full width image on mobile */
      .paper-image {
        width: 100%;                   /* Full width */
        height: 150px;                 /* Taller height */
      }
    }
".

(** The head of the page, as [build_html] builds it: the older entry
    point with the sidebar, then the page CSS put in front of every
    closing style tag. *)
Definition head_html (content sidebar : json) : result string :=
  let* meta := subscript content "meta" in
  let* title := subscript meta "title" in
  let* meta := subscript content "meta" in
  let* description := subscript meta "description" in
  let* head_html := get_head_html title description sidebar in
  let publications_css := get_publications_css in
  Ok (str_replace head_html "</style>" (publications_css ++ "</style>")).

(** The heading block put in front of the conference abstracts. *)
Definition abstracts_heading : string :=
  tpl "
      <!-- Conference Abstracts Section -->
      <div class=`section-divider`>
        <h1 class=`section-title`>Selected Conference Abstracts</h1>
      </div>
      ".

Definition conference_abstracts_block (content : json) : result string :=
  let* conference_abstracts := get content "conference_abstracts" (JList []) in
  if truthy conference_abstracts then
    let* abstracts_html := generate_conference_abstracts_html conference_abstracts in
    Ok (abstracts_heading ++ abstracts_html)
  else Ok EmptyString.

Definition build_html (content sidebar : json) : result string :=
  let* head_html := head_html content sidebar in
  let* intro := subscript content "intro" in
  let* links := subscript intro "links" in
  let* intro_links := generate_intro_links links in
  let* publications := subscript content "publications" in
  let* publications_html := generate_publications_html publications in
  let* conference_abstracts_html := conference_abstracts_block content in
  let* nav_brand := get_nav_brand sidebar in
  let* nav_html := get_nav_html "publications" JNull in
  let* sidebar_html := get_sidebar_html sidebar in
  let* intro := subscript content "intro" in
  let* intro_title := subscript intro "title" in
  let* intro := subscript content "intro" in
  let* intro_description := subscript intro "description" in
  let* footer_html := get_footer_html sidebar in
  Ok (tpl "<!DOCTYPE html>
<html lang=`en`>
" ++ head_html ++ tpl "
<body>
  <!-- Navigation Bar -->
  <nav>
    <div class=`nav-container`>
      <!-- Brand/Logo link to home -->
      <a href=`index.html` class=`nav-brand`>" ++ str nav_brand ++ tpl "</a>
      
      <!-- Mobile hamburger menu button -->
      <button class=`nav-toggle` aria-label=`Toggle navigation`>
        <i class=`fas fa-bars`></i>
      </button>
      
      <!-- Navigation links - publications is active -->
      <ul class=`nav-links`>
        " ++ nav_html ++ tpl "
      </ul>
      
      <!-- Dark/light theme toggle button -->
      <button class=`theme-toggle` aria-label=`Toggle dark mode`>
        <i class=`fas fa-moon`></i>
      </button>
    </div>
  </nav>

  <!-- Two-Column Layout Container -->
  <div class=`page-wrapper`>
    <!-- Left Sidebar with Profile -->
    " ++ sidebar_html ++ tpl "

    <!-- Main Content Area -->
    <main class=`main-content`>
      <!-- Introduction Section -->
      <div class=`pub-intro`>
        <h1>" ++ str intro_title ++ "</h1>
        <p>" ++ str intro_description ++ " " ++ intro_links ++ "</p>
      </div>

      <!-- Publications by Year -->
      " ++ publications_html ++ "
      " ++ conference_abstracts_html ++ "
    </main>
  </div>

  <!-- Page Footer -->
  " ++ footer_html ++ "

  <!-- JavaScript for Navigation and Theme Toggle -->
  <script>" ++ get_js_code ++ "</script>
</body>
</html>").

Section Main.
Variable json_loads : string -> result json.

Definition load_content (path : string) : io json :=
  do* text := read_text path in
  lift (json_loads text).

Definition sidebar_path : string := "sidebar.json".
Definition content_path : string := "content_publications.json".
Definition output_path : string := "publications.html".

(** [main] returns the exit code of the script. *)
Definition main : io Z :=
  do* found := path_exists sidebar_path in
  if negb found then
    print ("Error: " ++ sidebar_path ++ " not found.") ;;
    ret 1%Z
  else
  do* found := path_exists content_path in
  if negb found then
    print ("Error: " ++ content_path ++ " not found.") ;;
    ret 1%Z
  else
  print ("Loading sidebar from " ++ sidebar_path ++ "...") ;;
  do* sidebar := load_sidebar json_loads sidebar_path in
  print ("Loading content from " ++ content_path ++ "...") ;;
  do* content := load_content content_path in
  print "Building publications.html..." ;;
  do* html := render (build_html content sidebar) in
  print ("Writing to " ++ output_path ++ "...") ;;
  write_text output_path html ;;
  print "Done!" ;;
  ret 0%Z.
End Main.

End build_publications.

(* ===================================================================== *)
(** * build_teaching.py: the teaching page *)
(* ===================================================================== *)

Module build_teaching.

Import sidebar.

Definition generate_course_html (course : json) : result string :=
  let* semesters := subscript course "semesters" in
  let* semesters := join_iterable ", " semesters in
  let* has_host := has "host" course in
  let* host_html :=
    if has_host then
      let* host := subscript course "host" in
      if truthy host then
        let* host := subscript course "host" in
        Ok (tpl " <span class=`course-host`>[Host: " ++ str host ++ "]</span>")
      else Ok EmptyString
    else Ok EmptyString in
  let* code := subscript course "code" in
  let* name := subscript course "name" in
  Ok (tpl "<li class=`course-list-item`>
            <span class=`course-code`>" ++ str code ++ tpl "</span>
            <span class=`course-name`>" ++ str name ++ tpl "</span>
            <span class=`course-semesters`>(" ++ semesters ++ ")</span>" ++ host_html ++ "
          </li>").

Definition generate_role_section_html (role_group : json) : result string :=
  let* role := subscript role_group "role" in
  let* institution := subscript role_group "institution" in
  let* department := get role_group "department" (JStr EmptyString) in
  let* location := subscript role_group "location" in
  let* period := subscript role_group "period" in
  let* description := subscript role_group "description" in
  let* courses_list := subscript role_group "courses_list" in
  let* courses_list := iter courses_list in
  let* course_entries := traverse generate_course_html courses_list in
  let courses_html := join "
          " course_entries in
  let department_html :=
    if truthy department then
      tpl "<span class=`role-department`>" ++ str department ++ "</span>, "
    else EmptyString in
  Ok (tpl "<div class=`role-section`>
        <ul class=`course-list`>
          " ++ courses_html ++ tpl "
        </ul>
        <p class=`role-description`>" ++ str description ++ tpl "</p>
        <div class=`role-meta`>
          <span class=`role-title`>" ++ str role ++ "</span>, 
          " ++ department_html ++ tpl "<span class=`role-institution`>" ++ str institution ++ tpl "</span>, 
          <span class=`role-location`>" ++ str location ++ tpl "</span>
          <span class=`role-period`>(" ++ str period ++ ")</span>
        </div>
      </div>").

Definition generate_courses_html (courses : json) : result string :=
  let* courses := iter courses in
  let* sections := traverse generate_role_section_html courses in
  Ok (join "
      " sections).

Definition generate_student_html (student : json) : result string :=
  let* name := subscript student "name" in
  let* program := subscript student "program" in
  let* period := subscript student "period" in
  let* institution := subscript student "institution" in
  Ok (tpl "<div class=`student-item`>
            <div class=`student-name`>" ++ str name ++ tpl "</div>
            <div class=`student-program`>" ++ str program ++ " (" ++ str period ++ tpl ")</div>
            <div class=`student-institution`>" ++ str institution ++ "</div>
          </div>").

Definition generate_mentoring_category_html (category : json) : result string :=
  let* category_type := subscript category "type" in
  let* students := subscript category "students" in
  let* students := iter students in
  let* student_entries := traverse generate_student_html students in
  let students_html := join "
          " student_entries in
  Ok (tpl "<div class=`mentoring-category`>
          <h4 class=`category-heading`>" ++ str category_type ++ "</h4>
          " ++ students_html ++ "
        </div>").

Definition generate_mentoring_html (mentoring : json) : result string :=
  let* mentoring := iter mentoring in
  let* categories := traverse generate_mentoring_category_html mentoring in
  Ok (join "
        " categories).

Definition get_teaching_css : string :=
  tpl "
    /* ============================================
       TEACHING PAGE STYLES
       Styles specific to the teaching page
       ============================================ */
    
    /* Section headings */
    .section-heading {
      font-family: 'Roboto Slab', serif;  /* Serif font */
      font-size: 1.4rem;               /* Heading size */
      font-weight: 700;                /* Bold */
      color: var(--text-color);        /* Text color */
      margin-bottom: 0.6rem;           /* Reduced space below heading */
      padding-bottom: 0.4rem;          /* Padding above border */
      border-bottom: 1px solid var(--border-color);  /* Underline border */
    }

    /* Courses section */
    .courses-section {
      margin-bottom: 2rem;             /* Space below section */
    }

    /* Role section (TA, Lecturer, etc.) */
    .role-section {
      margin-bottom: 0.75rem;          /* Space between role sections */
      padding-bottom: 0.75rem;         /* Padding above border */
      border-bottom: 1px solid var(--border-color);  /* Bottom border */
    }
    
    /* Remove border from last role section */
    .role-section:last-child {
      border-bottom: none;             /* No border on last item */
      padding-bottom: 0;               /* No padding */
    }

    /* Course list - first element */
    .course-list {
      list-style: none;                /* Remove default bullets */
      padding-left: 0;                 /* Remove left padding */
      margin: 0;                       /* No margin */
    }

    /* Course list item */
    .course-list-item {
      padding: 0.05rem 0;              /* Minimal vertical padding */
      padding-left: 1rem;              /* Indent */
      position: relative;              /* For bullet positioning */
      font-size: 0.9rem;               /* Font size */
    }
    
    /* Custom bullet */
    .course-list-item::before {
      content: `•`;                    /* Bullet */
      position: absolute;              /* Position absolutely */
      left: 0;                         /* At left edge */
      color: var(--text-color);        /* Text color */
    }
    
    /* Course code */
    .course-code {
      font-weight: 600;                /* Semi-bold */
      color: var(--text-color);        /* Text color */
      margin-right: 0.25rem;           /* Space after code */
    }
    
    /* Course name */
    .course-name {
      color: var(--text-color);        /* Text color */
    }

    /* Course semesters */
    .course-semesters {
      color: var(--text-color);        /* Text color */
      font-size: 0.85rem;              /* Smaller font */
      margin-left: 0.25rem;            /* Space before */
    }

    /* Course host (for guest lectures) */
    .course-host {
      color: var(--text-muted);        /* Muted color */
      font-size: 0.85rem;              /* Smaller font */
      margin-left: 0.25rem;            /* Space before */
      font-style: italic;              /* Italic */
    }

    /* Role description - second element */
    .role-description {
      font-size: 0.9rem;               /* Smaller font */
      color: var(--text-color);        /* Text color */
      line-height: 1.6;                /* Line height */
      margin: 0.2rem 0;                /* Small vertical margin */
    }

    /* Role meta - last element (role, institution, location, period) */
    .role-meta {
      font-size: 0.85rem;              /* Smaller font */
      color: var(--text-muted);        /* Muted color */
      margin-top: 0.15rem;             /* Small space above */
    }
    
    /* Role title (Teaching Assistant, Lecturer, etc.) */
    .role-title {
      font-weight: 400;                /* Normal weight - no bold */
      color: var(--text-color);        /* Black color */
    }
    
    /* Role institution */
    .role-institution {
      font-weight: 400;                /* Normal weight */
    }
    
    /* Role department */
    .role-department {
      font-weight: 400;                /* Normal weight */
    }
    
    /* Role period */
    .role-period {
      color: var(--text-muted);        /* Muted color */
    }

    /* Mentoring section */
    .mentoring-section {
      margin-bottom: 2rem;             /* Space below section */
    }

    /* Mentoring category */
    .mentoring-category {
      margin-bottom: 0.75rem;          /* Space between categories */
    }
    
    /* Category heading */
    .category-heading {
      font-family: 'Roboto Slab', serif;  /* Serif font */
      font-size: 1rem;                 /* Standard size */
      font-weight: 600;                /* Semi-bold */
      color: var(--accent-color);      /* Accent color from theme */
      margin-bottom: 0.5rem;           /* Space below heading */
    }

    /* Individual student item */
    .student-item {
      margin-bottom: 0.75rem;          /* Space between students */
      padding-left: 1rem;              /* Indent */
      border-left: 2px solid var(--border-color);  /* Left border */
    }
    
    /* Student name */
    .student-name {
      font-weight: 600;                /* Semi-bold */
      color: var(--text-color);        /* Text color */
    }
    
    /* Student program */
    .student-program {
      font-size: 0.85rem;              /* Smaller font */
      color: var(--text-color);        /* Text color */
    }
    
    /* Student institution */
    .student-institution {
      font-size: 0.85rem;              /* Smaller font */
      color: var(--text-color);        /* Muted color */
      font-style: italic;              /* Italic */
    }
".

(** The head of the page, as [build_html] builds it: the older entry
    point with the sidebar, then the page CSS put in front of every
    closing style tag. *)
Definition head_html (content sidebar : json) : result string :=
  let* meta := subscript content "meta" in
  let* title := subscript meta "title" in
  let* meta := subscript content "meta" in
  let* description := subscript meta "description" in
  let* head_html := get_head_html title description sidebar in
  let teaching_css := get_teaching_css in
  Ok (str_replace head_html "</style>" (teaching_css ++ "</style>")).

Definition build_html (content sidebar : json) : result string :=
  let* head_html := head_html content sidebar in
  let* courses := subscript content "courses" in
  let* courses_html := generate_courses_html courses in
  let* mentoring := subscript content "mentoring" in
  let* mentoring_html := generate_mentoring_html mentoring in
  let* nav_brand := get_nav_brand sidebar in
  let* nav_html := get_nav_html "teaching" JNull in
  let* sidebar_html := get_sidebar_html sidebar in
  let* footer_html := get_footer_html sidebar in
  Ok (tpl "<!DOCTYPE html>
<html lang=`en`>
" ++ head_html ++ tpl "
<body>
  <!-- Navigation Bar -->
  <nav>
    <div class=`nav-container`>
      <!-- Brand/Logo link to home -->
      <a href=`index.html` class=`nav-brand`>" ++ str nav_brand ++ tpl "</a>
      
      <!-- Mobile hamburger menu button -->
      <button class=`nav-toggle` aria-label=`Toggle navigation`>
        <i class=`fas fa-bars`></i>
      </button>
      
      <!-- Navigation links - teaching is active -->
      <ul class=`nav-links`>
        " ++ nav_html ++ tpl "
      </ul>
      
      <!-- Dark/light theme toggle button -->
      <button class=`theme-toggle` aria-label=`Toggle dark mode`>
        <i class=`fas fa-moon`></i>
      </button>
    </div>
  </nav>

  <!-- Two-Column Layout Container -->
  <div class=`page-wrapper`>
    <!-- Left Sidebar with Profile -->
    " ++ sidebar_html ++ tpl "

    <!-- Main Content Area -->
    <main class=`main-content`>
      <!-- Courses Section -->
      <section class=`courses-section`>
        <h2 class=`section-heading`>Courses</h2>
        " ++ courses_html ++ tpl "
      </section>

      <!-- Mentoring Section -->
      <section class=`mentoring-section`>
        <h2 class=`section-heading`>Mentoring</h2>
        " ++ mentoring_html ++ "
      </section>
    </main>
  </div>

  <!-- Page Footer -->
  " ++ footer_html ++ "

  <!-- JavaScript for Navigation and Theme Toggle -->
  <script>" ++ get_js_code ++ "</script>
</body>
</html>").

Section Main.
Variable json_loads : string -> result json.

Definition load_content (path : string) : io json :=
  do* text := read_text path in
  lift (json_loads text).

Definition sidebar_path : string := "sidebar.json".
Definition content_path : string := "content_teaching.json".
Definition output_path : string := "teaching.html".

(** [main] returns the exit code of the script. *)
Definition main : io Z :=
  do* found := path_exists sidebar_path in
  if negb found then
    print ("Error: " ++ sidebar_path ++ " not found.") ;;
    ret 1%Z
  else
  do* found := path_exists content_path in
  if negb found then
    print ("Error: " ++ content_path ++ " not found.") ;;
    ret 1%Z
  else
  print ("Loading sidebar from " ++ sidebar_path ++ "...") ;;
  do* sidebar := load_sidebar json_loads sidebar_path in
  print ("Loading content from " ++ content_path ++ "...") ;;
  do* content := load_content content_path in
  print "Building teaching.html..." ;;
  do* html := render (build_html content sidebar) in
  print ("Writing to " ++ output_path ++ "...") ;;
  write_text output_path html ;;
  print "Done!" ;;
  ret 0%Z.
End Main.

End build_teaching.

(* ===================================================================== *)
(** * Notions used in the statements *)
(* ===================================================================== *)

Module Notions.

(** [counted p s k]: whatever follows [s], exactly [k] occurrences of [p]
    start inside [s]. *)
Definition counted (p s : string) (k : nat) : Prop :=
  forall r, occurrences p (s ++ r) = k + occurrences p r.

Definition lit_ok (p t : string) : bool :=
  match lit_scan p t with Some _ => true | None => false end.

Definition lit_count (p t : string) : nat :=
  match lit_scan p t with Some k => k | None => 0 end.

(** A template piece that begins with [t1 ++ t2] settles every
    occurrence of [pat] begun in the text before it with 1 to [k]
    characters: the occurrence ends inside [t1], or is refuted inside
    [t1 ++ t2]. *)
Fixpoint settled (pat t1 t2 : string) (k : nat) : bool :=
  match k with
  | O => true
  | S k' =>
      match pmatch (sdrop k pat) t1 with
      | Full => settled pat t1 t2 k'
      | _ =>
          match pmatch (sdrop k pat) (t1 ++ t2) with
          | Mismatch => settled pat t1 t2 k'
          | _ => false
          end
      end
  end.

(** [new] put into a text begins no occurrence of [pat] and ends none. *)
Definition inert (pat new : string) : bool :=
  match lit_scan pat new with Some O => true | _ => false end
  && match pmatch pat new with Mismatch => true | _ => false end
  && no_completion pat new (String.length pat - 1).

(** Replacement inside a template piece, when every occurrence of [old]
    that starts in the piece also ends in it. *)
Fixpoint lit_replace (old new : string) (skip : nat) (t : string) : option string :=
  match t with
  | EmptyString => match skip with O => Some EmptyString | S _ => None end
  | String c t' =>
      match skip with
      | S k => lit_replace old new k t'
      | O =>
          match pmatch old t with
          | Full =>
              option_map (String.append new)
                (lit_replace old new (String.length old - 1) t')
          | Mismatch => option_map (String c) (lit_replace old new 0 t')
          | RunsOff => None
          end
      end
  end.

Definition lit_replaced (old new t : string) : string :=
  match lit_replace old new 0 t with Some t' => t' | None => EmptyString end.

Definition lit_replace_ok (old new t : string) : bool :=
  match lit_replace old new 0 t with Some _ => true | None => false end.

(** [replaced old new s s']: whatever follows [s], replacing [old] by
    [new] turns [s] into [s'] and goes on after it afresh. *)
Definition replaced (old new s s' : string) : Prop :=
  forall r, replace_from old new 0 (s ++ r) = s' ++ replace_from old new 0 r.

(** No string of the document, key or value at any depth, has the
    character that opens a tag. *)
Fixpoint markup_free (v : json) : bool :=
  match v with
  | JStr s => lacks lt_char s
  | JList items => forallb markup_free items
  | JDict items =>
      forallb (fun kv => lacks lt_char (fst kv) && markup_free (snd kv)) items
  | _ => true
  end.

(** The marks the claims look for in the markup. *)
Definition active_class : string := tpl " class=`active`".
Definition new_tab_target : string := tpl " target=`_blank`".
Definition bio_line_tag : string := tpl "<span class=`bio-line`>".
Definition bio_paragraph_tag : string := tpl "<p class=`author__bio`>".
Definition abstracts_heading_mark : string :=
  tpl "<h1 class=`section-title`>Selected Conference Abstracts</h1>".
Definition paper_image_tag : string := tpl "<div class=`paper-image`>".
Definition background_image : string := "background-image".

(** The navigation list in the words of the specification: five entries
    in a fixed order, each marked active or not, the last one opening a
    new tab. *)
Definition nav_entry (href label : string) (active new_tab : bool) : string :=
  tpl "<li><a href=`" ++ href ++ tpl "`"
  ++ (if active then active_class else EmptyString)
  ++ (if new_tab then tpl " target=`_blank` rel=`noopener`" else EmptyString)
  ++ ">" ++ label ++ "</a></li>".

Definition nav_entries (b1 b2 b3 b4 b5 : bool) (cv : string) : string :=
  join "
        "
    [ nav_entry "index.html" "Biography" b1 false;
      nav_entry "research.html" "Research" b2 false;
      nav_entry "publications.html" "Publications" b3 false;
      nav_entry "teaching.html" "Teaching" b4 false;
      nav_entry cv "CV" b5 true ].

Definition nav_list (active_page cv : string) : string :=
  nav_entries (String.eqb "bio" active_page) (String.eqb "research" active_page)
    (String.eqb "publications" active_page) (String.eqb "teaching" active_page)
    (String.eqb "cv" active_page) cv.

Definition page_ids : list string :=
  ["bio"; "research"; "publications"; "teaching"; "cv"].

(** None of the four texts the affiliation template interpolates (logo
    value, institution, role, department lines joined by a line break)
    has the text [p]. *)
Definition no_mention (p : string) (aff : json) : Prop :=
  (forall v, get aff "logo_icon" (JStr "fa-university") = Ok v ->
             occurrences p (str v) = 0) /\
  (forall v, subscript aff "institution" = Ok v -> occurrences p (str v) = 0) /\
  (forall v, subscript aff "role" = Ok v -> occurrences p (str v) = 0) /\
  (forall d text, get aff "department" (JList []) = Ok d ->
                  join_iterable "<br>" d = Ok text -> occurrences p text = 0).

(** ** The texts the templates take from the documents

    [free_of p text]: the text does not hold [p].  The conditions below
    name, template by template, the texts that are put into the page,
    each under the test the code makes before it uses it, and say that
    none of them holds [p].  Where the template goes on after a text
    with characters that can end [p], the text is taken with them. *)
Definition free_of (p text : string) : Prop := occurrences p text = 0.

(** A link of [sidebar_links]: its icon, its label and, when it has
    one, its address. *)
Definition link_free (p : string) (link : json) : Prop :=
  (forall icon, get link "icon" (JStr "fas fa-link") = Ok icon ->
                free_of p (str icon)) /\
  (forall label, get link "label" (JStr EmptyString) = Ok label ->
                 free_of p (str label)) /\
  (forall url, get link "url" JNull = Ok url -> truthy url = true ->
               free_of p (str url)).

(** The image of the profile, when it has one: its address, and the
    name in the [alt] attribute with the quote and the bracket that
    close the tag after it. *)
Definition avatar_free (p : string) (profile : json) : Prop :=
  forall image, get profile "image" JNull = Ok image -> truthy image = true ->
    free_of p (str image) /\
    (forall name, subscript profile "name" = Ok name ->
                  free_of p (str name ++ tpl "`>")).

(** The bio of the profile: the lines when it has them, else the
    paragraph when it has one. *)
Definition bio_free (p : string) (profile : json) : Prop :=
  forall lines, get profile "bio_lines" JNull = Ok lines ->
    if truthy lines
    then forall items, iter lines = Ok items ->
                       Forall (fun line => free_of p (str line)) items
    else forall bio, get profile "bio" JNull = Ok bio -> truthy bio = true ->
                     free_of p (str bio).

(** What [get_sidebar_html] reads: the profile (image, name, bio) and
    the links. *)
Definition sidebar_free (p : string) (sb : json) : Prop :=
  (forall profile, subscript sb "profile" = Ok profile ->
     avatar_free p profile /\
     (forall name, subscript profile "name" = Ok name -> free_of p (str name)) /\
     bio_free p profile) /\
  (forall links items,
     get sb "sidebar_links" (JList []) = Ok links -> iter links = Ok items ->
     Forall (link_free p) items).

(** A link with an address and a label, of the introduction or of a
    paper. *)
Definition reference_free (p : string) (link : json) : Prop :=
  (forall url, subscript link "url" = Ok url -> free_of p (str url)) /\
  (forall label, subscript link "label" = Ok label -> free_of p (str label)).

(** A paper: authors, links, title and venue, and the image when the
    list shows images. *)
Definition paper_free (p : string) (show_image : bool) (paper : json) : Prop :=
  (forall authors, get paper "authors" (JStr EmptyString) = Ok authors ->
                   free_of p (str authors)) /\
  (forall links items,
     get paper "links" (JList []) = Ok links -> iter links = Ok items ->
     Forall (reference_free p) items) /\
  (show_image = true ->
   forall image, get paper "image" (JStr build_publications.placeholder) = Ok image ->
                 free_of p (str image)) /\
  (forall title, subscript paper "title" = Ok title -> free_of p (str title)) /\
  (forall venue, subscript paper "venue" = Ok venue -> free_of p (str venue)).

(** A year group: the year when it has one, and its papers. *)
Definition year_group_free (p : string) (show_image : bool) (group : json) : Prop :=
  (forall year, get group "year" JNull = Ok year -> truthy year = true ->
                free_of p (str year)) /\
  (forall papers items,
     subscript group "papers" = Ok papers -> iter papers = Ok items ->
     Forall (paper_free p show_image) items).

Definition year_groups_free (p : string) (show_image : bool) (groups : json) : Prop :=
  forall items, iter groups = Ok items ->
                Forall (year_group_free p show_image) items.

(** The eight colours of the style sheet, with the defaults of the
    code. *)
Definition light_palette : list (string * json) :=
  [ ("accent_color", JStr "#0D9488"); ("accent_hover", JStr "#0F766E");
    ("link_color", JStr "#0066cc"); ("link_hover", JStr "#004499") ].

Definition dark_palette : list (string * json) :=
  [ ("accent_color", JStr "#2DD4BF"); ("accent_hover", JStr "#5EEAD4");
    ("link_color", JStr "#60A5FA"); ("link_hover", JStr "#93C5FD") ].

Definition palette_free (p : string) (table : json) (palette : list (string * json)) : Prop :=
  Forall (fun entry => forall colour, get table (fst entry) (snd entry) = Ok colour ->
                                      free_of p (str colour)) palette.

(** The head of a page built with the sidebar: title and description
    of the content, and the colours of the sidebar's theme. *)
Definition head_free (p : string) (content sb : json) : Prop :=
  (forall meta, subscript content "meta" = Ok meta ->
     (forall title, subscript meta "title" = Ok title -> free_of p (str title)) /\
     (forall description, subscript meta "description" = Ok description ->
                          free_of p (str description))) /\
  (forall light dark, sidebar.theme_tables sb = Ok (light, dark) ->
     palette_free p light light_palette /\ palette_free p dark dark_palette).

(** The introduction of the publications page: its links, its title
    with the closing tag of the heading after it, its description. *)
Definition intro_free (p : string) (content : json) : Prop :=
  forall intro, subscript content "intro" = Ok intro ->
    (forall links items,
       subscript intro "links" = Ok links -> iter links = Ok items ->
       Forall (reference_free p) items) /\
    (forall title, subscript intro "title" = Ok title ->
                   free_of p (str title ++ "</h1>")) /\
    (forall description, subscript intro "description" = Ok description ->
                         free_of p (str description)).

(** The footer: year and name of the copyright line, with the blank
    between them. *)
Definition footer_free (p : string) (sb : json) : Prop :=
  forall footer year name,
    subscript sb "footer" = Ok footer ->
    subscript footer "copyright_year" = Ok year ->
    subscript footer "copyright_name" = Ok name ->
    free_of p (str year ++ " " ++ str name).

(** Every text [build_html] of the publications page takes from the
    content and the sidebar. *)
Definition publications_free (p : string) (content sb : json) : Prop :=
  head_free p content sb /\
  (forall brand, sidebar.get_nav_brand sb = Ok brand -> free_of p (str brand)) /\
  sidebar_free p sb /\
  intro_free p content /\
  (forall groups, subscript content "publications" = Ok groups ->
                  year_groups_free p true groups) /\
  (forall groups, get content "conference_abstracts" (JList []) = Ok groups ->
                  truthy groups = true -> year_groups_free p false groups) /\
  footer_free p sb.

(** The lines of the CSS variable block that carry the fixed default
    accent and link colours, light and dark. *)
Definition default_colours : list string :=
  [ "--accent-color: #0D9488;";
    "--action-link-color: #0066cc;";
    "--accent-color: #2DD4BF;";
    "--action-link-color: #60A5FA;" ].

(** Two sidebar dictionaries that agree on every key but [cv_file]. *)
Definition same_but_cv (d1 d2 : list (string * json)) : Prop :=
  forall key, key <> "cv_file" -> dict_find key d1 = dict_find key d2.

(** The CV entry of the navigation list on a page other than the CV. *)
Definition cv_entry (href : string) : string := nav_entry href "CV" false true.

(** The shape shared by the four [main] functions: the paths and the
    renderer are what differs. *)
Definition driver (json_loads : string -> result json)
    (content_path output_path : string)
    (build_html : json -> json -> result string) : io Z :=
  do* found := path_exists "sidebar.json" in
  if negb found then
    print ("Error: " ++ "sidebar.json" ++ " not found.") ;;
    ret 1%Z
  else
  do* found := path_exists content_path in
  if negb found then
    print ("Error: " ++ content_path ++ " not found.") ;;
    ret 1%Z
  else
  print ("Loading sidebar from " ++ "sidebar.json" ++ "...") ;;
  do* sidebar := sidebar.load_sidebar json_loads "sidebar.json" in
  print ("Loading content from " ++ content_path ++ "...") ;;
  do* content := (do* text := read_text content_path in lift (json_loads text)) in
  print ("Building " ++ output_path ++ "...") ;;
  do* html := render (build_html content sidebar) in
  print ("Writing to " ++ output_path ++ "...") ;;
  write_text output_path html ;;
  print "Done!" ;;
  ret 0%Z.

(** The driver stops on a missing input: one line naming a missing file,
    exit code 1, and nothing else done. *)
Definition reports_missing (content_path : string) (main : io Z) (w : world) : Prop :=
  exists missing,
    (missing = "sidebar.json" \/ missing = content_path) /\
    files w !! missing = None /\
    main w =
      (Ok 1%Z,
       World (files w) (events w ++ [Print ("Error: " ++ missing ++ " not found.")])).

(** What a driver has done when the renderer raises: both inputs loaded,
    the renderer called, and no file written. *)
Definition events_until_render (content_path output_path : string) : list event :=
  [ Print "Loading sidebar from sidebar.json...";
    Load "sidebar.json";
    Print ("Loading content from " ++ content_path ++ "...");
    Load content_path;
    Print ("Building " ++ output_path ++ "...");
    Render ].

Definition render_failure_keeps_files (json_loads : string -> result json)
    (content_path output_path : string)
    (build_html : json -> json -> result string) (main : io Z) : Prop :=
  forall (w : world) (sidebar_text content_text : string) (sidebar content : json)
         (e : exn),
    files w !! "sidebar.json" = Some sidebar_text ->
    files w !! content_path = Some content_text ->
    json_loads sidebar_text = Ok sidebar ->
    json_loads content_text = Ok content ->
    build_html content sidebar = Raise e ->
    main w =
      (Raise e,
       World (files w) (events w ++ events_until_render content_path output_path)).

Definition missing_meta_raises (build_html : json -> json -> result string) : Prop :=
  forall (items : list (string * json)) (sidebar : json),
    dict_find "meta" items = None ->
    build_html (JDict items) sidebar = Raise (KeyError "meta").

(** Running the driver again on the files the first run left gives the
    same result, the same events and the same files. *)
Definition rerun_same (main : io Z) : Prop :=
  forall fs : gmap string string,
    main (World (files (snd (main (World fs [])))) []) = main (World fs []).

(** The tags looked for in the shared shell. *)
Definition shell_tags : list string :=
  [bio_line_tag; bio_paragraph_tag; abstracts_heading_mark; paper_image_tag].

Definition list_tags : list string := [abstracts_heading_mark; paper_image_tag].

(** How many times a tag of the shell is the opening tag of a bio line,
    of a bio paragraph. *)
Definition line_tags (p : string) : nat :=
  if String.eqb p bio_line_tag then 1 else 0.

Definition paragraph_tags (p : string) : nat :=
  if String.eqb p bio_paragraph_tag then 1 else 0.

Definition nav_before (b1 b2 b3 b4 : bool) : string :=
  nav_entry "index.html" "Biography" b1 false ++ "
        " ++ nav_entry "research.html" "Research" b2 false ++ "
        " ++ nav_entry "publications.html" "Publications" b3 false ++ "
        " ++ nav_entry "teaching.html" "Teaching" b4 false ++ "
        " ++ tpl "<li><a href=`".

Definition nav_after (b5 : bool) : string :=
  tpl "`" ++ (if b5 then active_class else EmptyString)
  ++ tpl " target=`_blank` rel=`noopener`" ++ ">" ++ "CV" ++ "</a></li>".

Fixpoint count_true (bs : list bool) : nat :=
  match bs with
  | [] => 0
  | true :: rest => S (count_true rest)
  | false :: rest => count_true rest
  end.

End Notions.

Import Notions.

(* ===================================================================== *)
(** * Sample documents and worlds *)
(* ===================================================================== *)

Module Samples.

(** A stand-in for [json.load] that reads the text of an empty object
    and nothing else. *)
Definition toy_loads (text : string) : result json :=
  if String.eqb text "{}" then Ok (JDict []) else Raise JSONDecodeError.

Definition empty_directory : world := World ∅ [].

Definition directory_with_old_page : world :=
  World (<["sidebar.json" := "{}"]>
           (<["content_index.json" := "{}"]>
              (<["index.html" := "an older page"]> ∅))) [].

Definition sample_paper : list (string * json) :=
  [("title", JStr "A paper"); ("venue", JStr "A venue")].

(** A sidebar whose [cv_file] closes the [href] attribute and adds a
    class of its own. *)
Definition breaking_cv_sidebar : json :=
  JDict [("cv_file", JStr (tpl "cv.pdf` class=`active"))].

Definition plain_cv_sidebar : json := JDict [("cv_file", JStr "files/cv.pdf")].

(** A profile with one bio line that itself holds a bio-line element. *)
Definition nested_line_sidebar : json :=
  JDict [("profile",
          JDict [("name", JStr "N");
                 ("bio_lines",
                  JList [JStr (tpl "<span class=`bio-line`>x</span>")])])].

Definition plain_lines_sidebar : json :=
  JDict [("profile",
          JDict [("name", JStr "N"); ("bio_lines", JList [JStr "A"; JStr "B"])])].

(** A sidebar whose texts hold markup of their own, none of it a bio
    element. *)
Definition emphatic_sidebar : json :=
  JDict
    [ ("nav_brand", JStr "<b>A. Author</b>");
      ("profile",
       JDict [("name", JStr "<em>N</em>"); ("image", JStr "me.png");
              ("bio_lines", JList [JStr "<b>A</b>"; JStr "B"])]);
      ("footer",
       JDict [("copyright_year", JInt 2025);
              ("copyright_name", JStr "<i>N</i>")]) ].

(** A profile with an image whose name ends in an unfinished bio-line
    tag: the characters that close the image tag finish it. *)
Definition unfinished_tag_sidebar : json :=
  JDict [("profile",
          JDict [("name", JStr (tpl "N <span class=`bio-line"));
                 ("image", JStr "me.png");
                 ("bio_lines", JList [JStr "A"; JStr "B"])])].

Definition plain_bio_sidebar : json :=
  JDict [("profile", JDict [("name", JStr "N"); ("bio", JStr "About me")])].

(** An affiliation with an icon glyph whose institution carries an
    element with a background image of its own. *)
Definition styled_institution : json :=
  JDict [("logo_icon", JStr "fa-university");
         ("institution",
          JStr (tpl "<b style=`background-image: url('x.png')`>U</b>"));
         ("role", JStr "Researcher")].

Definition svg_affiliation : json :=
  JDict [("logo_icon", JStr "assets/logo.svg");
         ("institution", JStr "A University");
         ("role", JStr "Researcher");
         ("department", JList [JStr "Department A"; JStr "Department B"])].

Definition glyph_affiliation : json :=
  JDict [("logo_icon", JStr "fa-university");
         ("institution", JStr "A University");
         ("role", JStr "Researcher");
         ("department", JList [JStr "Department A"; JStr "Department B"])].

Definition themed_sidebar : json :=
  JDict
    [ ("nav_brand", JStr "A. Author");
      ("profile", JDict [("name", JStr "A. Author"); ("bio", JStr "Researcher")]);
      ("sidebar_links",
       JList [JDict [("icon", JStr "fas fa-envelope"); ("label", JStr "Email");
                     ("url", JStr "mailto:author@example.org")];
              JDict [("label", JStr "Somewhere")]]);
      ("footer",
       JDict [("copyright_year", JInt 2025); ("copyright_name", JStr "A. Author")]);
      ("theme",
       JDict [("light", JDict [("accent_color", JStr "#FF0000");
                               ("link_color", JStr "#00FF00")]);
              ("dark", JDict [("accent_color", JStr "#0000FF")])]);
      ("cv_file", JStr "files/cv.pdf") ].

Definition sample_index : json :=
  JDict
    [ ("meta", JDict [("title", JStr "Home"); ("description", JStr "Home page")]);
      ("bio", JList [JStr "First paragraph."; JStr "Second paragraph."]);
      ("affiliations",
       JList [JDict [("institution", JStr "A University");
                     ("role", JStr "Researcher");
                     ("department", JList [JStr "Department A"])]]);
      ("degrees",
       JList [JDict [("degree", JStr "PhD"); ("field", JStr "Computing");
                     ("institution", JStr "A University");
                     ("location", JStr "A City")]]);
      ("news", JList [JDict [("date", JStr "2025"); ("content", JStr "News.")]]) ].

Definition sample_research : json :=
  JDict
    [ ("meta", JDict [("title", JStr "Research"); ("description", JStr "Research")]);
      ("interests", JList [JStr "Logic"; JStr "Proofs"]);
      ("projects",
       JList [JDict [("title", JStr "A project");
                     ("description", JList [JStr "What it is."])]]) ].

Definition sample_publications : json :=
  JDict
    [ ("meta", JDict [("title", JStr "Papers"); ("description", JStr "Papers")]);
      ("intro",
       JDict [("title", JStr "Publications"); ("description", JStr "All papers.");
              ("links", JList [JDict [("label", JStr "Scholar");
                                      ("url", JStr "https://example.org")]])]);
      ("publications",
       JList [JDict [("year", JStr "2025");
                     ("papers",
                      JList [JDict [("title", JStr "A paper");
                                    ("venue", JStr "A venue")]])]]);
      ("conference_abstracts",
       JList [JDict [("papers",
                      JList [JDict [("title", JStr "An abstract");
                                    ("venue", JStr "A meeting")]])]]) ].

Definition sample_teaching : json :=
  JDict
    [ ("meta", JDict [("title", JStr "Teaching"); ("description", JStr "Teaching")]);
      ("courses",
       JList [JDict [("role", JStr "Lecturer"); ("institution", JStr "A University");
                     ("location", JStr "A City"); ("period", JStr "2024");
                     ("description", JStr "Lectures.");
                     ("courses_list",
                      JList [JDict [("code", JStr "CS 1"); ("name", JStr "Intro");
                                    ("semesters", JList [JStr "Fall 2024"])]])]]);
      ("mentoring",
       JList [JDict [("type", JStr "Students");
                     ("students",
                      JList [JDict [("name", JStr "S"); ("program", JStr "MSc");
                                    ("period", JStr "2024");
                                    ("institution", JStr "A University")]])]]) ].

(** A content document without conference abstracts whose introduction
    holds a heading of the kind the abstracts section has. *)
Definition heading_in_intro : json :=
  JDict
    [ ("meta", JDict [("title", JStr "Papers"); ("description", JStr "Papers")]);
      ("intro",
       JDict [("title", JStr "Publications");
              ("description",
               JStr (tpl "<h1 class=`section-title`>Selected Conference Abstracts</h1>"));
              ("links", JList [])]);
      ("publications", JList []) ].

(** A content document without conference abstracts whose texts hold
    markup of their own, none of it the heading. *)
Definition emphatic_publications : json :=
  JDict
    [ ("meta", JDict [("title", JStr "Papers"); ("description", JStr "Papers")]);
      ("intro",
       JDict [("title", JStr "<i>Publications</i>");
              ("description", JStr "All <b>papers</b>.");
              ("links", JList [])]);
      ("publications",
       JList [JDict [("year", JStr "2025");
                     ("papers",
                      JList [JDict [("title", JStr "A paper");
                                    ("authors", JStr "<b>A. Author</b>, B. Author");
                                    ("venue", JStr "A venue")]])]]) ].

(** A content document without conference abstracts whose introduction
    has as title the heading of the abstracts without its closing tag. *)
Definition unfinished_heading_in_title : json :=
  JDict
    [ ("meta", JDict [("title", JStr "Papers"); ("description", JStr "Papers")]);
      ("intro",
       JDict [("title",
               JStr (tpl "<h1 class=`section-title`>Selected Conference Abstracts"));
              ("description", JStr "All papers.");
              ("links", JList [])]);
      ("publications", JList []) ].

(** A sidebar whose footer has the heading of the abstracts in two
    halves, one as year and one as name. *)
Definition heading_across_footer : json :=
  JDict
    [ ("nav_brand", JStr "A. Author");
      ("profile", JDict [("name", JStr "A. Author")]);
      ("footer",
       JDict [("copyright_year", JStr "<h1");
              ("copyright_name",
               JStr (tpl "class=`section-title`>Selected Conference Abstracts</h1>"))]) ].

Definition publications_without_abstracts : json :=
  JDict
    [ ("meta", JDict [("title", JStr "Papers"); ("description", JStr "Papers")]);
      ("intro",
       JDict [("title", JStr "Publications"); ("description", JStr "All papers.");
              ("links", JList [])]);
      ("publications",
       JList [JDict [("papers",
                      JList [JDict [("title", JStr "A paper");
                                    ("venue", JStr "A venue");
                                    ("image", JStr "assets/img/paper.png")]])]]) ].

End Samples.

Import Samples.

(* ===================================================================== *)
(** * Runs of the build drivers *)
(* ===================================================================== *)

Module Runs.

(** What a driver does once the renderer has returned the page. *)
Definition events_of_write (output_path html : string) : list event :=
  [ Print ("Writing to " ++ output_path ++ "...");
    Write output_path html;
    Print "Done!" ].

(** The run on two inputs that are there, parse and render a page the
    [utf-8] codec can write: the page is written to the output path, the
    exit code is 0, and the events are the loads, the rendering and the
    write, in this order. *)
Definition writes_the_page (json_loads : string -> result json)
    (content_path output_path : string)
    (build_html : json -> json -> result string) (main : io Z) : Prop :=
  forall (w : world) (sidebar_text content_text : string) (sidebar content : json)
         (html : string),
    files w !! "sidebar.json" = Some sidebar_text ->
    files w !! content_path = Some content_text ->
    json_loads sidebar_text = Ok sidebar ->
    json_loads content_text = Ok content ->
    build_html content sidebar = Ok html ->
    encodable html = true ->
    main w =
      (Ok 0%Z,
       World (<[output_path := html]> (files w))
         (events w ++ events_until_render content_path output_path
          ++ events_of_write output_path html)).

(** The run that renders a page the codec cannot write (a page with a
    lone surrogate, which [json.load] accepts in a document): the output
    file has been opened and emptied when [f.write] raises
    [UnicodeEncodeError], which leaves the driver; the closing line is
    not printed. *)
Definition empties_the_output (json_loads : string -> result json)
    (content_path output_path : string)
    (build_html : json -> json -> result string) (main : io Z) : Prop :=
  forall (w : world) (sidebar_text content_text : string) (sidebar content : json)
         (html : string),
    files w !! "sidebar.json" = Some sidebar_text ->
    files w !! content_path = Some content_text ->
    json_loads sidebar_text = Ok sidebar ->
    json_loads content_text = Ok content ->
    build_html content sidebar = Ok html ->
    encodable html = false ->
    main w =
      (Raise UnicodeEncodeError,
       World (<[output_path := EmptyString]> (files w))
         (events w ++ events_until_render content_path output_path
          ++ [ Print ("Writing to " ++ output_path ++ "...");
               Write output_path EmptyString ])).

(** The run on a sidebar file that [json.load] rejects: the exception
    leaves the driver after the sidebar file has been opened; the content
    file is not opened and no file is written. *)
Definition stops_at_malformed_sidebar (json_loads : string -> result json)
    (content_path : string) (main : io Z) : Prop :=
  forall (w : world) (sidebar_text content_text : string) (e : exn),
    files w !! "sidebar.json" = Some sidebar_text ->
    files w !! content_path = Some content_text ->
    json_loads sidebar_text = Raise e ->
    main w =
      (Raise e,
       World (files w)
         (events w ++ [ Print "Loading sidebar from sidebar.json...";
                        Load "sidebar.json" ])).

(** The run on a content file that [json.load] rejects. *)
Definition stops_at_malformed_content (json_loads : string -> result json)
    (content_path : string) (main : io Z) : Prop :=
  forall (w : world) (sidebar_text content_text : string) (sidebar : json) (e : exn),
    files w !! "sidebar.json" = Some sidebar_text ->
    files w !! content_path = Some content_text ->
    json_loads sidebar_text = Ok sidebar ->
    json_loads content_text = Raise e ->
    main w =
      (Raise e,
       World (files w)
         (events w ++ [ Print "Loading sidebar from sidebar.json...";
                        Load "sidebar.json";
                        Print ("Loading content from " ++ content_path ++ "...");
                        Load content_path ])).

(** Whatever the run does, every file but the output file is afterwards
    what it was before. *)
Definition touches_only (output_path : string) (main : io Z) : Prop :=
  forall (w : world) (path : string),
    path <> output_path ->
    files (snd (main w)) !! path = files w !! path.

(** The exit code tells what happened to the files: 0 only when the
    output file has been written, 1 with the files as they were; a run
    that ends with an exception leaves the files as they were, unless
    the exception is the [UnicodeEncodeError] of the write, which leaves
    the output file empty. *)
Definition exit_code_is_honest (output_path : string) (main : io Z) : Prop :=
  forall w : world,
    match fst (main w) with
    | Ok code =>
        (code = 0%Z /\
         exists html, files (snd (main w)) = <[output_path := html]> (files w)) \/
        (code = 1%Z /\ files (snd (main w)) = files w)
    | Raise e =>
        files (snd (main w)) = files w \/
        (e = UnicodeEncodeError /\
         files (snd (main w)) = <[output_path := EmptyString]> (files w))
    end.

(** Two drivers run one after the other leave the same files in either
    order. *)
Definition same_files_either_order (first second : io Z) : Prop :=
  forall w : world,
    files (snd (second (snd (first w)))) = files (snd (first (snd (second w)))).

(** What a driver started on the files [fs] leaves in its output file,
    if it gets as far as opening it: the page, or nothing when the page
    cannot be encoded. *)
Definition page_written (json_loads : string -> result json)
    (content_path : string) (build_html : json -> json -> result string)
    (fs : gmap string string) : option string :=
  match fs !! "sidebar.json", fs !! content_path with
  | Some sidebar_text, Some content_text =>
      match json_loads sidebar_text with
      | Ok sidebar =>
          match json_loads content_text with
          | Ok content =>
              match build_html content sidebar with
              | Ok html => Some (if encodable html then html else EmptyString)
              | Raise _ => None
              end
          | Raise _ => None
          end
      | Raise _ => None
      end
  | _, _ => None
  end.

(** A stand-in for [json.load] that knows the sample documents by the
    name written in the file. *)
Definition sample_loads (text : string) : result json :=
  if String.eqb text "sidebar" then Ok themed_sidebar
  else if String.eqb text "index" then Ok sample_index
  else if String.eqb text "research" then Ok sample_research
  else Raise JSONDecodeError.

Definition sample_directory : world :=
  World (<["sidebar.json" := "sidebar"]>
           (<["content_index.json" := "index"]>
              (<["content_research.json" := "research"]>
                 (<["notes.txt" := "kept"]> ∅)))) [].

(** A sidebar whose brand is a lone surrogate, and a stand-in for
    [json.load] that yields it. *)
Definition surrogate_sidebar : json :=
  JDict
    [ ("nav_brand",
       JStr (String (Ascii.ascii_of_nat 237)
               (String (Ascii.ascii_of_nat 160)
                  (String (Ascii.ascii_of_nat 128) EmptyString))));
      ("profile", JDict [("name", JStr "A. Author")]);
      ("footer",
       JDict [("copyright_year", JInt 2025); ("copyright_name", JStr "A. Author")]) ].

Definition surrogate_loads (text : string) : result json :=
  if String.eqb text "sidebar" then Ok surrogate_sidebar
  else if String.eqb text "index" then Ok sample_index
  else Raise JSONDecodeError.

(** A directory whose sidebar file is not JSON. *)
Definition directory_with_bad_sidebar : world :=
  World (<["sidebar.json" := "{"]> (<["content_index.json" := "index"]> ∅)) [].

Definition directory_with_bad_content : world :=
  World (<["sidebar.json" := "sidebar"]> (<["content_index.json" := "{"]> ∅)) [].

End Runs.

Import Runs.

(* ===================================================================== *)
(** * The shape of the documents the builders are written for *)
(* ===================================================================== *)

Module Shapes.

Definition anything (v : json) : bool := true.

Definition is_string (v : json) : bool :=
  match v with JStr _ => true | _ => false end.

Definition is_dict (v : json) : bool :=
  match v with JDict _ => true | _ => false end.

Definition is_list (v : json) : bool :=
  match v with JList _ => true | _ => false end.

(** A list every item of which is [ok]. *)
Definition list_of (ok : json -> bool) (v : json) : bool :=
  match v with JList items => forallb ok items | _ => false end.

(** An object that has the key, with an [ok] value. *)
Definition required (key : string) (ok : json -> bool) (v : json) : bool :=
  match v with
  | JDict items =>
      match dict_find key items with Some x => ok x | None => false end
  | _ => false
  end.

(** An object in which the key, when it is there, has an [ok] value. *)
Definition optional (key : string) (ok : json -> bool) (v : json) : bool :=
  match v with
  | JDict items =>
      match dict_find key items with Some x => ok x | None => true end
  | _ => false
  end.

(** [sidebar.json] as the shell functions read it: the brand, the
    profile with its name, the footer with its two fields; the links,
    when given, a list of objects; the bio lines, when given, a list. *)
Definition profile_shape (profile : json) : bool :=
  required "name" anything profile && optional "bio_lines" is_list profile.

Definition footer_shape (footer : json) : bool :=
  required "copyright_year" anything footer
  && required "copyright_name" anything footer.

Definition sidebar_shape (sidebar : json) : bool :=
  required "nav_brand" anything sidebar
  && required "profile" profile_shape sidebar
  && optional "sidebar_links" (list_of is_dict) sidebar
  && required "footer" footer_shape sidebar.

(** The theme, when given: an object whose light and dark tables, when
    given, are objects. *)
Definition theme_shape (sidebar : json) : bool :=
  optional "theme"
    (fun theme => optional "light" is_dict theme && optional "dark" is_dict theme)
    sidebar.

Definition meta_shape (content : json) : bool :=
  required "meta"
    (fun meta => required "title" anything meta && required "description" anything meta)
    content.

(** [content_index.json] *)
Definition affiliation_shape (aff : json) : bool :=
  optional "department" (list_of is_string) aff
  && optional "logo_icon" is_string aff
  && required "institution" anything aff
  && required "role" anything aff.

Definition degree_shape (d : json) : bool :=
  required "degree" anything d && required "field" anything d
  && required "institution" anything d && required "location" anything d.

Definition news_shape (n : json) : bool :=
  required "date" anything n && required "content" anything n.

Definition sponsor_shape (s : json) : bool :=
  required "logo" anything s && required "name" anything s.

Definition index_shape (content : json) : bool :=
  meta_shape content
  && required "bio" is_list content
  && required "affiliations" (list_of affiliation_shape) content
  && optional "degrees" (list_of degree_shape) content
  && required "news" (list_of news_shape) content
  && optional "sponsors" (list_of sponsor_shape) content.

(** [content_research.json] *)
Definition project_shape (project : json) : bool :=
  required "title" anything project && required "description" is_list project.

Definition research_shape (content : json) : bool :=
  meta_shape content
  && required "interests" (list_of is_string) content
  && required "projects" (list_of project_shape) content.

(** [content_publications.json] *)
Definition link_shape (link : json) : bool :=
  required "url" anything link && required "label" anything link.

Definition paper_shape (paper : json) : bool :=
  optional "links" (list_of link_shape) paper
  && required "title" anything paper
  && required "venue" anything paper.

Definition year_group_shape (year_group : json) : bool :=
  required "papers" (list_of paper_shape) year_group.

Definition intro_shape (intro : json) : bool :=
  required "links" (list_of link_shape) intro
  && required "title" anything intro
  && required "description" anything intro.

Definition publications_shape (content : json) : bool :=
  meta_shape content
  && required "intro" intro_shape content
  && required "publications" (list_of year_group_shape) content
  && optional "conference_abstracts" (list_of year_group_shape) content.

(** [content_teaching.json] *)
Definition course_shape (course : json) : bool :=
  required "semesters" (list_of is_string) course
  && required "code" anything course
  && required "name" anything course.

Definition role_group_shape (role_group : json) : bool :=
  required "role" anything role_group
  && required "institution" anything role_group
  && required "location" anything role_group
  && required "period" anything role_group
  && required "description" anything role_group
  && required "courses_list" (list_of course_shape) role_group.

Definition student_shape (student : json) : bool :=
  required "name" anything student && required "program" anything student
  && required "period" anything student && required "institution" anything student.

Definition category_shape (category : json) : bool :=
  required "type" anything category
  && required "students" (list_of student_shape) category.

Definition teaching_shape (content : json) : bool :=
  meta_shape content
  && required "courses" (list_of role_group_shape) content
  && required "mentoring" (list_of category_shape) content.

End Shapes.

Import Shapes.

(* ===================================================================== *)
(** * Counting the elements of a rendered list *)
(* ===================================================================== *)

Module Counts.

Definition flag (b : bool) : nat := if b then 1 else 0.

(** The key is there, with a value that counts as true. *)
Definition given (key : string) (v : json) : bool :=
  match get v key JNull with
  | Ok x => truthy x
  | Raise _ => false
  end.

(** The sum of [n] over the items. *)
Definition total (n : json -> nat) (items : list json) : nat :=
  list_sum (map n items).

(** The items under a key, and their number. *)
Definition items_of (key : string) (v : json) : list json :=
  match subscript v key with
  | Ok x => match iter x with Ok l => l | Raise _ => [] end
  | Raise _ => []
  end.

Definition size_of (key : string) (v : json) : nat := List.length (items_of key v).

(** A generator applied to a list without tags in its strings puts the
    mark into its output [n] times for an item, summed over the items. *)
Definition marks_per_item (mark : string) (n : json -> nat)
    (generate : json -> result string) : Prop :=
  forall (items : list json) (out : string),
    markup_free (JList items) = true ->
    generate (JList items) = Ok out ->
    occurrences mark out = total n items.

(** The mark once for every item. *)
Definition one_per_item (mark : string) (generate : json -> result string) : Prop :=
  forall (items : list json) (out : string),
    markup_free (JList items) = true ->
    generate (JList items) = Ok out ->
    occurrences mark out = List.length items.

(** The marks counted in the research, publications and teaching
    pages. *)
Definition project_item_tag : string := tpl "<div class=`project-item`>".
Definition project_image_tag : string := tpl "<div class=`project-image`>".
Definition year_section_tag : string := tpl "<div class=`year-section".
Definition year_heading_tag : string := tpl "<h2 class=`year-heading`>".
Definition role_section_tag : string := tpl "<div class=`role-section`>".
Definition role_department_tag : string := tpl "<span class=`role-department`>".
Definition course_item_tag : string := tpl "<li class=`course-list-item`>".
Definition course_host_tag : string := tpl "<span class=`course-host`>".
Definition category_tag : string := tpl "<div class=`mentoring-category`>".
Definition student_item_tag : string := tpl "<div class=`student-item`>".

Definition research_marks : list string := [project_item_tag; project_image_tag].
Definition publication_marks : list string :=
  [year_section_tag; year_heading_tag; paper_image_tag].
Definition teaching_marks : list string :=
  [role_section_tag; role_department_tag; course_item_tag; course_host_tag;
   category_tag; student_item_tag].

Definition sample_links : list json :=
  [ JDict [("icon", JStr "fas fa-envelope"); ("label", JStr "Email");
           ("url", JStr "mailto:author@example.org")];
    JDict [("label", JStr "Somewhere")];
    JDict [("label", JStr "Nowhere"); ("url", JStr EmptyString)] ].

Definition sample_projects : list json :=
  [ JDict [("title", JStr "A project"); ("image", JStr "a.png");
           ("description", JList [JStr "What it is."])];
    JDict [("title", JStr "Another");
           ("description", JList [JStr "One."; JStr "Two."])] ].

Definition sample_year_groups : list json :=
  [ JDict [("year", JStr "2025");
           ("papers", JList [JDict sample_paper; JDict sample_paper])];
    JDict [("papers", JList [JDict sample_paper])] ].

Definition sample_role_groups : list json :=
  [ JDict [("role", JStr "Lecturer"); ("institution", JStr "A University");
           ("location", JStr "A City"); ("period", JStr "2025");
           ("description", JStr "Taught.");
           ("courses_list",
            JList [ JDict [("semesters", JList [JStr "Fall 2025"]);
                           ("code", JStr "C1"); ("name", JStr "Logic");
                           ("host", JStr "A. Host")];
                    JDict [("semesters", JList []);
                           ("code", JStr "C2"); ("name", JStr "Proofs");
                           ("host", JStr EmptyString)] ])] ].

Definition sample_categories : list json :=
  [ JDict [("type", JStr "Graduate students");
           ("students",
            JList [ JDict [("name", JStr "A"); ("program", JStr "PhD");
                           ("period", JStr "2025");
                           ("institution", JStr "A University")];
                    JDict [("name", JStr "B"); ("program", JStr "MS");
                           ("period", JStr "2024");
                           ("institution", JStr "A University")] ])];
    JDict [("type", JStr "Undergraduates"); ("students", JList [])] ].

End Counts.

Import Counts.

(* ===================================================================== *)
(** * Keys left out *)
(* ===================================================================== *)

Module Defaults.

(** A renderer gives on an object without the key what it gives on the
    same object with the key set to [v]. *)
Definition same_with (key : string) (v : json) (render : json -> result string) : Prop :=
  forall items : list (string * json),
    dict_find key items = None ->
    render (JDict ((key, v) :: items)) = render (JDict items).

(** The same for every value that counts as false: null, false, 0, the
    empty string, the empty list, the empty object. *)
Definition same_with_falsy (key : string) (render : json -> result string) : Prop :=
  forall v : json, truthy v = false -> same_with key v render.

Definition bare_index : list (string * json) :=
  [ ("meta", JDict [("title", JStr "Home"); ("description", JStr "Home page")]);
    ("bio", JList [JStr "First paragraph."]);
    ("affiliations", JList []);
    ("news", JList []) ].

End Defaults.

Import Defaults.

(* ===================================================================== *)
(** * The head of a page and its style sheet *)
(* ===================================================================== *)

Module Heads.

(** The head as [get_head_html] returns it for the title and the
    description of the content, before the page adds its own CSS. *)
Definition plain_head (content sidebar : json) : result string :=
  let* meta := subscript content "meta" in
  let* title := subscript meta "title" in
  let* meta := subscript content "meta" in
  let* description := subscript meta "description" in
  sidebar.get_head_html title description sidebar.

Definition head_end : string := "</style>
</head>".

(** [head] is the plain head with the page CSS put right in front of its
    closing style tag, and has no other closing style tag. *)
Definition inserted (page_css : string) (plain : result string) (head : string) : Prop :=
  exists before,
    plain = Ok (before ++ head_end) /\
    head = before ++ page_css ++ head_end /\
    occurrences "</style>" head = 1.

End Heads.

Import Heads.

(* ===================================================================== *)
(** * The colours of the theme *)
(* ===================================================================== *)

Module Themes.

(** What a colour table gives for a key: the value under it, written as
    text, or the default. *)
Definition colour (table : json) (key default : string) : string :=
  match get table key (JStr default) with
  | Ok v => str v
  | Raise _ => default
  end.

(** The four colour variables that end a block of CSS variables, after
    the line that precedes them in the block. *)
Definition variables (opening accent accent_hover link link_hover : string) : string :=
  opening ++ accent ++ ";
      --accent-hover: " ++ accent_hover ++ ";
      --action-link-color: " ++ link ++ ";
      --action-link-hover: " ++ link_hover ++ ";
    }".

(** The variable block of the light mode ends the [:root] rule, which
    alone has the navigation height; the one of the dark mode ends the
    [data-theme] rule, which alone has the dark border colour. *)
Definition light_opening : string := "--nav-height: 50px;
      --accent-color: ".

Definition dark_opening : string := "--border-color: #3a3f4b;
      --accent-color: ".

(** The style sheet has the colours of the two tables in its two
    variable blocks, the defaults standing in for what a table leaves
    out. *)
Definition themed (css : string) (light dark : json) : Prop :=
  contains
    (variables light_opening
       (colour light "accent_color" "#0D9488") (colour light "accent_hover" "#0F766E")
       (colour light "link_color" "#0066cc") (colour light "link_hover" "#004499"))
    css /\
  contains
    (variables dark_opening
       (colour dark "accent_color" "#2DD4BF") (colour dark "accent_hover" "#5EEAD4")
       (colour dark "link_color" "#60A5FA") (colour dark "link_hover" "#93C5FD"))
    css.

(** The text in front of a suffix. *)
Fixpoint strip_suffix (suffix s : string) : option string :=
  if String.eqb s suffix then Some EmptyString
  else match s with
       | EmptyString => None
       | String c s' => option_map (String c) (strip_suffix suffix s')
       end.

Definition has_suffix (suffix s : string) : bool :=
  match strip_suffix suffix s with Some _ => true | None => false end.

End Themes.

Import Themes.

Module MoreSamples.

(** A profile with both forms of the bio. *)
Definition both_bios_profile : json :=
  JDict [("name", JStr "N"); ("bio", JStr "About me");
         ("bio_lines", JList [JStr "A"; JStr "B"])].

Definition both_bios_sidebar : json := JDict [("profile", both_bios_profile)].

End MoreSamples.

Import MoreSamples.

(* ===================================================================== *)
(** * Entries and sections that cannot be rendered *)
(* ===================================================================== *)

Module Failures.

(** A generator over a list stops at the first entry that it cannot
    render on its own, with the exception of that entry: the entries
    before it render, the entries after it are not looked at. *)
Definition first_failure (generate : json -> result string) : Prop :=
  forall (good : list json) (bad : json) (rest : list json) (e : exn),
    Forall (fun x => exists out, generate (JList [x]) = Ok out) good ->
    generate (JList [bad]) = Raise e ->
    generate (JList (good ++ bad :: rest)) = Raise e.

(** A renderer raises [KeyError] for a key that is missing, on an object
    of which the part read before the key is [ready]. *)
Definition missing_key_raises (key : string) (ready : json -> bool)
    (render : json -> result string) : Prop :=
  forall items : list (string * json),
    ready (JDict items) = true ->
    dict_find key items = None ->
    render (JDict items) = Raise (KeyError key).

Definition news_with_a_gap : list json :=
  [ JDict [("date", JStr "2025"); ("content", JStr "News.")];
    JDict [("date", JStr "2024")];
    JStr "not an entry" ].

End Failures.

Import Failures.

(* ===================================================================== *)
(** * Facts about text *)
(* ===================================================================== *)

Module TextFacts.

Lemma app_cons (c : ascii) (s r : string) : String c s ++ r = String c (s ++ r).
Proof. reflexivity. Qed.

Lemma app_nil_l (r : string) : EmptyString ++ r = r.
Proof. reflexivity. Qed.

Lemma append_nil_r (s : string) : s ++ EmptyString = s.
Proof.
  induction s as [|c s IH]; [reflexivity |]. now rewrite app_cons, IH.
Qed.

Lemma append_assoc (a b c : string) : (a ++ b) ++ c = a ++ b ++ c.
Proof.
  induction a as [|x a IH]; [reflexivity |]. now rewrite !app_cons, IH.
Qed.

Lemma length_append (a b : string) :
  String.length (a ++ b) = String.length a + String.length b.
Proof.
  induction a as [|x a IH]; [reflexivity |]. rewrite app_cons. simpl. now rewrite IH.
Qed.

Lemma lacks_app (c : ascii) (a b : string) :
  lacks c (a ++ b) = lacks c a && lacks c b.
Proof.
  induction a as [|x a IH]; [reflexivity |].
  rewrite app_cons. simpl. rewrite IH. now rewrite andb_assoc.
Qed.

Lemma occurrences_cons (p : string) (c : ascii) (s : string) :
  occurrences p (String c s) =
  (if has_prefix p (String c s) then 1 else 0) + occurrences p s.
Proof. reflexivity. Qed.

Lemma pmatch_full (p t : string) :
  pmatch p t = Full -> forall r, has_prefix p (t ++ r) = true.
Proof.
  revert t. induction p as [|a p IH]; intros t H r; [reflexivity |].
  destruct t as [|d t]; simpl in H; [discriminate |].
  simpl. destruct (Ascii.eqb a d); [| discriminate].
  simpl. now apply IH.
Qed.

Lemma pmatch_mismatch (p t : string) :
  pmatch p t = Mismatch -> forall r, has_prefix p (t ++ r) = false.
Proof.
  revert t. induction p as [|a p IH]; intros t H r; [discriminate |].
  destruct t as [|d t]; simpl in H; [discriminate |].
  simpl. destruct (Ascii.eqb a d); [| reflexivity].
  simpl. now apply IH.
Qed.

Lemma counted_total (p s : string) (k : nat) :
  counted p s k -> occurrences p s = k.
Proof.
  intros H. specialize (H EmptyString). rewrite append_nil_r in H.
  simpl in H. lia.
Qed.

Lemma counted_eq (p s : string) (k k' : nat) :
  counted p s k' -> k = k' -> counted p s k.
Proof. now intros H ->. Qed.

Lemma counted_nil (p : string) : counted p EmptyString 0.
Proof. intros r. reflexivity. Qed.

Lemma counted_app (p a b : string) (i j : nat) :
  counted p a i -> counted p b j -> counted p (a ++ b) (i + j).
Proof.
  intros Ha Hb r. rewrite append_assoc, Ha, Hb. lia.
Qed.

Lemma lit_scan_sound (p t : string) (k : nat) :
  lit_scan p t = Some k -> counted p t k.
Proof.
  revert k. induction t as [|c t IH]; intros k H r.
  - injection H as <-. reflexivity.
  - simpl in H.
    change (String c t ++ r) with (String c (t ++ r)).
    rewrite occurrences_cons.
    change (String c (t ++ r)) with (String c t ++ r).
    destruct (pmatch p (String c t)) eqn:E; try discriminate;
      destruct (lit_scan p t) as [k'|]; try discriminate;
      injection H as <-.
    + rewrite (pmatch_full _ _ E). rewrite (IH k' eq_refl). lia.
    + rewrite (pmatch_mismatch _ _ E). rewrite (IH k' eq_refl). lia.
Qed.

Lemma counted_lit (p t : string) :
  lit_ok p t = true -> counted p t (lit_count p t).
Proof.
  unfold lit_ok, lit_count. intros H. apply lit_scan_sound.
  destruct (lit_scan p t); [reflexivity | discriminate].
Qed.

(** An interpolated value that lacks the first character of the pattern
    starts no occurrence. *)
Lemma counted_hole (c : ascii) (p' h : string) :
  lacks c h = true -> counted (String c p') h 0.
Proof.
  induction h as [|d h IH]; intros H r; [reflexivity |].
  simpl in H. apply andb_prop in H as [Hd Hh].
  change (String d h ++ r) with (String d (h ++ r)).
  rewrite occurrences_cons. simpl has_prefix.
  rewrite Ascii.eqb_sym. apply negb_true_iff in Hd. rewrite Hd. simpl.
  now apply IH.
Qed.

Lemma counted_join (p sep : string) (items : list string) :
  counted p sep 0 ->
  Forall (fun x => counted p x 0) items ->
  counted p (join sep items) 0.
Proof.
  intros Hsep H. induction H as [|x l Hx Hl IH]; [apply counted_nil |].
  destruct l as [|y l]; [exact Hx |].
  change (join sep (x :: y :: l)) with (x ++ sep ++ join sep (y :: l)).
  apply (counted_app _ _ _ 0 0); [exact Hx |].
  apply (counted_app _ _ _ 0 0); [exact Hsep | exact IH].
Qed.

(** The same with one occurrence of the pattern in every item. *)
Lemma counted_join_each (p sep : string) (items : list string) (i : nat) :
  counted p sep 0 ->
  Forall (fun x => counted p x i) items ->
  counted p (join sep items) (List.length items * i).
Proof.
  intros Hsep H. induction H as [|x l Hx Hl IH]; [apply counted_nil |].
  destruct l as [|y l].
  - simpl. eapply counted_eq; [exact Hx | lia].
  - change (join sep (x :: y :: l)) with (x ++ sep ++ join sep (y :: l)).
    eapply counted_eq.
    + eapply counted_app; [exact Hx |]. eapply counted_app; [exact Hsep | exact IH].
    + simpl. lia.
Qed.

(** ** A pattern with a character the interpolated value lacks *)

Lemma sdrop_nil (n : nat) : sdrop n EmptyString = EmptyString.
Proof. destruct n; reflexivity. Qed.

Lemma has_prefix_through (q : ascii) (h : string) :
  forall (p s p2 : string) (j : nat),
    has_prefix p (h ++ s) = true ->
    lacks q h = true ->
    sdrop j p = String q p2 ->
    String.length h <= j /\ has_prefix (sdrop (String.length h) p) s = true.
Proof.
  induction h as [|d h IH]; intros p s p2 j Hp Hl Hq.
  - simpl. split; [lia | exact Hp].
  - destruct p as [|a p]; [rewrite sdrop_nil in Hq; discriminate |].
    simpl in Hp. apply andb_prop in Hp as [Had Hp].
    apply Ascii.eqb_eq in Had. subst d.
    simpl in Hl. apply andb_prop in Hl as [Hne Hl].
    destruct j as [|j].
    + simpl in Hq. injection Hq as -> _.
      rewrite Ascii.eqb_refl in Hne. discriminate.
    + simpl in Hq. destruct (IH p s p2 j Hp Hl Hq) as [Hlen Hrest].
      simpl. split; [lia | exact Hrest].
Qed.

Lemma no_completion_spec (p t : string) (k : nat) :
  no_completion p t k = true ->
  forall n, 1 <= n <= k -> pmatch (sdrop n p) t = Mismatch.
Proof.
  induction k as [|k IH]; intros H n Hn; [lia |].
  assert (pmatch (sdrop (S k) p) t = Mismatch /\ no_completion p t k = true)
    as [E H'].
  { change (match pmatch (sdrop (S k) p) t with
            | Mismatch => no_completion p t k
            | _ => false
            end = true) in H.
    destruct (pmatch (sdrop (S k) p) t); try discriminate. now split. }
  destruct (Nat.eq_dec n (S k)) as [->|Hne]; [exact E |].
  apply IH; [exact H' | lia].
Qed.

Lemma counted_hole_inner (q : ascii) (p p2 h t : string) (j k : nat) :
  sdrop j p = String q p2 ->
  lacks q h = true ->
  no_completion p t j = true ->
  counted p t k ->
  counted p (h ++ t) k.
Proof.
  intros Hq Hl Hn Ht r. rewrite append_assoc. rewrite <- (Ht r).
  clear Ht. induction h as [|d h IH]; [reflexivity |].
  change (String d h ++ t ++ r) with (String d (h ++ t ++ r)).
  rewrite occurrences_cons.
  assert (Hl' : lacks q h = true).
  { simpl in Hl. now apply andb_prop in Hl as [_ Hl]. }
  rewrite (IH Hl').
  destruct (has_prefix p (String d (h ++ t ++ r))) eqn:E; [| reflexivity].
  exfalso.
  change (String d (h ++ t ++ r)) with ((String d h) ++ (t ++ r)) in E.
  destruct (has_prefix_through q (String d h) p (t ++ r) p2 j E Hl Hq) as [Hlen Hrest].
  simpl in Hlen.
  assert (Hm := no_completion_spec p t j Hn (String.length (String d h))).
  simpl in Hm. specialize (Hm ltac:(lia)).
  rewrite (pmatch_mismatch _ _ Hm) in Hrest. discriminate.
Qed.

(** ** A pattern the interpolated value does not contain *)

Lemma has_prefix_before (c0 : ascii) (p h s : string) :
  has_prefix p (h ++ String c0 s) = true ->
  lacks c0 p = true ->
  has_prefix p h = true.
Proof.
  revert h. induction p as [|a p IH]; intros h Hp Hl; [reflexivity |].
  simpl in Hl. apply andb_prop in Hl as [Hne Hl].
  destruct h as [|d h].
  - simpl in Hp. apply andb_prop in Hp as [Hp _].
    rewrite Hp in Hne. discriminate.
  - simpl in Hp |- *. apply andb_prop in Hp as [-> Hp]. simpl.
    now apply IH.
Qed.

Lemma counted_hole_absent (c0 : ascii) (p h t : string) (k : nat) :
  occurrences p h = 0 ->
  lacks c0 p = true ->
  counted p (String c0 t) k ->
  counted p (h ++ String c0 t) k.
Proof.
  intros H0 Hl Ht r. rewrite append_assoc. rewrite <- (Ht r). clear Ht.
  induction h as [|d h IH]; [reflexivity |].
  rewrite occurrences_cons in H0.
  change (String d h ++ String c0 t ++ r) with (String d (h ++ String c0 t ++ r)).
  rewrite occurrences_cons. rewrite IH by lia.
  destruct (has_prefix p (String d (h ++ String c0 t ++ r))) eqn:E; [| reflexivity].
  exfalso.
  change (String d (h ++ String c0 t ++ r)) with ((String d h) ++ String c0 (t ++ r)) in E.
  apply has_prefix_before in E; [| exact Hl].
  rewrite E in H0. lia.
Qed.

Lemma counted_value_absent (p h t : string) (k : nat) :
  occurrences p h = 0 ->
  match t with
  | String c0 _ => lacks c0 p
  | EmptyString => false
  end = true ->
  counted p t k ->
  counted p (h ++ t) k.
Proof.
  destruct t as [|c0 t]; [discriminate |]. apply counted_hole_absent.
Qed.

Lemma counted_value_absent_app (p h t rest : string) (k j : nat) :
  occurrences p h = 0 ->
  match t with
  | String c0 _ => lacks c0 p
  | EmptyString => false
  end = true ->
  counted p t k ->
  counted p rest j ->
  counted p (h ++ t ++ rest) (k + j).
Proof.
  intros H0 Hc Ht Hr. rewrite <- append_assoc.
  apply counted_app; [now apply counted_value_absent | exact Hr].
Qed.

(** ** Containment *)

Lemma contains_here (p a b : string) : contains p (a ++ p ++ b).
Proof. now exists a, b. Qed.

Lemma contains_refl (p : string) : contains p p.
Proof. exists EmptyString, EmptyString. now rewrite append_nil_r. Qed.

Lemma contains_app_l (p a b : string) : contains p a -> contains p (a ++ b).
Proof.
  intros (x & y & ->). exists x, (y ++ b). now rewrite !append_assoc.
Qed.

Lemma contains_app_r (p a b : string) : contains p b -> contains p (a ++ b).
Proof.
  intros (x & y & ->). exists (a ++ x), y. now rewrite !append_assoc.
Qed.

Lemma contains_occurrences (p s : string) :
  contains p s -> p <> EmptyString -> 1 <= occurrences p s.
Proof.
  intros (a & b & ->) Hp. induction a as [|c a IH].
  - rewrite app_nil_l. destruct p as [|c p]; [congruence |].
    rewrite app_cons, occurrences_cons, <- app_cons.
    assert (H : forall s, pmatch s s = Full).
    { intros s. induction s as [|x s IH]; simpl;
        [reflexivity | now rewrite Ascii.eqb_refl]. }
    rewrite (pmatch_full _ _ (H _)). lia.
  - rewrite app_cons, occurrences_cons. lia.
Qed.

Lemma has_prefix_split (p s : string) :
  has_prefix p s = true -> exists rest, s = p ++ rest.
Proof.
  revert s. induction p as [|a p IH]; intros s H; [now exists s |].
  destruct s as [|d s]; [discriminate |]. simpl in H.
  apply andb_prop in H as [Had H]. apply Ascii.eqb_eq in Had. subst d.
  destruct (IH s H) as [rest ->]. now exists rest.
Qed.

Lemma occurrences_contains (p s : string) :
  occurrences p s <> 0 -> contains p s.
Proof.
  induction s as [|c s IH]; intros H; [now elim H |].
  rewrite occurrences_cons in H.
  destruct (has_prefix p (String c s)) eqn:E.
  - destruct (has_prefix_split _ _ E) as [rest ->]. now exists EmptyString, rest.
  - destruct (IH H) as (a & b & ->). now exists (String c a), b.
Qed.

(** ** Replacement *)

Lemma has_prefix_app (p a r : string) :
  has_prefix p a = true -> has_prefix p (a ++ r) = true.
Proof.
  revert a. induction p as [|x p IH]; intros a H; [reflexivity |].
  destruct a as [|d a]; [discriminate |]. simpl in H |- *.
  apply andb_prop in H as [-> H]. simpl. now apply IH.
Qed.

Lemma has_prefix_length (p a : string) :
  has_prefix p a = true -> String.length p <= String.length a.
Proof.
  revert a. induction p as [|x p IH]; intros a H; [simpl; lia |].
  destruct a as [|d a]; [discriminate |]. simpl in H |- *.
  apply andb_prop in H as [_ H]. apply IH in H. lia.
Qed.

Lemma replace_from_cons (old new : string) (skip : nat) (c : ascii) (s : string) :
  replace_from old new skip (String c s) =
  match skip with
  | S k => replace_from old new k s
  | O =>
      if has_prefix old (String c s)
      then new ++ replace_from old new (String.length old - 1) s
      else String c (replace_from old new 0 s)
  end.
Proof. reflexivity. Qed.

(** A text that starts no occurrence of [old] is copied. *)
Lemma replace_from_value (o0 : ascii) (old' new x r : string) :
  lacks o0 x = true ->
  replace_from (String o0 old') new 0 (x ++ r)
  = x ++ replace_from (String o0 old') new 0 r.
Proof.
  induction x as [|c x IH]; intros H; [reflexivity |].
  simpl in H. apply andb_prop in H as [Hc Hx]. apply negb_true_iff in Hc.
  rewrite !app_cons, replace_from_cons. simpl has_prefix.
  rewrite Ascii.eqb_sym, Hc. simpl. now rewrite IH.
Qed.

(** A text [x] that no occurrence of [old] can reach into or start in
    comes through a replacement as it is. *)
Lemma replace_from_keeps (o0 x0 : ascii) (old' new x' b : string) :
  lacks x0 (String o0 old') = true ->
  lacks o0 (String x0 x') = true ->
  forall (a : string) (skip : nat),
    skip <= String.length a ->
    replace_from (String o0 old') new skip (a ++ String x0 x' ++ b)
    = replace_from (String o0 old') new skip a
      ++ String x0 x' ++ replace_from (String o0 old') new 0 b.
Proof.
  intros Hx0 Ho0. induction a as [|c a IH]; intros skip Hskip.
  - simpl in Hskip. assert (skip = 0) as -> by lia.
    rewrite app_nil_l. now apply replace_from_value.
  - rewrite app_cons, !replace_from_cons. destruct skip as [|k].
    + destruct (has_prefix (String o0 old') (String c (a ++ String x0 x' ++ b))) eqn:E.
      * rewrite <- app_cons in E.
        change (String x0 x' ++ b) with (String x0 (x' ++ b)) in E.
        apply has_prefix_before in E; [| exact Hx0]. rewrite E.
        rewrite append_assoc. f_equal. apply IH.
        apply has_prefix_length in E. simpl in E |- *. lia.
      * destruct (has_prefix (String o0 old') (String c a)) eqn:E'.
        { apply (has_prefix_app _ _ (String x0 x' ++ b)) in E'.
          rewrite app_cons in E'. congruence. }
        rewrite (app_cons c). f_equal. apply IH. lia.
    + apply IH. simpl in Hskip. lia.
Qed.

Lemma str_replace_contains (o0 x0 : ascii) (old' new x' s : string) :
  lacks x0 (String o0 old') = true ->
  lacks o0 (String x0 x') = true ->
  contains (String x0 x') s ->
  contains (String x0 x') (str_replace s (String o0 old') new).
Proof.
  intros Hx0 Ho0 (a & b & ->). unfold str_replace.
  rewrite (replace_from_keeps o0 x0 old' new x' b Hx0 Ho0 a 0) by lia.
  apply contains_here.
Qed.

Lemma lit_replace_sound (old new : string) (t : string) :
  forall (skip : nat) (t' : string),
    lit_replace old new skip t = Some t' ->
    forall r, replace_from old new skip (t ++ r) = t' ++ replace_from old new 0 r.
Proof.
  induction t as [|c t IH]; intros skip t' H r.
  - destruct skip; [| discriminate]. injection H as <-. reflexivity.
  - rewrite app_cons, replace_from_cons. simpl in H. destruct skip as [|k].
    + rewrite <- app_cons. destruct (pmatch old (String c t)) eqn:E.
      * rewrite (pmatch_full _ _ E).
        destruct (lit_replace old new (String.length old - 1) t) as [u|] eqn:Eu;
          [| discriminate].
        injection H as <-. rewrite (IH _ _ Eu). now rewrite append_assoc.
      * rewrite (pmatch_mismatch _ _ E).
        destruct (lit_replace old new 0 t) as [u|] eqn:Eu; [| discriminate].
        injection H as <-. now rewrite (IH _ _ Eu).
      * discriminate.
    + now apply IH.
Qed.

Lemma replaced_lit (old new t : string) :
  lit_replace_ok old new t = true -> replaced old new t (lit_replaced old new t).
Proof.
  unfold lit_replace_ok, lit_replaced. intros H r.
  destruct (lit_replace old new 0 t) as [t'|] eqn:E; [| discriminate].
  now apply lit_replace_sound.
Qed.

Lemma replaced_app (old new a a' b b' : string) :
  replaced old new a a' -> replaced old new b b' ->
  replaced old new (a ++ b) (a' ++ b').
Proof. intros Ha Hb r. now rewrite !append_assoc, Ha, Hb. Qed.

Lemma replaced_nil (old new : string) : replaced old new EmptyString EmptyString.
Proof. intros r. reflexivity. Qed.

Lemma replaced_value (old new x : string) :
  match old with
  | String o0 _ => lacks o0 x
  | EmptyString => false
  end = true ->
  replaced old new x x.
Proof.
  destruct old as [|o0 old']; [discriminate |]. intros H r.
  now apply replace_from_value.
Qed.

Lemma replaced_total (old new s s' : string) :
  replaced old new s s' -> str_replace s old new = s'.
Proof.
  intros H. unfold str_replace. specialize (H EmptyString).
  rewrite append_nil_r in H. rewrite H. apply append_nil_r.
Qed.

(** ** A text followed by a template piece *)

Lemma sdrop_all (n : nat) (p : string) :
  String.length p <= n -> sdrop n p = EmptyString.
Proof.
  revert p. induction n as [|n IH]; intros p H.
  - destruct p; [reflexivity | simpl in H; lia].
  - destruct p as [|a p]; [reflexivity |]. simpl in H |- *. apply IH. lia.
Qed.

Lemma sdrop_next (n : nat) (a : ascii) (p q : string) :
  sdrop n p = String a q -> sdrop (S n) p = q.
Proof.
  revert p. induction n as [|n IH]; intros p H.
  - simpl in H. now subst p.
  - destruct p as [|b p]; [discriminate |]. simpl in H.
    change (sdrop (S (S n)) (String b p)) with (sdrop (S n) p). now apply IH.
Qed.

Lemma sdrop_length (n : nat) (p : string) :
  n < String.length p -> sdrop n p <> EmptyString.
Proof.
  revert p. induction n as [|n IH]; intros p H.
  - destruct p; [simpl in H; lia | discriminate].
  - destruct p as [|b p]; [simpl in H; lia |]. simpl in H |- *. apply IH. lia.
Qed.

Lemma sdrop_cons_length (n : nat) (a : ascii) (p q : string) :
  sdrop n p = String a q -> n < String.length p.
Proof.
  intros H. destruct (Nat.lt_ge_cases n (String.length p)) as [L|L]; [exact L |].
  rewrite (sdrop_all _ _ L) in H. discriminate.
Qed.

(** What is left of a pattern that starts [h ++ x] starts [x]. *)
Lemma has_prefix_rest (p h x : string) :
  has_prefix p (h ++ x) = true -> has_prefix (sdrop (String.length h) p) x = true.
Proof.
  revert p. induction h as [|d h IH]; intros p H; [exact H |].
  destruct p as [|a p]; [reflexivity |].
  rewrite app_cons in H. simpl in H. apply andb_prop in H as [_ H].
  simpl. now apply IH.
Qed.

Lemma has_prefix_glue (p h x y : string) :
  has_prefix p (h ++ x) = true ->
  has_prefix (sdrop (String.length h) p) y = true ->
  has_prefix p (h ++ y) = true.
Proof.
  revert p. induction h as [|d h IH]; intros p H Hy; [exact Hy |].
  destruct p as [|a p]; [reflexivity |].
  rewrite app_cons in H |- *. simpl in H |- *. apply andb_prop in H as [-> H].
  simpl in Hy. simpl. now apply (IH p).
Qed.

Lemma settled_spec (p t1 t2 : string) (k : nat) :
  settled p t1 t2 k = true ->
  forall n, 1 <= n <= k ->
    pmatch (sdrop n p) t1 = Full \/ pmatch (sdrop n p) (t1 ++ t2) = Mismatch.
Proof.
  induction k as [|k IH]; intros H n Hn; [lia |].
  assert ((pmatch (sdrop (S k) p) t1 = Full \/
           pmatch (sdrop (S k) p) (t1 ++ t2) = Mismatch) /\
          settled p t1 t2 k = true) as [E H'].
  { change (match pmatch (sdrop (S k) p) t1 with
            | Full => settled p t1 t2 k
            | _ =>
                match pmatch (sdrop (S k) p) (t1 ++ t2) with
                | Mismatch => settled p t1 t2 k
                | _ => false
                end
            end = true) in H.
    destruct (pmatch (sdrop (S k) p) t1);
      [now split; [left |]
      | destruct (pmatch (sdrop (S k) p) (t1 ++ t2)); try discriminate;
        now split; [right |] ..]. }
  destruct (Nat.eq_dec n (S k)) as [->|Hne]; [exact E |].
  apply IH; [exact H' | lia].
Qed.

(** A text [h] put in front of a template piece: when [h] with the
    first characters [t1] of the piece holds no occurrence of [p], and
    the piece settles what [h] may have begun, the occurrences are
    those that start in the piece and after it. *)
Lemma hole_then (p h t1 t2 s : string) (k : nat) :
  occurrences p (h ++ t1) = 0 ->
  settled p t1 t2 (String.length p - 1) = true ->
  (exists r, s = t1 ++ t2 ++ r) ->
  counted p s k ->
  counted p (h ++ s) k.
Proof.
  intros H0 Hs [r0 Er] Hk r. rewrite append_assoc, <- (Hk r). clear Hk.
  subst s. revert H0. induction h as [|d h IH]; intros H0; [reflexivity |].
  rewrite app_cons in H0. rewrite occurrences_cons in H0.
  rewrite app_cons, occurrences_cons. rewrite IH by lia.
  destruct (has_prefix p (String d (h ++ (t1 ++ t2 ++ r0) ++ r))) eqn:E;
    [| reflexivity].
  exfalso. rewrite <- app_cons in E. pose proof (has_prefix_rest _ _ _ E) as Hrest.
  set (n := String.length (String d h)) in *.
  assert (Hn : 1 <= n) by (subst n; simpl; lia).
  assert (Hcase : pmatch (sdrop n p) t1 = Full \/
                  pmatch (sdrop n p) (t1 ++ t2) = Mismatch).
  { destruct (Nat.lt_ge_cases n (String.length p)) as [L|L].
    - apply (settled_spec p t1 t2 _ Hs). lia.
    - left. now rewrite (sdrop_all _ _ L). }
  destruct Hcase as [F|M].
  - pose proof (pmatch_full _ _ F EmptyString) as F'. rewrite append_nil_r in F'.
    pose proof (has_prefix_glue _ _ _ _ E F') as G.
    rewrite app_cons in G. rewrite G in H0. lia.
  - rewrite <- !append_assoc in Hrest. rewrite !append_assoc in Hrest.
    rewrite <- append_assoc in Hrest.
    rewrite (pmatch_mismatch _ _ M) in Hrest. discriminate.
Qed.

(** ** Replacement does not make a pattern *)

Lemma inert_spec (p new : string) :
  inert p new = true ->
  counted p new 0 /\
  forall n, n < String.length p -> pmatch (sdrop n p) new = Mismatch.
Proof.
  unfold inert. intros H. apply andb_prop in H as [H Hc].
  apply andb_prop in H as [Hl Hm]. split.
  - apply lit_scan_sound. destruct (lit_scan p new) as [[|k]|]; easy.
  - intros n Hn. destruct n as [|n].
    + simpl. destruct (pmatch p new); easy.
    + apply (no_completion_spec p new _ Hc). lia.
Qed.

Lemma replace_from_prefix (p old new : string) :
  (forall n, n < String.length p -> pmatch (sdrop n p) new = Mismatch) ->
  forall (s : string) (n : nat),
    n < String.length p ->
    has_prefix (sdrop n p) (replace_from old new 0 s) = true ->
    has_prefix (sdrop n p) s = true.
Proof.
  intros Hnew. induction s as [|c s IH]; intros n Hn H.
  - simpl in H. destruct (sdrop n p) eqn:E; [| discriminate].
    now elim (sdrop_length n p Hn).
  - rewrite replace_from_cons in H.
    destruct (has_prefix old (String c s)).
    + rewrite (pmatch_mismatch _ _ (Hnew n Hn)) in H. discriminate.
    + destruct (sdrop n p) as [|a q] eqn:E; [reflexivity |].
      simpl in H |- *. apply andb_prop in H as [-> H]. simpl.
      pose proof (sdrop_next _ _ _ _ E) as E'.
      destruct (Nat.lt_ge_cases (S n) (String.length p)) as [L|L].
      * rewrite <- E'. apply IH; [exact L |]. now rewrite E'.
      * rewrite (sdrop_all _ _ L) in E'. now subst q.
Qed.

Lemma replace_from_free (p old new : string) :
  inert p new = true ->
  p <> EmptyString ->
  forall (s : string) (skip : nat),
    occurrences p s = 0 -> occurrences p (replace_from old new skip s) = 0.
Proof.
  intros Hi Hp. destruct (inert_spec _ _ Hi) as [Hc Hnew].
  induction s as [|c s IH]; intros skip H; [reflexivity |].
  rewrite occurrences_cons in H. rewrite replace_from_cons.
  destruct skip as [|k]; [| apply IH; lia].
  destruct (has_prefix old (String c s)) eqn:Eo.
  - rewrite (Hc _). apply IH. lia.
  - rewrite occurrences_cons. rewrite IH by lia.
    destruct (has_prefix p (String c (replace_from old new 0 s))) eqn:E;
      [| reflexivity].
    exfalso.
    assert (Hlen : 0 < String.length p) by (destruct p; [now elim Hp | simpl; lia]).
    pose proof (replace_from_prefix p old new Hnew (String c s) 0 Hlen) as G.
    rewrite replace_from_cons, Eo in G. simpl sdrop in G.
    rewrite (G E) in H. lia.
Qed.

End TextFacts.

Import TextFacts.

(* ===================================================================== *)
(** * Facts about Python values *)
(* ===================================================================== *)

Module PyFacts.

Lemma bind_Ok {A B : Type} (m : result A) (k : A -> result B) (b : B) :
  bind m k = Ok b -> exists a, m = Ok a /\ k a = Ok b.
Proof. destruct m as [a|e]; simpl; [eauto | discriminate]. Qed.

Lemma bind_Raise {A B : Type} (m : result A) (k : A -> result B) (e : exn) :
  m = Raise e -> bind m k = Raise e.
Proof. now intros ->. Qed.

Lemma traverse_Ok {A B : Type} (f : A -> result B) (l : list A) (ys : list B) :
  traverse f l = Ok ys -> Forall2 (fun x y => f x = Ok y) l ys.
Proof.
  revert ys. induction l as [|x l IH]; intros ys H; simpl in H.
  - injection H as <-. constructor.
  - apply bind_Ok in H as (y & Hy & H).
    apply bind_Ok in H as (ys' & Hys & H).
    injection H as <-. constructor; [exact Hy | now apply IH].
Qed.

(** Taking a successful computation apart, one step after the other. *)
Ltac inv_ok :=
  repeat match goal with
  | H : bind _ _ = Ok _ |- _ =>
      let a := fresh "v" in let Ha := fresh "E" in
      apply bind_Ok in H as (a & Ha & H)
  | H : Ok _ = Ok _ |- _ => injection H as H
  | H : Raise _ = Ok _ |- _ => discriminate H
  | H : (let '(x, y) := ?p in _) = Ok _ |- _ => destruct p as [x y]
  end.

Section JsonInduction.
Variable P : json -> Prop.
Hypothesis Hnull : P JNull.
Hypothesis Hbool : forall b, P (JBool b).
Hypothesis Hint : forall z, P (JInt z).
Hypothesis Hstr : forall s, P (JStr s).
Hypothesis Hlist : forall items, Forall P items -> P (JList items).
Hypothesis Hdict :
  forall items, Forall (fun kv => P (snd kv)) items -> P (JDict items).

Lemma json_induction : forall v : json, P v.
Proof.
  fix IH 1. intros [| b | z | s | items | items].
  - exact Hnull.
  - apply Hbool.
  - apply Hint.
  - apply Hstr.
  - apply Hlist. induction items as [|x rest IHrest]; constructor;
      [apply IH | exact IHrest].
  - apply Hdict. induction items as [|kv rest IHrest]; constructor;
      [apply IH | exact IHrest].
Qed.
End JsonInduction.

(** ** Text without the tag-opening character *)

Lemma lacks_join (c : ascii) (sep : string) (items : list string) :
  lacks c sep = true ->
  Forall (fun x => lacks c x = true) items ->
  lacks c (join sep items) = true.
Proof.
  intros Hsep H. induction H as [|x l Hx Hl IH]; [reflexivity |].
  destruct l as [|y l]; [exact Hx |].
  change (join sep (x :: y :: l)) with (x ++ sep ++ join sep (y :: l)).
  now rewrite !lacks_app, Hx, Hsep, IH.
Qed.

Lemma lacks_uint (d : Decimal.uint) :
  lacks lt_char (NilEmpty.string_of_uint d) = true.
Proof. induction d; simpl; auto. Qed.

Lemma lacks_str_of_int (z : Z) : lacks lt_char (str_of_int z) = true.
Proof.
  unfold str_of_int, NilZero.string_of_int.
  destruct (Z.to_int z) as [d|d].
  - unfold NilZero.string_of_uint. destruct d; try apply lacks_uint; reflexivity.
  - simpl. unfold NilZero.string_of_uint. destruct d; try apply lacks_uint; reflexivity.
Qed.

Lemma lacks_repr_char (quote c : ascii) :
  quote = quote_char \/ quote = dquote ->
  Ascii.eqb c lt_char = false ->
  lacks lt_char (repr_char quote c) = true.
Proof.
  intros [->| ->];
    destruct c as [[|] [|] [|] [|] [|] [|] [|] [|]]; intros H;
    solve [reflexivity | discriminate H].
Qed.

Lemma lacks_repr_chars (quote : ascii) (s : string) :
  quote = quote_char \/ quote = dquote ->
  lacks lt_char s = true ->
  lacks lt_char (repr_chars quote s) = true.
Proof.
  intros Hq. induction s as [|c s IH]; intros H; [reflexivity |].
  simpl in H. apply andb_prop in H as [Hc Hs]. apply negb_true_iff in Hc.
  change (repr_chars quote (String c s))
    with (repr_char quote c ++ repr_chars quote s).
  now rewrite lacks_app, lacks_repr_char, IH.
Qed.

Lemma lacks_repr_str (s : string) :
  lacks lt_char s = true -> lacks lt_char (repr_str s) = true.
Proof.
  intros H. unfold repr_str.
  set (quote := if negb (lacks quote_char s) && lacks dquote s
                then dquote else quote_char).
  assert (Hq : quote = quote_char \/ quote = dquote).
  { unfold quote. destruct (negb (lacks quote_char s) && lacks dquote s); auto. }
  assert (Hne : negb (Ascii.eqb quote lt_char) = true).
  { destruct Hq as [-> | ->]; reflexivity. }
  simpl. rewrite Hne. rewrite lacks_app, lacks_repr_chars by assumption.
  simpl. now rewrite Hne.
Qed.

Lemma markup_free_repr (v : json) :
  markup_free v = true -> lacks lt_char (repr v) = true.
Proof.
  induction v as [| b | z | s | items IH | items IH] using json_induction;
    intros H.
  - reflexivity.
  - destruct b; reflexivity.
  - apply lacks_str_of_int.
  - now apply lacks_repr_str.
  - simpl in H. change (repr (JList items))
      with ("[" ++ join ", " (map repr items) ++ "]").
    rewrite !lacks_app. rewrite lacks_join; [reflexivity | reflexivity |].
    induction IH as [|x l Hx Hl IHl]; [constructor |].
    simpl in H. apply andb_prop in H as [H1 H2].
    constructor; [now apply Hx | now apply IHl].
  - simpl in H.
    change (repr (JDict items))
      with ("{" ++ join ", " (map (fun kv => repr_str (fst kv) ++ ": " ++ repr (snd kv)) items)
            ++ "}").
    rewrite !lacks_app. rewrite lacks_join; [reflexivity | reflexivity |].
    induction IH as [|x l Hx Hl IHl]; [constructor |].
    simpl in H. apply andb_prop in H as [H1 H2].
    apply andb_prop in H1 as [Hk Hv].
    constructor; [| now apply IHl].
    rewrite !lacks_app, lacks_repr_str, Hx by assumption. reflexivity.
Qed.

Lemma markup_free_str (v : json) :
  markup_free v = true -> lacks lt_char (str v) = true.
Proof.
  destruct v; try apply markup_free_repr. now intros H.
Qed.

Lemma markup_free_find (key : string) (items : list (string * json)) (x : json) :
  markup_free (JDict items) = true ->
  dict_find key items = Some x ->
  markup_free x = true.
Proof.
  induction items as [|[k v] items IH]; intros H Hf; [discriminate |].
  simpl in H, Hf. apply andb_prop in H as [H1 H2].
  apply andb_prop in H1 as [_ Hv].
  destruct (String.eqb k key); [injection Hf as <-; exact Hv | now apply IH].
Qed.

Lemma markup_free_subscript (v x : json) (key : string) :
  markup_free v = true -> subscript v key = Ok x -> markup_free x = true.
Proof.
  destruct v; try discriminate. unfold subscript. intros H.
  destruct (dict_find key items) eqn:E; [| discriminate].
  intros [= <-]. eapply markup_free_find; eauto.
Qed.

Lemma markup_free_get (v x default : json) (key : string) :
  markup_free v = true -> markup_free default = true ->
  get v key default = Ok x -> markup_free x = true.
Proof.
  destruct v; try discriminate. unfold get. intros H Hd.
  destruct (dict_find key items) eqn:E; intros [= <-]; [| exact Hd].
  eapply markup_free_find; eauto.
Qed.

Lemma lacks_code_points_from (c : ascii) (s : string) :
  lacks c s = true ->
  lacks c (fst (code_points_from s)) = true /\
  Forall (fun x => lacks c x = true) (snd (code_points_from s)).
Proof.
  induction s as [|d s IH]; intros H; [split; [reflexivity | constructor] |].
  simpl in H. apply andb_prop in H as [Hd Hs].
  destruct (IH Hs) as [H1 H2]. simpl.
  destruct (code_points_from s) as [pending done]. simpl in H1, H2.
  destruct (is_continuation d); simpl.
  - split; [now rewrite Hd, H1 | exact H2].
  - split; [reflexivity |]. constructor; [| exact H2]. simpl. now rewrite Hd, H1.
Qed.

Lemma lacks_code_points (c : ascii) (s : string) :
  lacks c s = true -> Forall (fun x => lacks c x = true) (code_points s).
Proof.
  intros H. destruct (lacks_code_points_from c s H) as [H1 H2].
  unfold code_points. destruct (code_points_from s) as [pending done].
  simpl in H1, H2. destruct pending; [exact H2 | now constructor].
Qed.

Lemma Forall_map_intro {A B : Type} (f : A -> B) (Q : B -> Prop) (l : list A) :
  Forall (fun x => Q (f x)) l -> Forall Q (map f l).
Proof. induction 1; simpl; constructor; assumption. Qed.

Lemma forallb_Forall {A : Type} (f : A -> bool) (l : list A) :
  forallb f l = true -> Forall (fun x => f x = true) l.
Proof.
  induction l as [|x l IH]; simpl; intros H; constructor;
    apply andb_prop in H as [H1 H2]; auto.
Qed.

Lemma markup_free_iter (v : json) (items : list json) :
  markup_free v = true -> iter v = Ok items ->
  Forall (fun x => markup_free x = true) items.
Proof.
  destruct v as [| b | z | s | l | d]; try discriminate; simpl; intros H [= <-].
  - apply Forall_map_intro. simpl. now apply lacks_code_points.
  - now apply forallb_Forall.
  - apply Forall_map_intro. simpl. apply forallb_Forall in H.
    eapply Forall_impl; [exact H |]. simpl.
    intros kv Hkv. now apply andb_prop in Hkv as [Hk _].
Qed.

Lemma markup_free_strings_of (items : list json) (parts : list string) :
  Forall (fun x => markup_free x = true) items ->
  strings_of items = Ok parts ->
  Forall (fun s => lacks lt_char s = true) parts.
Proof.
  intros H. revert parts. induction H as [|x l Hx Hl IH]; intros parts Hp.
  - injection Hp as <-. constructor.
  - destruct x; try discriminate. simpl in Hp.
    apply bind_Ok in Hp as (ps & Hps & Hp). injection Hp as <-.
    constructor; [exact Hx | now apply IH].
Qed.

Lemma markup_free_join_iterable (sep : string) (v : json) (out : string) :
  lacks lt_char sep = true ->
  markup_free v = true ->
  join_iterable sep v = Ok out ->
  lacks lt_char out = true.
Proof.
  intros Hsep Hv H. unfold join_iterable in H.
  apply bind_Ok in H as (items & Hi & H).
  apply bind_Ok in H as (parts & Hp & H). injection H as <-.
  apply lacks_join; [exact Hsep |].
  eapply markup_free_strings_of; [| exact Hp].
  eapply markup_free_iter; eauto.
Qed.

End PyFacts.

Import PyFacts.

(* ===================================================================== *)
(** * The build drivers *)
(* ===================================================================== *)

Module DriverFacts.

Lemma main_index (jl : string -> result json) :
  build_index.main jl =
  driver jl "content_index.json" "index.html" build_index.build_html.
Proof. reflexivity. Qed.

Lemma main_research (jl : string -> result json) :
  build_research.main jl =
  driver jl "content_research.json" "research.html" build_research.build_html.
Proof. reflexivity. Qed.

Lemma main_publications (jl : string -> result json) :
  build_publications.main jl =
  driver jl "content_publications.json" "publications.html"
    build_publications.build_html.
Proof. reflexivity. Qed.

Lemma main_teaching (jl : string -> result json) :
  build_teaching.main jl =
  driver jl "content_teaching.json" "teaching.html" build_teaching.build_html.
Proof. reflexivity. Qed.

Section Driver.
Variable json_loads : string -> result json.
Variables content_path output_path : string.
Variable build_html : json -> json -> result string.

Let main := driver json_loads content_path output_path build_html.

Lemma driver_no_sidebar (w : world) :
  files w !! "sidebar.json" = None ->
  main w =
    (Ok 1%Z,
     World (files w) (events w ++ [Print ("Error: " ++ "sidebar.json" ++ " not found.")])).
Proof.
  intros H. unfold main, driver, and_then, path_exists. rewrite H. reflexivity.
Qed.

Lemma driver_no_content (w : world) (sidebar_text : string) :
  files w !! "sidebar.json" = Some sidebar_text ->
  files w !! content_path = None ->
  main w =
    (Ok 1%Z,
     World (files w) (events w ++ [Print ("Error: " ++ content_path ++ " not found.")])).
Proof.
  intros H1 H2. unfold main, driver, and_then, path_exists.
  rewrite H1. simpl. rewrite H2. reflexivity.
Qed.

Lemma driver_reports_missing (w : world) :
  files w !! "sidebar.json" = None \/ files w !! content_path = None ->
  reports_missing content_path main w.
Proof.
  intros H. destruct (files w !! "sidebar.json") as [st|] eqn:Hs.
  - destruct H as [H|H]; [discriminate |].
    exists content_path. split; [now right |]. split; [exact H |].
    eapply driver_no_content; eauto.
  - exists "sidebar.json". split; [now left |]. split; [exact Hs |].
    now apply driver_no_sidebar.
Qed.

(** The run of a driver whose two inputs are there, up to the renderer. *)
Lemma driver_loaded (w : world) (sidebar_text content_text : string)
    (sidebar content : json) :
  files w !! "sidebar.json" = Some sidebar_text ->
  files w !! content_path = Some content_text ->
  json_loads sidebar_text = Ok sidebar ->
  json_loads content_text = Ok content ->
  main w =
    match build_html content sidebar with
    | Ok html =>
        if encodable html then
          (Ok 0%Z,
           World (<[output_path := html]> (files w))
             (events w ++ events_until_render content_path output_path
              ++ [Print ("Writing to " ++ output_path ++ "...");
                  Write output_path html;
                  Print "Done!"]))
        else
          (Raise UnicodeEncodeError,
           World (<[output_path := EmptyString]> (files w))
             (events w ++ events_until_render content_path output_path
              ++ [Print ("Writing to " ++ output_path ++ "...");
                  Write output_path EmptyString]))
    | Raise e =>
        (Raise e,
         World (files w) (events w ++ events_until_render content_path output_path))
    end.
Proof.
  intros H1 H2 H3 H4.
  unfold main, driver, sidebar.load_sidebar, and_then, path_exists, read_text,
    print, lift, render, write_text, ret, emit, events_until_render.
  repeat (progress (rewrite ?H1, ?H2, ?H3, ?H4; simpl)).
  destruct (build_html content sidebar) as [html|e]; simpl;
    [destruct (encodable html); simpl |];
    repeat rewrite <- app_assoc; reflexivity.
Qed.

Lemma driver_render_failure :
  render_failure_keeps_files json_loads content_path output_path build_html main.
Proof.
  intros w st ct sb c e H1 H2 H3 H4 H5.
  rewrite (driver_loaded w st ct sb c H1 H2 H3 H4), H5. reflexivity.
Qed.

Hypothesis output_not_sidebar : output_path <> "sidebar.json".
Hypothesis output_not_content : output_path <> content_path.

Lemma driver_rerun : rerun_same main.
Proof.
  intros fs.
  destruct (fs !! "sidebar.json") as [st|] eqn:Hs.
  2:{ rewrite (driver_no_sidebar (World fs []) Hs). simpl.
      now rewrite (driver_no_sidebar (World fs []) Hs). }
  destruct (fs !! content_path) as [ct|] eqn:Hc.
  2:{ rewrite (driver_no_content (World fs []) st Hs Hc). simpl.
      now rewrite (driver_no_content (World fs []) st Hs Hc). }
  assert (Hrun : forall w, files w !! "sidebar.json" = Some st ->
            files w !! content_path = Some ct ->
            main w =
              match json_loads st with
              | Raise e =>
                  (Raise e,
                   World (files w)
                     (events w ++ [Print "Loading sidebar from sidebar.json...";
                                   Load "sidebar.json"]))
              | Ok sb =>
                  match json_loads ct with
                  | Raise e =>
                      (Raise e,
                       World (files w)
                         (events w ++
                          [Print "Loading sidebar from sidebar.json...";
                           Load "sidebar.json";
                           Print ("Loading content from " ++ content_path ++ "...");
                           Load content_path]))
                  | Ok c => main w
                  end
              end).
  { intros w H1 H2.
    destruct (json_loads st) as [sb|e] eqn:Esb.
    - destruct (json_loads ct) as [c|e] eqn:Ec; [reflexivity |].
      unfold main, driver, sidebar.load_sidebar, and_then, path_exists, read_text,
        print, lift, render, write_text, ret, emit.
      repeat (progress (rewrite ?H1, ?H2, ?Esb, ?Ec; simpl)).
      repeat rewrite <- app_assoc. reflexivity.
    - unfold main, driver, sidebar.load_sidebar, and_then, path_exists, read_text,
        print, lift, render, write_text, ret, emit.
      repeat (progress (rewrite ?H1, ?H2, ?Esb; simpl)).
      repeat rewrite <- app_assoc. reflexivity. }
  destruct (json_loads st) as [sb|e] eqn:Esb.
  2:{ rewrite (Hrun (World fs []) Hs Hc). simpl. now rewrite (Hrun (World fs []) Hs Hc). }
  destruct (json_loads ct) as [c|e] eqn:Ec.
  2:{ rewrite (Hrun (World fs []) Hs Hc). simpl. now rewrite (Hrun (World fs []) Hs Hc). }
  clear Hrun.
  rewrite (driver_loaded (World fs []) st ct sb c Hs Hc Esb Ec).
  destruct (build_html c sb) as [html|e] eqn:Eb; simpl.
  - destruct (encodable html) eqn:Een; simpl.
    + rewrite (driver_loaded (World (<[output_path := html]> fs) []) st ct sb c);
        try assumption.
      * rewrite Eb, Een. simpl. now rewrite insert_insert_eq.
      * simpl. now rewrite lookup_insert_ne.
      * simpl. now rewrite lookup_insert_ne.
    + rewrite (driver_loaded (World (<[output_path := EmptyString]> fs) []) st ct sb c);
        try assumption.
      * rewrite Eb, Een. simpl. now rewrite insert_insert_eq.
      * simpl. now rewrite lookup_insert_ne.
      * simpl. now rewrite lookup_insert_ne.
  - rewrite (driver_loaded (World fs []) st ct sb c Hs Hc Esb Ec), Eb. reflexivity.
Qed.

End Driver.

End DriverFacts.

Import DriverFacts.

(* ===================================================================== *)
(** * Claims about the build drivers *)
(* ===================================================================== *)

Module DriverClaims.

Lemma index_missing_meta : missing_meta_raises build_index.build_html.
Proof.
  intros items sb H. unfold build_index.build_html, build_index.head_html, subscript.
  now rewrite H.
Qed.

Lemma research_missing_meta : missing_meta_raises build_research.build_html.
Proof.
  intros items sb H.
  unfold build_research.build_html, build_research.head_html, subscript.
  now rewrite H.
Qed.

Lemma publications_missing_meta : missing_meta_raises build_publications.build_html.
Proof.
  intros items sb H.
  unfold build_publications.build_html, build_publications.head_html, subscript.
  now rewrite H.
Qed.

Lemma teaching_missing_meta : missing_meta_raises build_teaching.build_html.
Proof.
  intros items sb H.
  unfold build_teaching.build_html, build_teaching.head_html, subscript.
  now rewrite H.
Qed.

(** C7. When [sidebar.json] or the content file of the page is missing,
    each of the four drivers prints one error line that names a missing
    file, returns exit code 1, and does nothing else: no file is loaded,
    nothing is rendered, and the files are left as they were, so the
    output file is neither created nor overwritten. *)
Theorem missing_input_stops_the_build (json_loads : string -> result json)
    (w : world) :
  (files w !! "sidebar.json" = None \/ files w !! "content_index.json" = None ->
   reports_missing "content_index.json" (build_index.main json_loads) w) /\
  (files w !! "sidebar.json" = None \/ files w !! "content_research.json" = None ->
   reports_missing "content_research.json" (build_research.main json_loads) w) /\
  (files w !! "sidebar.json" = None \/ files w !! "content_publications.json" = None ->
   reports_missing "content_publications.json" (build_publications.main json_loads) w) /\
  (files w !! "sidebar.json" = None \/ files w !! "content_teaching.json" = None ->
   reports_missing "content_teaching.json" (build_teaching.main json_loads) w).
Proof.
  rewrite main_index, main_research, main_publications, main_teaching.
  repeat split; apply driver_reports_missing.
Qed.

(** C8. When both inputs are there and the renderer raises, as it does
    with [KeyError] for a content document without the key [meta], the
    exception leaves the driver uncaught; by then the driver has loaded
    the two inputs and called the renderer and nothing else, and the
    files are unchanged, so an output file that was there keeps its
    bytes. *)
Theorem render_failure_leaves_output (json_loads : string -> result json) :
  (missing_meta_raises build_index.build_html /\
   render_failure_keeps_files json_loads "content_index.json" "index.html"
     build_index.build_html (build_index.main json_loads)) /\
  (missing_meta_raises build_research.build_html /\
   render_failure_keeps_files json_loads "content_research.json" "research.html"
     build_research.build_html (build_research.main json_loads)) /\
  (missing_meta_raises build_publications.build_html /\
   render_failure_keeps_files json_loads "content_publications.json"
     "publications.html" build_publications.build_html
     (build_publications.main json_loads)) /\
  (missing_meta_raises build_teaching.build_html /\
   render_failure_keeps_files json_loads "content_teaching.json" "teaching.html"
     build_teaching.build_html (build_teaching.main json_loads)).
Proof.
  rewrite main_index, main_research, main_publications, main_teaching.
  repeat split;
    first [ apply index_missing_meta | apply research_missing_meta
          | apply publications_missing_meta | apply teaching_missing_meta
          | apply driver_render_failure ].
Qed.

(** C9. A driver run a second time, on the files the first run left
    behind, ends the same way, goes through the same events (the text
    written to the output file among them) and leaves the same files:
    the page is a function of the two input documents, and writing it
    does not touch them. *)
Theorem rebuild_is_idempotent (json_loads : string -> result json) :
  rerun_same (build_index.main json_loads) /\
  rerun_same (build_research.main json_loads) /\
  rerun_same (build_publications.main json_loads) /\
  rerun_same (build_teaching.main json_loads).
Proof.
  rewrite main_index, main_research, main_publications, main_teaching.
  repeat split; apply driver_rerun; discriminate.
Qed.

Lemma missing_input_witness :
  reports_missing "content_index.json" (build_index.main toy_loads) empty_directory.
Proof.
  apply (proj1 (missing_input_stops_the_build toy_loads empty_directory)).
  left. reflexivity.
Defined.

Lemma render_failure_witness :
  build_index.main toy_loads directory_with_old_page =
  (Raise (KeyError "meta"),
   World (files directory_with_old_page)
     (events_until_render "content_index.json" "index.html")).
Proof.
  apply (proj2 (proj1 (render_failure_leaves_output toy_loads))
           directory_with_old_page "{}" "{}" (JDict []) (JDict []) (KeyError "meta"));
    reflexivity.
Defined.

End DriverClaims.

(* ===================================================================== *)
(** * Claims about the renderers *)
(* ===================================================================== *)

Module RenderClaims.

#[local] Arguments tpl : simpl never.

(** C4. A paper dictionary without the key [image], rendered with
    thumbnails on, gives a fragment that opens with the image block of
    the template, and the [src] of its [img] is the placeholder path
    [assets/img/pub_placeholder.png], exactly. *)
Theorem paper_without_image_gets_placeholder
    (items : list (string * json)) (html : string) :
  dict_find "image" items = None ->
  build_publications.generate_paper_html (JDict items) true = Ok html ->
  exists rest,
    html = tpl "<div class=`paper-item`>
          <div class=`paper-image`>
            <img src=`" ++ "assets/img/pub_placeholder.png" ++ tpl "` alt=`" ++ rest.
Proof.
  intros Himage H. unfold build_publications.generate_paper_html in H.
  inv_ok.
  match goal with
  | E : get (JDict items) "image" _ = Ok ?x |- _ =>
      unfold get in E; rewrite Himage in E; injection E as <-
  end.
  subst html. eexists. reflexivity.
Qed.

Lemma paper_without_image_witness :
  exists html,
    build_publications.generate_paper_html (JDict sample_paper) true = Ok html /\
    exists rest,
      html = tpl "<div class=`paper-item`>
          <div class=`paper-image`>
            <img src=`" ++ "assets/img/pub_placeholder.png" ++ tpl "` alt=`" ++ rest.
Proof.
  eexists. split; [reflexivity |].
  apply (paper_without_image_gets_placeholder sample_paper); reflexivity.
Defined.

End RenderClaims.

(* ===================================================================== *)
(** * Counting marks in rendered text *)
(* ===================================================================== *)

Module RenderFacts.

#[local] Arguments tpl : simpl never.

Lemma counted_app0 (p a b : string) :
  counted p a 0 -> counted p b 0 -> counted p (a ++ b) 0.
Proof. intros Ha Hb. apply (counted_app p a b 0 0 Ha Hb). Qed.

Lemma counted_lit0 (p t : string) : lit_scan p t = Some 0 -> counted p t 0.
Proof. apply lit_scan_sound. Qed.

Lemma counted_value (p h : string) :
  match p with
  | String c _ => lacks c h
  | EmptyString => false
  end = true ->
  counted p h 0.
Proof. destruct p as [|c p]; [discriminate | apply counted_hole]. Qed.

(** A value looked up in a document without tags is without tags. *)
Ltac mf :=
  lazymatch goal with
  | |- markup_free ?x = true =>
      first
        [ assumption
        | reflexivity
        | match goal with
          | E : subscript ?v ?k = Ok x |- _ =>
              apply (markup_free_subscript v x k); [mf | exact E]
          | E : get ?v ?k ?d = Ok x |- _ =>
              apply (markup_free_get v x d k); [mf | mf | exact E]
          end ]
  end.

(** Pieces of a rendered text taken one after the other: a template
    piece is scanned, an interpolated value starts no tag, a part
    rendered before is known from the context. *)
Ltac quiet :=
  lazymatch goal with
  | |- counted _ (_ ++ _) 0 => apply counted_app0; quiet
  | |- counted _ EmptyString 0 => apply counted_nil
  | |- counted _ (str _) 0 =>
      apply counted_value; apply markup_free_str; mf
  | |- counted _ _ 0 =>
      first [ assumption
            | apply counted_lit0; vm_compute; reflexivity
            | apply counted_value; assumption ]
  end.

Lemma traverse_counted (p : string) (f : json -> result string)
    (l : list json) (ys : list string) :
  (forall x y, markup_free x = true -> f x = Ok y -> counted p y 0) ->
  Forall (fun x => markup_free x = true) l ->
  traverse f l = Ok ys ->
  Forall (fun y => counted p y 0) ys.
Proof.
  intros Hf Hl H. apply traverse_Ok in H.
  induction H as [|x y l ys Hxy Hrest IH]; [constructor |].
  inversion Hl; subst. constructor; eauto.
Qed.

Ltac each_tag H :=
  simpl in H;
  repeat (destruct H as [<-|H]); [.. | contradiction].

Lemma profile_image_quiet (p : string) (profile : json) (out : string) :
  In p shell_tags ->
  markup_free profile = true ->
  sidebar._generate_profile_image profile = Ok out ->
  counted p out 0.
Proof.
  intros Hp Hm H. unfold sidebar._generate_profile_image in H. inv_ok.
  destruct (truthy v); inv_ok; subst out.
  all: each_tag Hp.
  all: quiet.
Qed.

Lemma sidebar_link_quiet (p : string) (link : json) (out : string) :
  In p shell_tags ->
  markup_free link = true ->
  sidebar.sidebar_link link = Ok out ->
  counted p out 0.
Proof.
  intros Hp Hm H. unfold sidebar.sidebar_link in H. inv_ok.
  destruct (truthy v1); inv_ok; subst out.
  all: each_tag Hp.
  all: quiet.
Qed.

Lemma sidebar_links_quiet (p : string) (links : json) (out : string) :
  In p shell_tags ->
  markup_free links = true ->
  sidebar._generate_sidebar_links links = Ok out ->
  counted p out 0.
Proof.
  intros Hp Hm H. unfold sidebar._generate_sidebar_links in H. inv_ok. subst out.
  apply counted_join.
  - each_tag Hp. all: quiet.
  - eapply traverse_counted; [| | eassumption].
    + intros x y Hx Hy. eapply sidebar_link_quiet; eauto.
    + eapply markup_free_iter; eauto.
Qed.

Lemma bio_line_counts (line : json) :
  markup_free line = true ->
  counted bio_line_tag (sidebar.bio_line line) 1 /\
  counted bio_paragraph_tag (sidebar.bio_line line) 0 /\
  counted abstracts_heading_mark (sidebar.bio_line line) 0 /\
  counted paper_image_tag (sidebar.bio_line line) 0.
Proof.
  intros H. unfold sidebar.bio_line. repeat split; try quiet.
  apply (counted_app _ _ _ 1 0).
  - apply lit_scan_sound. vm_compute. reflexivity.
  - quiet.
Qed.

Lemma bio_lines_counts (p : string) (i : nat) (lines : list json) :
  (forall line, markup_free line = true -> counted p (sidebar.bio_line line) i) ->
  Forall (fun x => markup_free x = true) lines ->
  counted p (join EmptyString (map sidebar.bio_line lines)) (List.length lines * i).
Proof.
  intros Hi H. rewrite <- (length_map sidebar.bio_line lines).
  apply counted_join_each; [apply counted_nil |].
  apply Forall_map_intro. eapply Forall_impl; [exact H |]. exact Hi.
Qed.

(** The bio block when the profile has a non-empty list of lines. *)
Lemma bio_html_lines (profile : json) (out : string) (lines : list json) :
  markup_free profile = true ->
  get profile "bio_lines" JNull = Ok (JList lines) ->
  lines <> [] ->
  sidebar.bio_html profile = Ok out ->
  counted bio_line_tag out (List.length lines) /\
  counted bio_paragraph_tag out 0.
Proof.
  intros Hm Hl Hne H. unfold sidebar.bio_html in H. rewrite Hl in H.
  cbn [bind] in H.
  assert (Ht : truthy (JList lines) = true) by (destruct lines; [now elim Hne | reflexivity]).
  rewrite Ht in H. inv_ok. subst out.
  assert (v = JList lines) as ->.
  { destruct profile; try discriminate. unfold get, subscript in *.
    destruct (dict_find "bio_lines" items); congruence. }
  simpl in E0. injection E0 as <-.
  assert (Hlines : Forall (fun x => markup_free x = true) lines).
  { apply forallb_Forall. change (markup_free (JList lines) = true). mf. }
  split.
  - eapply counted_eq.
    + eapply (counted_app _ _ _ 0); [quiet |].
      eapply (counted_app _ _ _ _ 0); [| quiet].
      apply (bio_lines_counts bio_line_tag 1); [| exact Hlines].
      intros line Hline. apply (bio_line_counts line Hline).
    + lia.
  - apply counted_app0; [quiet |]. apply counted_app0; [| quiet].
    eapply counted_eq.
    + apply (bio_lines_counts bio_paragraph_tag 0); [| exact Hlines].
      intros line Hline. apply (bio_line_counts line Hline).
    + lia.
Qed.

(** The bio block when the profile has a paragraph and no lines. *)
Lemma bio_html_paragraph (profile : json) (out : string) (bio : json) :
  markup_free profile = true ->
  get profile "bio_lines" JNull = Ok JNull ->
  get profile "bio" JNull = Ok bio ->
  truthy bio = true ->
  sidebar.bio_html profile = Ok out ->
  counted bio_paragraph_tag out 1 /\
  counted bio_line_tag out 0.
Proof.
  intros Hm Hl Hb Ht H. unfold sidebar.bio_html in H. rewrite Hl in H.
  cbn [bind truthy] in H. rewrite Hb in H.
  cbn [bind] in H. rewrite Ht in H. inv_ok. subst out.
  split.
  - apply (counted_app _ _ _ 1 0); [apply lit_scan_sound; vm_compute; reflexivity |].
    quiet.
  - quiet.
Qed.

(** The bio block has no abstracts heading and no thumbnail block. *)
Lemma bio_html_quiet (p : string) (profile : json) (out : string) :
  In p [abstracts_heading_mark; paper_image_tag] ->
  markup_free profile = true ->
  sidebar.bio_html profile = Ok out ->
  counted p out 0.
Proof.
  intros Hp Hm H. unfold sidebar.bio_html in H. inv_ok.
  destruct (truthy v).
  - inv_ok. subst out.
    assert (Hlines : Forall (fun x => markup_free x = true) v1).
    { eapply markup_free_iter; [| eassumption]. mf. }
    apply counted_app0; [each_tag Hp; quiet |].
    apply counted_app0; [| each_tag Hp; quiet].
    eapply counted_eq.
    + apply (bio_lines_counts p 0); [| exact Hlines].
      intros line Hline. each_tag Hp; apply (bio_line_counts line Hline).
    + lia.
  - inv_ok. destruct (truthy v0); inv_ok; subst out.
    all: each_tag Hp.
    all: quiet.
Qed.

(** The sidebar around its bio block: what the bio block has of a tag is
    what the sidebar has. *)
Lemma sidebar_frame (p : string) (sb : json) (html : string) :
  In p shell_tags ->
  markup_free sb = true ->
  sidebar.get_sidebar_html sb = Ok html ->
  exists profile bio,
    subscript sb "profile" = Ok profile /\
    sidebar.bio_html profile = Ok bio /\
    forall k, counted p bio k -> counted p html k.
Proof.
  intros Hp Hm H. unfold sidebar.get_sidebar_html in H. inv_ok. subst html.
  exists v, v1. split; [assumption |]. split; [assumption |].
  intros k Hk.
  assert (Hi : counted p v2 0) by (eapply profile_image_quiet; [exact Hp | | eassumption]; mf).
  assert (Hl : counted p v4 0) by (eapply sidebar_links_quiet; [exact Hp | | eassumption]; mf).
  eapply counted_eq.
  - eapply (counted_app _ _ _ 0); [each_tag Hp; quiet |].
    eapply (counted_app _ _ _ 0); [exact Hi |].
    eapply (counted_app _ _ _ 0); [each_tag Hp; quiet |].
    eapply (counted_app _ _ _ 0); [each_tag Hp; quiet |].
    eapply (counted_app _ _ _ 0); [each_tag Hp; quiet |].
    eapply (counted_app _ _ _ k); [exact Hk |].
    eapply (counted_app _ _ _ 0); [each_tag Hp; quiet |].
    apply (counted_app _ _ _ 0 0); [exact Hl |].
    each_tag Hp; quiet.
  - lia.
Qed.

End RenderFacts.

Import RenderFacts.

(* ===================================================================== *)
(** * Counting marks around texts that may hold markup *)
(* ===================================================================== *)

Module MentionFacts.

#[local] Arguments tpl : simpl never.

Lemma text_then (p h t s : string) (k : nat) :
  free_of p h ->
  settled p EmptyString t (String.length p - 1) = true ->
  (exists r, s = t ++ r) ->
  counted p s k ->
  counted p (h ++ s) k.
Proof.
  intros H0 Hs Hr Hk. apply (hole_then p h EmptyString t s k); try assumption.
  unfold free_of in H0. now rewrite append_nil_r.
Qed.

(** A key that is there is read the same by subscript and by [get]. *)
Lemma subscript_get (v x : json) (key : string) (default : json) :
  subscript v key = Ok x -> get v key default = Ok x.
Proof.
  destruct v; try discriminate. unfold subscript, get.
  destruct (dict_find key items); [trivial | discriminate].
Qed.

Lemma traverse_Forall (Q : json -> Prop) (R : string -> Prop)
    (f : json -> result string) (l : list json) (ys : list string) :
  (forall x y, Q x -> f x = Ok y -> R y) ->
  Forall Q l ->
  traverse f l = Ok ys ->
  Forall R ys.
Proof.
  intros Hf Hl H. apply traverse_Ok in H.
  induction H as [|x y l ys Hxy Hrest IH]; [constructor |].
  inversion Hl; subst. constructor; eauto.
Qed.

Ltac piece :=
  first [ eassumption | apply counted_lit; vm_compute; reflexivity ].

Ltac starts :=
  first [ eexists; reflexivity
        | exists EmptyString; symmetry; apply append_nil_r ].

(** Pieces of a rendered text taken one after the other: a text put
    into the template is taken with the piece after it. *)
Ltac walk :=
  lazymatch goal with
  | |- counted _ EmptyString _ => apply counted_nil
  | |- counted ?p (str ?v ++ ?s) _ =>
      let t := lazymatch s with ?l ++ _ => l | _ => s end in
      first
        [ eapply (text_then p (str v) t s);
            [ solve [eauto] | vm_compute; reflexivity | starts | walk ]
        | match goal with
          | F : free_of p (str v ++ ?t1) |- _ =>
              let t2 := eval vm_compute in (sdrop (String.length t1) t) in
              eapply (hole_then p (str v) t1 t2 s);
                [ exact F | vm_compute; reflexivity | starts | walk ]
          end
        | idtac ]
  | |- counted _ (_ ++ _) _ => eapply counted_app; [piece | walk]
  | |- counted _ _ _ => piece
  end.

Ltac sum_up :=
  unfold line_tags, paragraph_tags;
  repeat match goal with
  | |- context [lit_count ?p ?t] =>
      let v := eval vm_compute in (lit_count p t) in
      change (lit_count p t) with v
  | |- context [String.eqb ?a ?b] =>
      let v := eval vm_compute in (String.eqb a b) in
      change (String.eqb a b) with v
  end;
  cbv beta iota;
  lia.

Ltac same_value :=
  repeat match goal with
  | S : subscript ?d ?k = Ok ?x, G : get ?d ?k ?default = Ok ?y |- _ =>
      lazymatch x with
      | y => fail
      | _ =>
          let Q := fresh "Q" in
          assert (Q : x = y)
            by (pose proof (subscript_get d x k default S); congruence);
          subst x
      end
  end.

(** The image block, with what the template puts after it. *)
Lemma profile_image_then (p : string) (profile : json) (out s : string) (k : nat) :
  In p shell_tags ->
  avatar_free p profile ->
  sidebar._generate_profile_image profile = Ok out ->
  (exists r, s = "
" ++ r) ->
  counted p s k ->
  counted p (out ++ s) k.
Proof.
  intros Hp Hf H [r ->] Hk. unfold sidebar._generate_profile_image in H. inv_ok.
  destruct (truthy v) eqn:Ht; inv_ok; subst out.
  - same_value.
    match goal with
    | E : get profile "image" JNull = Ok _ |- _ =>
        destruct (Hf _ E Ht) as [Himage Hname]
    end.
    match goal with
    | E : subscript profile "name" = Ok _ |- _ => specialize (Hname _ E)
    end.
    rewrite !append_assoc.
    each_tag Hp.
    all: eapply counted_eq;
      [ eapply counted_app; [piece |];
        eapply (text_then _ _ (tpl "` alt=`"));
          [exact Himage | vm_compute; reflexivity | starts |];
        eapply counted_app; [piece |];
        eapply (hole_then _ _ (tpl "`>") "
");
          [exact Hname | vm_compute; reflexivity | starts |];
        eapply counted_app; [piece | exact Hk]
      | sum_up ].
  - each_tag Hp.
    all: eapply counted_eq; [eapply counted_app; [piece | exact Hk] | sum_up].
Qed.

Lemma sidebar_link_free (p : string) (link : json) (out : string) :
  In p shell_tags ->
  link_free p link ->
  sidebar.sidebar_link link = Ok out ->
  counted p out 0.
Proof.
  intros Hp (Hicon & Hlabel & Hurl) H. unfold sidebar.sidebar_link in H. inv_ok.
  destruct (truthy v1) eqn:Ht; inv_ok; subst out.
  all: each_tag Hp.
  all: eapply counted_eq; [walk | sum_up].
Qed.

Lemma sidebar_links_free (p : string) (links : json) (items : list json)
    (out : string) :
  In p shell_tags ->
  iter links = Ok items ->
  Forall (link_free p) items ->
  sidebar._generate_sidebar_links links = Ok out ->
  counted p out 0.
Proof.
  intros Hp Hi Hf H. unfold sidebar._generate_sidebar_links in H.
  rewrite Hi in H. cbn [bind] in H. inv_ok. subst out.
  apply counted_join.
  - each_tag Hp. all: apply lit_scan_sound; vm_compute; reflexivity.
  - eapply traverse_Forall; [| exact Hf | eassumption].
    intros x y Hx Hy. eapply sidebar_link_free; eauto.
Qed.

Lemma bio_line_count (p : string) (line : json) :
  In p shell_tags ->
  free_of p (str line) ->
  counted p (sidebar.bio_line line) (line_tags p).
Proof.
  intros Hp Hf. unfold sidebar.bio_line. each_tag Hp.
  all: eapply counted_eq; [walk | vm_compute; reflexivity].
Qed.

(** The bio block made of lines. *)
Lemma bio_html_of_lines (p : string) (profile lines : json)
    (items : list json) (out : string) :
  In p shell_tags ->
  bio_free p profile ->
  get profile "bio_lines" JNull = Ok lines ->
  truthy lines = true ->
  iter lines = Ok items ->
  sidebar.bio_html profile = Ok out ->
  counted p out (List.length items * line_tags p).
Proof.
  intros Hp Hf Hl Ht Hi H. unfold sidebar.bio_html in H. rewrite Hl in H.
  cbn [bind] in H. rewrite Ht in H. inv_ok. subst out. same_value.
  match goal with
  | E : iter lines = Ok ?l |- _ => rewrite Hi in E; injection E as <-
  end.
  specialize (Hf _ Hl). rewrite Ht in Hf. specialize (Hf _ Hi).
  assert (Hitems : counted p (join EmptyString (map sidebar.bio_line items))
                     (List.length items * line_tags p)).
  { rewrite <- (length_map sidebar.bio_line items).
    apply counted_join_each; [apply counted_nil |].
    apply Forall_map_intro. eapply Forall_impl; [exact Hf |].
    intros line Hline. now apply bio_line_count. }
  each_tag Hp.
  all: eapply counted_eq;
    [ eapply counted_app; [piece |]; eapply counted_app; [exact Hitems | piece]
    | sum_up ].
Qed.

(** The bio block made of the paragraph. *)
Lemma bio_html_of_paragraph (p : string) (profile lines bio : json) (out : string) :
  In p shell_tags ->
  bio_free p profile ->
  get profile "bio_lines" JNull = Ok lines ->
  truthy lines = false ->
  get profile "bio" JNull = Ok bio ->
  truthy bio = true ->
  sidebar.bio_html profile = Ok out ->
  counted p out (paragraph_tags p).
Proof.
  intros Hp Hf Hl Ht Hb Htb H. unfold sidebar.bio_html in H. rewrite Hl in H.
  cbn [bind] in H. rewrite Ht, Hb in H. cbn [bind] in H. rewrite Htb in H.
  inv_ok. subst out. same_value.
  specialize (Hf _ Hl). rewrite Ht in Hf. specialize (Hf _ Hb Htb).
  each_tag Hp.
  all: eapply counted_eq; [walk | vm_compute; reflexivity].
Qed.

(** The bio block has no abstracts heading and no thumbnail block. *)
Lemma bio_html_free (p : string) (profile : json) (out : string) :
  In p list_tags ->
  bio_free p profile ->
  sidebar.bio_html profile = Ok out ->
  counted p out 0.
Proof.
  intros Hp Hf H.
  assert (Hs : In p shell_tags) by (simpl in Hp |- *; tauto).
  pose proof H as H'. unfold sidebar.bio_html in H'.
  apply bind_Ok in H' as (lines & Hl & H'). destruct (truthy lines) eqn:Ht.
  - apply bind_Ok in H' as (lines' & Hl' & H').
    apply bind_Ok in H' as (items & Hi & _).
    assert (lines' = lines) as ->
      by (pose proof (subscript_get _ _ _ JNull Hl'); congruence).
    eapply counted_eq; [eapply bio_html_of_lines; eassumption |].
    each_tag Hp; sum_up.
  - apply bind_Ok in H' as (bio & Hb & H'). destruct (truthy bio) eqn:Htb.
    + eapply counted_eq; [eapply bio_html_of_paragraph; eassumption |].
      each_tag Hp; sum_up.
    + injection H' as <-. apply counted_nil.
Qed.

(** The sidebar around its bio block: what the bio block has of a tag is
    what the sidebar has. *)
Lemma sidebar_around_bio (p : string) (sb : json) (html : string) :
  In p shell_tags ->
  sidebar_free p sb ->
  sidebar.get_sidebar_html sb = Ok html ->
  exists profile bio,
    subscript sb "profile" = Ok profile /\
    sidebar.bio_html profile = Ok bio /\
    bio_free p profile /\
    forall k, counted p bio k -> counted p html k.
Proof.
  intros Hp [Hprofile Hlinks] H. unfold sidebar.get_sidebar_html in H.
  apply bind_Ok in H as (profile & Epr & H).
  apply bind_Ok in H as (links & Eli & H).
  apply bind_Ok in H as (bio & Ebio & H).
  apply bind_Ok in H as (image & Eim & H).
  apply bind_Ok in H as (name & Ena & H).
  apply bind_Ok in H as (links_html & Elh & H).
  injection H as <-.
  destruct (Hprofile _ Epr) as (Hav & Hname & Hbio).
  specialize (Hname _ Ena).
  exists profile, bio. split; [exact Epr |]. split; [exact Ebio |].
  split; [exact Hbio |]. intros k Hk.
  assert (Hl : counted p links_html 0).
  { pose proof Elh as Elh'. unfold sidebar._generate_sidebar_links in Elh'.
    apply bind_Ok in Elh' as (items & Hi & _).
    eapply sidebar_links_free; eauto. }
  each_tag Hp.
  all: eapply counted_eq;
    [ eapply counted_app; [piece |];
      eapply profile_image_then;
        [simpl; tauto | exact Hav | exact Eim | starts |];
      walk
    | sum_up ].
Qed.

(** Going through the texts of a given document. *)
Ltac given_texts :=
  repeat match goal with
  | |- _ =>
      progress unfold publications_free, head_free, palette_free, intro_free,
        footer_free, sidebar_free, avatar_free, bio_free, link_free,
        year_groups_free, year_group_free, paper_free, reference_free
  | |- _ /\ _ => split
  | |- Forall _ _ => constructor
  | |- forall _, _ => intro
  | H : false = true |- _ => discriminate H
  | H : truthy _ = true |- _ => vm_compute in H; first [discriminate H | clear H]
  | H : _ = Ok _ |- _ =>
      vm_compute in H; first [discriminate H | injection H; clear H; intros; subst]
  | |- context [truthy ?v] =>
      let b := eval vm_compute in (truthy v) in
      change (truthy v) with b; cbv iota
  | |- free_of _ _ => vm_compute; reflexivity
  end.

End MentionFacts.

Import MentionFacts.

(* ===================================================================== *)
(** * Claims about the shared shell *)
(* ===================================================================== *)

Module ShellClaims.

#[local] Arguments tpl : simpl never.

(** ** The navigation list *)

Lemma nav_entries_split (b1 b2 b3 b4 b5 : bool) (cv : string) :
  nav_entries b1 b2 b3 b4 b5 cv = nav_before b1 b2 b3 b4 ++ cv ++ nav_after b5.
Proof.
  unfold nav_entries, nav_before, nav_after. cbn [join].
  unfold nav_entry at 5. now rewrite !append_assoc.
Qed.

Lemma nav_entries_counts (b1 b2 b3 b4 b5 : bool) (cv : string) :
  lacks dquote cv = true ->
  occurrences active_class (nav_entries b1 b2 b3 b4 b5 cv)
  = count_true [b1; b2; b3; b4; b5] /\
  occurrences new_tab_target (nav_entries b1 b2 b3 b4 b5 cv) = 1.
Proof.
  intros Hcv. rewrite nav_entries_split.
  split; apply counted_total.
  - eapply counted_eq.
    + eapply counted_app; [apply (counted_lit active_class (nav_before b1 b2 b3 b4)) |].
      * destruct b1, b2, b3, b4; vm_compute; reflexivity.
      * eapply (counted_hole_inner dquote active_class _ cv
                 (nav_after b5) 7 (lit_count active_class (nav_after b5)));
          [ reflexivity | exact Hcv
          | destruct b5; vm_compute; reflexivity
          | apply counted_lit; destruct b5; vm_compute; reflexivity ].
    + destruct b1, b2, b3, b4, b5; vm_compute; reflexivity.
  - eapply counted_eq.
    + eapply counted_app; [apply (counted_lit new_tab_target (nav_before b1 b2 b3 b4)) |].
      * destruct b1, b2, b3, b4; vm_compute; reflexivity.
      * eapply (counted_hole_inner dquote new_tab_target _ cv
                 (nav_after b5) 8 (lit_count new_tab_target (nav_after b5)));
          [ reflexivity | exact Hcv
          | destruct b5; vm_compute; reflexivity
          | apply counted_lit; destruct b5; vm_compute; reflexivity ].
    + destruct b1, b2, b3, b4, b5; vm_compute; reflexivity.
Qed.

(** C2, as stated, fails: [cv_file] is put into the [href] attribute as
    it is, so a value with a double quote can give the CV anchor an
    active class next to the one of the matching entry. *)
Lemma navigation_counterexample :
  ~ (forall (active_page : string) (sb : json) (html : string),
       In active_page page_ids ->
       sidebar.get_nav_html active_page sb = Ok html ->
       occurrences active_class html = 1).
Proof.
  intros H.
  specialize (H "research" breaking_cv_sidebar _ ltac:(simpl; auto) eq_refl).
  vm_compute in H. discriminate H.
Qed.

(** C2, amended.  For every active-page identifier and every sidebar
    whose CV target, as text, has no double quote, the navigation markup
    is the list of the five destinations Biography, Research,
    Publications, Teaching, CV in this order, an entry carrying the
    active class exactly when its page id is the identifier: one entry
    when the identifier is one of the five ids, none otherwise, and no
    exception; the new-tab target occurs once, in the CV entry. *)
Theorem navigation_marks_one_entry (active_page : string) (sb cv : json) :
  sidebar.cv_file_of sb = Ok cv ->
  lacks dquote (str cv) = true ->
  sidebar.get_nav_html active_page sb = Ok (nav_list active_page (str cv)) /\
  (In active_page page_ids ->
   occurrences active_class (nav_list active_page (str cv)) = 1) /\
  (~ In active_page page_ids ->
   occurrences active_class (nav_list active_page (str cv)) = 0) /\
  occurrences new_tab_target (nav_list active_page (str cv)) = 1.
Proof.
  intros Hcv Hq.
  split; [unfold sidebar.get_nav_html; rewrite Hcv; reflexivity |].
  unfold nav_list.
  destruct (nav_entries_counts
              (String.eqb "bio" active_page) (String.eqb "research" active_page)
              (String.eqb "publications" active_page)
              (String.eqb "teaching" active_page) (String.eqb "cv" active_page)
              (str cv) Hq) as [Hactive Htarget].
  rewrite Hactive, Htarget. repeat split.
  - intros Hin. simpl in Hin.
    repeat (destruct Hin as [<-|Hin]; [reflexivity |]). contradiction.
  - intros Hout.
    assert (Hne : forall id, In id page_ids -> String.eqb id active_page = false).
    { intros id Hid. destruct (String.eqb_spec id active_page) as [->|]; [| reflexivity].
      contradiction. }
    rewrite !Hne by (simpl; auto 6). reflexivity.
Qed.

Lemma navigation_witness :
  sidebar.get_nav_html "research" plain_cv_sidebar
  = Ok (nav_list "research" "files/cv.pdf") /\
  occurrences active_class (nav_list "research" "files/cv.pdf") = 1 /\
  occurrences new_tab_target (nav_list "research" "files/cv.pdf") = 1.
Proof.
  destruct (navigation_marks_one_entry "research" plain_cv_sidebar
              (JStr "files/cv.pdf") eq_refl eq_refl) as (H1 & H2 & _ & H4).
  split; [exact H1 |]. split; [apply H2; simpl; auto | exact H4].
Defined.

(** C3, as stated, fails: interpolated text is not escaped, so a bio
    line that holds markup adds elements of its own.  Here one line
    gives two bio-line elements. *)
Lemma sidebar_bio_counterexample :
  ~ (forall (sb : json) (items : list (string * json)) (html : string)
            (lines : list string),
       subscript sb "profile" = Ok (JDict items) ->
       sidebar.get_sidebar_html sb = Ok html ->
       dict_find "bio_lines" items = Some (JList (map JStr lines)) ->
       lines <> [] ->
       dict_find "bio" items = None ->
       occurrences bio_line_tag html = List.length lines /\
       occurrences bio_paragraph_tag html = 0).
Proof.
  intros H.
  specialize (H nested_line_sidebar _ _
                [tpl "<span class=`bio-line`>x</span>"]
                eq_refl eq_refl eq_refl).
  destruct H as [H _]; [discriminate | reflexivity |].
  vm_compute in H. discriminate H.
Qed.

(** C3, amended.  Let none of the texts that [get_sidebar_html] puts
    into the markup (the address of the profile image and the name in
    its [alt] attribute up to the end of the tag, the name, the bio
    lines or else the bio, and icon, label and address of the links)
    hold the opening tag of a bio line or of a bio paragraph.  Then:
    when the profile has a non-empty list of [n] strings as [bio_lines]
    and no [bio], the sidebar markup has exactly [n] bio-line [span]
    elements and no bio paragraph; when it has a non-empty string as
    [bio] and no [bio_lines], the markup has exactly one bio paragraph
    and no bio-line [span]. *)
Theorem sidebar_bio_elements (sb : json) (items : list (string * json))
    (html : string) :
  sidebar_free bio_line_tag sb ->
  sidebar_free bio_paragraph_tag sb ->
  subscript sb "profile" = Ok (JDict items) ->
  sidebar.get_sidebar_html sb = Ok html ->
  (forall lines : list string,
     dict_find "bio_lines" items = Some (JList (map JStr lines)) ->
     lines <> [] ->
     dict_find "bio" items = None ->
     occurrences bio_line_tag html = List.length lines /\
     occurrences bio_paragraph_tag html = 0) /\
  (forall bio : string,
     dict_find "bio" items = Some (JStr bio) ->
     bio <> EmptyString ->
     dict_find "bio_lines" items = None ->
     occurrences bio_paragraph_tag html = 1 /\
     occurrences bio_line_tag html = 0).
Proof.
  intros Hline Hpara Hp H.
  destruct (sidebar_around_bio bio_line_tag sb html)
    as (pr & bio & Hpr & Hbio & Hfl & Hcl);
    [simpl; auto | exact Hline | exact H |].
  destruct (sidebar_around_bio bio_paragraph_tag sb html)
    as (pr' & bio' & Hpr' & Hbio' & Hfp & Hcp);
    [simpl; auto | exact Hpara | exact H |].
  rewrite Hp in Hpr, Hpr'. injection Hpr as <-. injection Hpr' as <-.
  rewrite Hbio in Hbio'. injection Hbio' as <-.
  split.
  - intros lines Hl Hne _.
    assert (Hg : get (JDict items) "bio_lines" JNull = Ok (JList (map JStr lines)))
      by (unfold get; now rewrite Hl).
    assert (Ht : truthy (JList (map JStr lines)) = true)
      by (destruct lines; [now elim Hne | reflexivity]).
    pose proof (bio_html_of_lines bio_line_tag _ _ _ _
                  ltac:(simpl; auto) Hfl Hg Ht eq_refl Hbio) as H1.
    pose proof (bio_html_of_lines bio_paragraph_tag _ _ _ _
                  ltac:(simpl; auto) Hfp Hg Ht eq_refl Hbio) as H2.
    rewrite length_map in H1, H2.
    split; apply counted_total.
    + apply Hcl. eapply counted_eq; [exact H1 |]. unfold line_tags. simpl. lia.
    + apply Hcp. eapply counted_eq; [exact H2 |].
      change (line_tags bio_paragraph_tag) with 0. lia.
  - intros b Hb Hne Hl.
    assert (Hg : get (JDict items) "bio_lines" JNull = Ok JNull)
      by (unfold get; now rewrite Hl).
    assert (Hgb : get (JDict items) "bio" JNull = Ok (JStr b))
      by (unfold get; now rewrite Hb).
    assert (Ht : truthy (JStr b) = true)
      by (destruct b; [now elim Hne | reflexivity]).
    pose proof (bio_html_of_paragraph bio_paragraph_tag _ _ _ _
                  ltac:(simpl; auto) Hfp Hg eq_refl Hgb Ht Hbio) as H1.
    pose proof (bio_html_of_paragraph bio_line_tag _ _ _ _
                  ltac:(simpl; auto) Hfl Hg eq_refl Hgb Ht Hbio) as H2.
    split; apply counted_total; [apply Hcp; exact H1 | apply Hcl; exact H2].
Qed.

(** Why the name is taken with the end of the image tag: a name that
    holds no bio-line tag, but ends in an unfinished one, adds a third
    to the two of the lines. *)
Lemma name_finished_by_image_tag :
  exists html,
    sidebar.get_sidebar_html unfinished_tag_sidebar = Ok html /\
    free_of bio_line_tag (tpl "N <span class=`bio-line") /\
    occurrences bio_line_tag html = 3.
Proof. eexists. split; [reflexivity |]. split; vm_compute; reflexivity. Qed.

Lemma sidebar_bio_witness :
  (exists html,
     sidebar.get_sidebar_html emphatic_sidebar = Ok html /\
     occurrences bio_line_tag html = 2 /\
     occurrences bio_paragraph_tag html = 0) /\
  (exists html,
     sidebar.get_sidebar_html plain_bio_sidebar = Ok html /\
     occurrences bio_paragraph_tag html = 1 /\
     occurrences bio_line_tag html = 0).
Proof.
  split.
  - eexists. split; [reflexivity |].
    assert (H1 : sidebar_free bio_line_tag emphatic_sidebar)
      by given_texts.
    assert (H2 : sidebar_free bio_paragraph_tag emphatic_sidebar)
      by given_texts.
    refine (proj1 (sidebar_bio_elements emphatic_sidebar _ _
                     H1 H2 eq_refl eq_refl) ["<b>A</b>"; "B"] eq_refl _ eq_refl).
    discriminate.
  - eexists. split; [reflexivity |].
    assert (H1 : sidebar_free bio_line_tag plain_bio_sidebar)
      by given_texts.
    assert (H2 : sidebar_free bio_paragraph_tag plain_bio_sidebar)
      by given_texts.
    refine (proj2 (sidebar_bio_elements plain_bio_sidebar _ _
                     H1 H2 eq_refl eq_refl) "About me" eq_refl _ eq_refl).
    discriminate.
Defined.

End ShellClaims.

(* ===================================================================== *)
(** * Claims about the biography page *)
(* ===================================================================== *)

Module IndexClaims.

#[local] Arguments tpl : simpl never.

(** C5, as stated, fails in its second half: the texts of an affiliation
    are interpolated as they are, so a fragment with an icon glyph can
    still hold a background-image reference. *)
Lemma affiliation_logo_counterexample :
  ~ (forall (aff : json) (icon html : string),
       get aff "logo_icon" (JStr "fa-university") = Ok (JStr icon) ->
       endswith_any icon build_index.image_suffixes = false ->
       build_index.affiliation aff = Ok html ->
       occurrences background_image html = 0).
Proof.
  intros H.
  specialize (H styled_institution "fa-university" _ eq_refl eq_refl eq_refl).
  vm_compute in H. discriminate H.
Qed.

(** C5, amended.  An affiliation whose [logo_icon] ends in [.svg] is
    rendered with a background-image style reference to exactly that
    path.  An affiliation whose [logo_icon] ends in none of the image
    suffixes is rendered with an [<i>] element whose class holds the
    value as an icon glyph, and, provided none of the interpolated texts
    contains the text [background-image], the fragment has no
    background-image reference. *)
Theorem affiliation_logo (aff : json) (icon html : string) :
  get aff "logo_icon" (JStr "fa-university") = Ok (JStr icon) ->
  build_index.affiliation aff = Ok html ->
  (Text.endswith icon ".svg" = true ->
   contains (tpl "style=`background-image: url('" ++ icon ++ tpl "');`") html) /\
  (endswith_any icon build_index.image_suffixes = false ->
   contains (tpl "<i class=`fas " ++ icon ++ tpl "`></i>") html /\
   (no_mention background_image aff -> occurrences background_image html = 0)).
Proof.
  intros Hicon H. unfold build_index.affiliation in H. inv_ok.
  rewrite Hicon in E1. injection E1 as <-.
  unfold Py.endswith in E2. injection E2 as <-. subst html.
  split.
  - intros Hsvg.
    assert (Himg : endswith_any icon build_index.image_suffixes = true).
    { unfold endswith_any, build_index.image_suffixes. simpl existsb.
      rewrite Hsvg. now rewrite !orb_true_r. }
    unfold endswith_any, build_index.image_suffixes in Himg. simpl existsb in Himg.
    rewrite Himg. simpl str.
    change (tpl "<div class=`affiliation-logo` style=`background-image: url('")
      with (tpl "<div class=`affiliation-logo` " ++ tpl "style=`background-image: url('").
    change (tpl "');`></div>") with (tpl "');`" ++ "></div>").
    apply contains_app_r. apply contains_app_l.
    rewrite !append_assoc. rewrite <- (append_assoc _ _ "></div>").
    rewrite <- (append_assoc _ (icon ++ _) "></div>").
    apply contains_app_r. apply contains_app_l.
    exists EmptyString, EmptyString. now rewrite append_nil_r.
  - intros Hglyph.
    unfold endswith_any, build_index.image_suffixes in Hglyph. simpl existsb in Hglyph.
    rewrite Hglyph. simpl str. split.
    + change (tpl "<div class=`affiliation-logo`><i class=`fas ")
        with (tpl "<div class=`affiliation-logo`>" ++ tpl "<i class=`fas ").
      change (tpl "`></i></div>") with (tpl "`></i>" ++ "</div>").
      apply contains_app_r. apply contains_app_l.
      rewrite !append_assoc. rewrite <- (append_assoc _ _ "</div>").
      rewrite <- (append_assoc _ (icon ++ _) "</div>").
      apply contains_app_r. apply contains_app_l.
      exists EmptyString, EmptyString. now rewrite append_nil_r.
    + intros (Hlogo & Hinst & Hrole & Hdept).
      specialize (Hlogo _ Hicon). specialize (Hinst _ E3).
      specialize (Hrole _ E4). specialize (Hdept _ _ E E0).
      simpl str in Hlogo.
      apply counted_total. eapply counted_eq.
      * eapply counted_app; [apply counted_lit; vm_compute; reflexivity |].
        eapply counted_app.
        { eapply counted_app; [apply counted_lit; vm_compute; reflexivity |].
          apply counted_value_absent; [exact Hlogo | reflexivity |].
          apply counted_lit; vm_compute; reflexivity. }
        eapply counted_app; [apply counted_lit; vm_compute; reflexivity |].
        eapply counted_value_absent_app;
          [exact Hinst | reflexivity | apply counted_lit; vm_compute; reflexivity |].
        eapply counted_value_absent_app;
          [exact Hrole | reflexivity | apply counted_lit; vm_compute; reflexivity |].
        apply counted_value_absent; [exact Hdept | reflexivity |].
        apply counted_lit; vm_compute; reflexivity.
      * vm_compute. reflexivity.
Qed.

Lemma affiliation_logo_witness :
  (exists html,
     build_index.affiliation svg_affiliation = Ok html /\
     contains (tpl "style=`background-image: url('" ++ "assets/logo.svg" ++ tpl "');`")
       html) /\
  (exists html,
     build_index.affiliation glyph_affiliation = Ok html /\
     contains (tpl "<i class=`fas " ++ "fa-university" ++ tpl "`></i>") html /\
     occurrences background_image html = 0).
Proof.
  split.
  - eexists. split; [reflexivity |].
    apply (proj1 (affiliation_logo svg_affiliation "assets/logo.svg" _
                    eq_refl eq_refl)).
    reflexivity.
  - eexists. split; [reflexivity |].
    destruct (proj2 (affiliation_logo glyph_affiliation "fa-university" _
                       eq_refl eq_refl) eq_refl) as [Hglyph Hnone].
    split; [exact Hglyph |]. apply Hnone.
    repeat split.
    + intros v H. vm_compute in H. injection H as <-. reflexivity.
    + intros v H. vm_compute in H. injection H as <-. reflexivity.
    + intros v H. vm_compute in H. injection H as <-. reflexivity.
    + intros d text Hd Ht. vm_compute in Hd. injection Hd as <-.
      vm_compute in Ht. injection Ht as <-. reflexivity.
Defined.

End IndexClaims.

(* ===================================================================== *)
(** * Claims about whole pages *)
(* ===================================================================== *)

Module PageClaims.

#[local] Arguments tpl : simpl never.

Lemma default_css_colours :
  exists css,
    sidebar.get_base_css JNull = Ok css /\
    Forall (fun colour => contains colour css) default_colours.
Proof.
  eexists. split; [reflexivity |].
  repeat constructor; apply occurrences_contains; vm_compute; discriminate.
Qed.

Lemma themeless_head_colours (title description : json) (page_css head : string) :
  sidebar.get_base_head_html title description page_css JNull = Ok head ->
  Forall (fun colour => contains colour head) default_colours.
Proof.
  intros H. unfold sidebar.get_base_head_html in H. inv_ok. subst head.
  destruct default_css_colours as (css & Hcss & Hall).
  rewrite Hcss in E. injection E as <-.
  eapply Forall_impl; [exact Hall |]. intros colour Hc. simpl in Hc.
  do 5 apply contains_app_r. now apply contains_app_l.
Qed.

Lemma index_head_colours (content : json) (head : string) :
  build_index.head_html content = Ok head ->
  Forall (fun colour => contains colour head) default_colours.
Proof.
  intros H. unfold build_index.head_html in H. inv_ok.
  eapply themeless_head_colours; eassumption.
Qed.

Lemma research_head_colours (content : json) (head : string) :
  build_research.head_html content = Ok head ->
  Forall (fun colour => contains colour head) default_colours.
Proof.
  intros H. unfold build_research.head_html in H. inv_ok. subst head.
  unfold sidebar.get_head_html in *.
  match goal with
  | E : sidebar.get_base_head_html _ _ _ _ = Ok _ |- _ =>
      apply themeless_head_colours in E; rename E into Hall
  end.
  unfold default_colours in *.
  repeat match goal with
  | H : Forall _ (_ :: _) |- _ => inversion H; subst; clear H
  end.
  repeat constructor;
    apply (str_replace_contains "<"%char "-"%char); solve [reflexivity | assumption].
Qed.

(** C1, where it fails.  The builders of the biography page and of the
    research page ask for the head without the sidebar, so whatever
    theme the sidebar declares, the CSS variable block of these two
    pages carries the fixed default accent and link colours. *)
Theorem index_and_research_heads_ignore_theme (content sb : json) (html : string) :
  build_index.build_html content sb = Ok html \/
  build_research.build_html content sb = Ok html ->
  Forall (fun colour => contains colour html) default_colours.
Proof.
  intros [H|H].
  - unfold build_index.build_html in H. inv_ok. subst html.
    match goal with
    | E : build_index.head_html _ = Ok _ |- _ =>
        apply index_head_colours in E; rename E into Hall
    end.
    eapply Forall_impl; [exact Hall |]. intros colour Hc. simpl in Hc.
    apply contains_app_r. now apply contains_app_l.
  - unfold build_research.build_html in H. inv_ok. subst html.
    match goal with
    | E : build_research.head_html _ = Ok _ |- _ =>
        apply research_head_colours in E; rename E into Hall
    end.
    eapply Forall_impl; [exact Hall |]. intros colour Hc. simpl in Hc.
    apply contains_app_r. now apply contains_app_l.
Qed.

(** ** The CV entry of the navigation list *)

Lemma nav_list_has_cv_entry (active_page cv : string) :
  String.eqb "cv" active_page = false ->
  contains (cv_entry cv) (nav_list active_page cv).
Proof.
  intros H. unfold nav_list, nav_entries. cbn [join]. rewrite H.
  do 8 apply contains_app_r. exists EmptyString, EmptyString.
  now rewrite append_nil_r.
Qed.

Lemma nav_html_without_sidebar (active_page : string) :
  sidebar.get_nav_html active_page JNull = Ok (nav_list active_page "cv.pdf").
Proof. reflexivity. Qed.

Lemma nav_html_with_sidebar (active_page : string) (sb cv : json) :
  sidebar.cv_file_of sb = Ok cv ->
  sidebar.get_nav_html active_page sb = Ok (nav_list active_page (str cv)).
Proof. intros H. unfold sidebar.get_nav_html. now rewrite H. Qed.

Lemma declared_cv_file (d : list (string * json)) :
  sidebar.cv_file_of (JDict d)
  = Ok match dict_find "cv_file" d with
       | Some cv => cv
       | None => JStr "cv.pdf"
       end.
Proof.
  destruct d as [|kv d]; [reflexivity |].
  unfold sidebar.cv_file_of, get. cbn [truthy].
  now destruct (dict_find "cv_file" (kv :: d)).
Qed.

Section SameButCv.
Variables d1 d2 : list (string * json).
Hypothesis Hsame : same_but_cv d1 d2.

Lemma subscript_same (key : string) :
  key <> "cv_file" -> subscript (JDict d1) key = subscript (JDict d2) key.
Proof. intros H. unfold subscript. now rewrite (Hsame key H). Qed.

Lemma get_same (key : string) (default : json) :
  key <> "cv_file" -> get (JDict d1) key default = get (JDict d2) key default.
Proof. intros H. unfold get. now rewrite (Hsame key H). Qed.

Lemma nav_brand_same :
  sidebar.get_nav_brand (JDict d1) = sidebar.get_nav_brand (JDict d2).
Proof. unfold sidebar.get_nav_brand. now apply subscript_same. Qed.

Lemma sidebar_html_same :
  sidebar.get_sidebar_html (JDict d1) = sidebar.get_sidebar_html (JDict d2).
Proof.
  unfold sidebar.get_sidebar_html.
  rewrite (subscript_same "profile") by discriminate.
  now rewrite (get_same "sidebar_links") by discriminate.
Qed.

Lemma footer_same :
  sidebar.get_footer_html (JDict d1) = sidebar.get_footer_html (JDict d2).
Proof.
  unfold sidebar.get_footer_html. now rewrite (subscript_same "footer") by discriminate.
Qed.

Lemma theme_tables_dict (d : list (string * json)) :
  sidebar.theme_tables (JDict d) =
  match dict_find "theme" d with
  | Some theme =>
      let* light := get theme "light" (JDict []) in
      let* dark := get theme "dark" (JDict []) in
      Ok (light, dark)
  | None => Ok (JDict [], JDict [])
  end.
Proof.
  unfold sidebar.theme_tables. destruct d as [|kv d]; [reflexivity |].
  cbn [truthy has bind subscript]. destruct (dict_find "theme" (kv :: d)); reflexivity.
Qed.

Lemma base_css_same :
  sidebar.get_base_css (JDict d1) = sidebar.get_base_css (JDict d2).
Proof.
  unfold sidebar.get_base_css. rewrite !theme_tables_dict.
  now rewrite (Hsame "theme") by discriminate.
Qed.

Lemma head_same (title description : json) :
  sidebar.get_head_html title description (JDict d1)
  = sidebar.get_head_html title description (JDict d2).
Proof.
  unfold sidebar.get_head_html, sidebar.get_base_head_html. now rewrite base_css_same.
Qed.

Lemma research_same (content : json) :
  build_research.build_html content (JDict d1)
  = build_research.build_html content (JDict d2).
Proof.
  unfold build_research.build_html.
  now rewrite nav_brand_same, sidebar_html_same, footer_same.
Qed.

Lemma publications_same (content : json) :
  build_publications.build_html content (JDict d1)
  = build_publications.build_html content (JDict d2).
Proof.
  unfold build_publications.build_html, build_publications.head_html.
  rewrite nav_brand_same, sidebar_html_same, footer_same.
  destruct (subscript content "meta") as [meta|e]; [| reflexivity].
  cbn [bind]. destruct (subscript meta "title") as [title|e]; [| reflexivity].
  cbn [bind]. destruct (subscript meta "description") as [description|e];
    [| reflexivity].
  cbn [bind]. now rewrite head_same.
Qed.

Lemma teaching_same (content : json) :
  build_teaching.build_html content (JDict d1)
  = build_teaching.build_html content (JDict d2).
Proof.
  unfold build_teaching.build_html, build_teaching.head_html.
  rewrite nav_brand_same, sidebar_html_same, footer_same.
  destruct (subscript content "meta") as [meta|e]; [| reflexivity].
  cbn [bind]. destruct (subscript meta "title") as [title|e]; [| reflexivity].
  cbn [bind]. destruct (subscript meta "description") as [description|e];
    [| reflexivity].
  cbn [bind]. now rewrite head_same.
Qed.

End SameButCv.

(** C10.  The research, publications and teaching builders ask for the
    navigation list without the sidebar: their pages do not depend on
    the [cv_file] of the sidebar at all (two sidebars that differ in it
    only give the same result), and the CV entry of a page they build
    points to the default [cv.pdf].  The biography builder passes the
    sidebar: a page it builds has a sidebar that is an object, and its
    CV entry points to the text of the value under the key [cv_file] of
    that object, or to [cv.pdf] when the object has no such key. *)
Theorem cv_file_only_on_biography :
  (forall (content : json) (d1 d2 : list (string * json)),
     same_but_cv d1 d2 ->
     build_research.build_html content (JDict d1)
     = build_research.build_html content (JDict d2) /\
     build_publications.build_html content (JDict d1)
     = build_publications.build_html content (JDict d2) /\
     build_teaching.build_html content (JDict d1)
     = build_teaching.build_html content (JDict d2)) /\
  (forall (content sb : json) (html : string),
     build_research.build_html content sb = Ok html \/
     build_publications.build_html content sb = Ok html \/
     build_teaching.build_html content sb = Ok html ->
     contains (cv_entry "cv.pdf") html) /\
  (forall (content sb : json) (html : string),
     build_index.build_html content sb = Ok html ->
     exists d : list (string * json),
       sb = JDict d /\
       contains
         (cv_entry
            match dict_find "cv_file" d with
            | Some cv => str cv
            | None => "cv.pdf"
            end) html).
Proof.
  split; [| split].
  - intros content d1 d2 H. split; [| split].
    + now apply research_same.
    + now apply publications_same.
    + now apply teaching_same.
  - intros content sb html [H | [H | H]].
    + unfold build_research.build_html in H. inv_ok. subst html.
      match goal with
      | E : sidebar.get_nav_html _ JNull = Ok _ |- _ =>
          rewrite nav_html_without_sidebar in E; injection E as <-
      end.
      do 5 apply contains_app_r. apply contains_app_l.
      now apply nav_list_has_cv_entry.
    + unfold build_publications.build_html in H. inv_ok. subst html.
      match goal with
      | E : sidebar.get_nav_html _ JNull = Ok _ |- _ =>
          rewrite nav_html_without_sidebar in E; injection E as <-
      end.
      do 5 apply contains_app_r. apply contains_app_l.
      now apply nav_list_has_cv_entry.
    + unfold build_teaching.build_html in H. inv_ok. subst html.
      match goal with
      | E : sidebar.get_nav_html _ JNull = Ok _ |- _ =>
          rewrite nav_html_without_sidebar in E; injection E as <-
      end.
      do 5 apply contains_app_r. apply contains_app_l.
      now apply nav_list_has_cv_entry.
  - intros content sb html H.
    unfold build_index.build_html in H. inv_ok. subst html.
    match goal with
    | E : sidebar.get_nav_brand sb = Ok _ |- _ =>
        destruct sb as [| | | | |d]; try discriminate E
    end.
    exists d. split; [reflexivity |].
    match goal with
    | E : sidebar.get_nav_html _ (JDict d) = Ok _ |- _ =>
        rewrite (nav_html_with_sidebar _ _ _ (declared_cv_file d)) in E;
        injection E as <-
    end.
    do 5 apply contains_app_r. apply contains_app_l.
    destruct (dict_find "cv_file" d); now apply nav_list_has_cv_entry.
Qed.

(** The failing input of C1: the sidebar declares a red light accent,
    and the biography page is built with the default one. *)
Lemma index_head_ignores_theme_witness :
  exists html,
    build_index.build_html sample_index themed_sidebar = Ok html /\
    Forall (fun colour => contains colour html) default_colours /\
    occurrences "#FF0000" html = 0.
Proof.
  eexists. split; [reflexivity |]. split.
  - apply (index_and_research_heads_ignore_theme sample_index themed_sidebar).
    left. reflexivity.
  - vm_compute. reflexivity.
Defined.

Lemma cv_file_witness :
  (exists html,
     build_research.build_html sample_research themed_sidebar = Ok html /\
     contains (cv_entry "cv.pdf") html) /\
  (exists html,
     build_index.build_html sample_index themed_sidebar = Ok html /\
     contains (cv_entry "files/cv.pdf") html).
Proof.
  destruct cv_file_only_on_biography as (_ & Hdefault & Hdeclared).
  split.
  - eexists. split; [reflexivity |].
    apply (Hdefault sample_research themed_sidebar). left. reflexivity.
  - eexists. split; [reflexivity |].
    destruct (Hdeclared sample_index themed_sidebar _ eq_refl) as (d & Hd & Hcv).
    injection Hd as <-. exact Hcv.
Defined.

(** The builder of the publications page passes the sidebar, and its
    page carries the declared accent. *)
Lemma publications_head_uses_theme :
  exists html,
    build_publications.build_html sample_publications themed_sidebar = Ok html /\
    contains "--accent-color: #FF0000;" html.
Proof.
  eexists. split; [reflexivity |].
  apply occurrences_contains. vm_compute. discriminate.
Qed.

End PageClaims.

(* ===================================================================== *)
(** * The publications page *)
(* ===================================================================== *)

Module PublicationsFacts.

#[local] Arguments tpl : simpl never.

(** Replacement applied to a rendered text, piece by piece. *)
Ltac replacing :=
  lazymatch goal with
  | |- replaced _ _ (_ ++ _) _ => eapply replaced_app; replacing
  | |- replaced _ _ EmptyString _ => apply replaced_nil
  | |- replaced _ _ (str _) _ =>
      apply replaced_value; apply markup_free_str; mf
  | |- replaced _ _ _ _ =>
      first [ apply replaced_lit; vm_compute; reflexivity
            | apply replaced_value; assumption ]
  end.

Lemma theme_tables_markup_free (sb light dark : json) :
  markup_free sb = true ->
  sidebar.theme_tables sb = Ok (light, dark) ->
  markup_free light = true /\ markup_free dark = true.
Proof.
  intros Hm H. unfold sidebar.theme_tables in H.
  apply bind_Ok in H as (themed & Ht & H). destruct themed.
  - apply bind_Ok in H as (t1 & E1 & H). apply bind_Ok in H as (l & E2 & H).
    apply bind_Ok in H as (t2 & E3 & H). apply bind_Ok in H as (d & E4 & H).
    injection H as <- <-. split; mf.
  - injection H as <- <-. split; reflexivity.
Qed.

(** ** Texts that may hold markup *)

Ltac each_entry H :=
  unfold palette_free, light_palette, dark_palette in H;
  repeat match type of H with
  | Forall _ (_ :: _) =>
      let H1 := fresh "Hcolour" in
      let H2 := fresh "Hrest" in
      inversion H as [|? ? H1 H2]; subst; clear H; rename H2 into H;
      cbn [fst snd] in H1
  end.

(** The style sheet of the shell has no abstracts heading. *)
Lemma base_css_free (sb : json) (css : string) :
  (forall light dark, sidebar.theme_tables sb = Ok (light, dark) ->
     palette_free abstracts_heading_mark light light_palette /\
     palette_free abstracts_heading_mark dark dark_palette) ->
  sidebar.get_base_css sb = Ok css ->
  counted abstracts_heading_mark css 0.
Proof.
  intros Hf H. unfold sidebar.get_base_css in H.
  apply bind_Ok in H as ([light dark] & Et & H).
  destruct (Hf _ _ Et) as [Hl Hd]. each_entry Hl. each_entry Hd.
  inv_ok. subst css.
  eapply counted_eq; [walk | sum_up].
Qed.

(** The head of the publications page has no abstracts heading. *)
Lemma publications_head_free (content sb : json) (head : string) :
  head_free abstracts_heading_mark content sb ->
  build_publications.head_html content sb = Ok head ->
  free_of abstracts_heading_mark head.
Proof.
  intros [Hmeta Hcolours] H. unfold build_publications.head_html in H.
  apply bind_Ok in H as (meta & Em & H).
  apply bind_Ok in H as (title & Et & H).
  apply bind_Ok in H as (meta' & Em' & H).
  rewrite Em in Em'. injection Em' as <-.
  apply bind_Ok in H as (description & Ed & H).
  apply bind_Ok in H as (base & Eb & H).
  injection H as <-.
  destruct (Hmeta _ Em) as [Htitle Hdescription].
  specialize (Htitle _ Et). specialize (Hdescription _ Ed).
  unfold sidebar.get_head_html, sidebar.get_base_head_html in Eb.
  apply bind_Ok in Eb as (css & Ec & Eb). injection Eb as <-.
  pose proof (base_css_free _ _ Hcolours Ec) as Hcss.
  unfold free_of, str_replace. apply replace_from_free.
  - vm_compute. reflexivity.
  - intros E. vm_compute in E. discriminate E.
  - apply counted_total. eapply counted_eq; [walk | sum_up].
Qed.

Lemma intro_link_free (p : string) (link : json) (out : string) :
  In p list_tags ->
  reference_free p link ->
  build_publications.intro_link link = Ok out ->
  counted p out 0.
Proof.
  intros Hp [Hurl Hlabel] H. unfold build_publications.intro_link in H. inv_ok.
  subst out. each_tag Hp.
  all: eapply counted_eq; [walk | sum_up].
Qed.

Lemma intro_links_free (p : string) (links : json) (items : list json)
    (out : string) :
  In p list_tags ->
  iter links = Ok items ->
  Forall (reference_free p) items ->
  build_publications.generate_intro_links links = Ok out ->
  counted p out 0.
Proof.
  intros Hp Hi Hf H. unfold build_publications.generate_intro_links in H.
  rewrite Hi in H. cbn [bind] in H. inv_ok. subst out.
  apply counted_join.
  - each_tag Hp. all: apply lit_scan_sound; vm_compute; reflexivity.
  - eapply traverse_Forall; [| exact Hf | eassumption].
    intros x y Hx Hy. eapply intro_link_free; eauto.
Qed.

(** The links of the introduction are nothing, or begin with a tag. *)
Lemma intro_links_head (links : json) (out : string) :
  build_publications.generate_intro_links links = Ok out ->
  out = EmptyString \/ exists r, out = "<" ++ r.
Proof.
  intros H. unfold build_publications.generate_intro_links in H. inv_ok.
  subst out.
  match goal with
  | T : traverse _ _ = Ok ?l |- _ => apply traverse_Ok in T; destruct T as [|x y l ys Hy _]
  end.
  - now left.
  - right. unfold build_publications.intro_link in Hy. inv_ok. subst y.
    destruct ys; eexists; reflexivity.
Qed.

Lemma paper_link_free (p : string) (link : json) (out : string) :
  In p list_tags ->
  reference_free p link ->
  build_publications.paper_link link = Ok out ->
  counted p out 0.
Proof.
  intros Hp [Hurl Hlabel] H. unfold build_publications.paper_link in H. inv_ok.
  subst out. each_tag Hp.
  all: eapply counted_eq; [walk | sum_up].
Qed.

Lemma paper_links_free (p : string) (links : json) (items : list json)
    (out : string) :
  In p list_tags ->
  iter links = Ok items ->
  Forall (reference_free p) items ->
  build_publications.generate_paper_links links = Ok out ->
  counted p out 0.
Proof.
  intros Hp Hi Hf H. unfold build_publications.generate_paper_links in H.
  rewrite Hi in H. cbn [bind] in H. inv_ok. subst out.
  apply counted_join.
  - each_tag Hp. all: apply lit_scan_sound; vm_compute; reflexivity.
  - eapply traverse_Forall; [| exact Hf | eassumption].
    intros x y Hx Hy. eapply paper_link_free; eauto.
Qed.

(** A paper entry has no abstracts heading, and without its thumbnail
    it has no thumbnail block. *)
Lemma paper_html_free (p : string) (paper : json) (show_image : bool) (out : string) :
  p = abstracts_heading_mark \/ (p = paper_image_tag /\ show_image = false) ->
  paper_free p show_image paper ->
  build_publications.generate_paper_html paper show_image = Ok out ->
  counted p out 0.
Proof.
  intros Hp (Hauthors & Hlinks & Himage & Htitle & Hvenue) H.
  unfold build_publications.generate_paper_html in H.
  apply bind_Ok in H as (authors & Ea & H).
  apply bind_Ok in H as (links & El & H).
  apply bind_Ok in H as (links_html & Elh & H).
  assert (Hl : counted p links_html 0).
  { pose proof Elh as Elh'. unfold build_publications.generate_paper_links in Elh'.
    apply bind_Ok in Elh' as (items & Hi & _).
    eapply paper_links_free; [| exact Hi | eauto | exact Elh].
    destruct Hp as [-> | [-> _]]; simpl; auto. }
  destruct show_image; inv_ok; subst out.
  - specialize (Himage eq_refl).
    destruct Hp as [-> | [_ Hf]]; [| discriminate].
    eapply counted_eq; [walk | sum_up].
  - destruct Hp as [-> | [-> _]].
    all: eapply counted_eq; [walk | sum_up].
Qed.

Lemma year_section_free (p : string) (group : json) (show_image : bool)
    (out : string) :
  p = abstracts_heading_mark \/ (p = paper_image_tag /\ show_image = false) ->
  year_group_free p show_image group ->
  build_publications.generate_year_section group show_image = Ok out ->
  counted p out 0.
Proof.
  intros Hp [Hyear Hpapers] H. unfold build_publications.generate_year_section in H.
  apply bind_Ok in H as (year & Ey & H).
  apply bind_Ok in H as (papers & Ep & H).
  apply bind_Ok in H as (items & Ei & H).
  apply bind_Ok in H as (entries & Ee & H).
  assert (Hentries : counted p (join "
        " entries) 0).
  { apply counted_join.
    - destruct Hp as [-> | [-> _]]; apply lit_scan_sound; vm_compute; reflexivity.
    - eapply traverse_Forall; [| exact (Hpapers _ _ Ep Ei) | exact Ee].
      intros x y Hx Hy. eapply paper_html_free; eauto. }
  destruct (truthy year) eqn:Ht; inv_ok; subst out.
  - specialize (Hyear _ Ey Ht).
    destruct Hp as [-> | [-> _]].
    all: eapply counted_eq; [walk | sum_up].
  - destruct Hp as [-> | [-> _]].
    all: eapply counted_eq; [walk | sum_up].
Qed.

Lemma year_sections_free (p : string) (groups : list json) (show_image : bool)
    (sections : list string) :
  p = abstracts_heading_mark \/ (p = paper_image_tag /\ show_image = false) ->
  Forall (year_group_free p show_image) groups ->
  traverse (fun g => build_publications.generate_year_section g show_image) groups
  = Ok sections ->
  counted p (join "
      " sections) 0.
Proof.
  intros Hp Hf H. apply counted_join.
  - destruct Hp as [-> | [-> _]]; apply lit_scan_sound; vm_compute; reflexivity.
  - eapply traverse_Forall; [| exact Hf | exact H].
    intros x y Hx Hy. eapply year_section_free; eauto.
Qed.

Lemma footer_html_free (sb : json) (out : string) :
  footer_free abstracts_heading_mark sb ->
  sidebar.get_footer_html sb = Ok out ->
  counted abstracts_heading_mark out 0.
Proof.
  intros Hf H. unfold sidebar.get_footer_html in H.
  apply bind_Ok in H as (footer & Ef & H).
  apply bind_Ok in H as (year & Ey & H).
  apply bind_Ok in H as (name & En & H).
  injection H as <-. specialize (Hf _ _ _ Ef Ey En).
  eapply counted_eq.
  - eapply counted_app; [piece |].
    rewrite <- !append_assoc. rewrite (append_assoc (str year)).
    eapply (text_then _ _ ".
    </p>
  </footer>"); [exact Hf | vm_compute; reflexivity | starts | piece].
  - sum_up.
Qed.

Lemma sidebar_html_free (sb : json) (out : string) :
  sidebar_free abstracts_heading_mark sb ->
  sidebar.get_sidebar_html sb = Ok out ->
  counted abstracts_heading_mark out 0.
Proof.
  intros Hf H.
  destruct (sidebar_around_bio abstracts_heading_mark sb out)
    as (profile & bio & Hp & Hb & Hbio & Hframe);
    [simpl; auto | exact Hf | exact H |].
  apply Hframe. eapply bio_html_free; [| exact Hbio | exact Hb]. simpl; auto.
Qed.

End PublicationsFacts.

Import PublicationsFacts.

Module PublicationsClaims.

#[local] Arguments tpl : simpl never.

Ltac find_part :=
  first [ apply contains_refl
        | apply contains_app_l; apply contains_refl
        | apply contains_app_r; find_part ].

(** C6, as stated, fails in its first half: content is interpolated as
    it is, so a page without conference abstracts can still hold their
    heading. *)
Lemma abstracts_heading_counterexample :
  ~ (forall (content sb : json) (html : string),
       get content "conference_abstracts" (JList []) = Ok (JList []) ->
       build_publications.build_html content sb = Ok html ->
       occurrences abstracts_heading_mark html = 0).
Proof.
  intros H.
  specialize (H heading_in_intro themed_sidebar _ eq_refl eq_refl).
  vm_compute in H. discriminate H.
Qed.

(** The abstracts block is part of the page. *)
Lemma publications_has_block (content sb : json) (html : string) :
  build_publications.build_html content sb = Ok html ->
  exists block,
    build_publications.conference_abstracts_block content = Ok block /\
    contains block html.
Proof.
  intros H. unfold build_publications.build_html in H. inv_ok. subst html.
  match goal with
  | E : build_publications.conference_abstracts_block _ = Ok ?b |- _ =>
      exists b; split; [exact E |]
  end.
  find_part.
Qed.

(** The page around its abstracts block has no abstracts heading. *)
Lemma publications_frame (content sb : json) (html block : string) :
  publications_free abstracts_heading_mark content sb ->
  build_publications.build_html content sb = Ok html ->
  build_publications.conference_abstracts_block content = Ok block ->
  forall k, counted abstracts_heading_mark block k ->
            occurrences abstracts_heading_mark html = k.
Proof.
  intros (Hhead & Hbrand & Hside & Hintro & Hpubs & _ & Hfoot) H Hblock k Hk.
  unfold build_publications.build_html in H.
  apply bind_Ok in H as (head & Eh & H).
  apply bind_Ok in H as (intro & Ei & H).
  apply bind_Ok in H as (links & El & H).
  apply bind_Ok in H as (intro_links & Eil & H).
  apply bind_Ok in H as (publications & Ep & H).
  apply bind_Ok in H as (publications_html & Eph & H).
  apply bind_Ok in H as (block' & Eb & H).
  rewrite Hblock in Eb. injection Eb as <-.
  apply bind_Ok in H as (brand & Enb & H).
  apply bind_Ok in H as (nav & Enh & H).
  rewrite PageClaims.nav_html_without_sidebar in Enh. injection Enh as <-.
  apply bind_Ok in H as (sidebar_html & Es & H).
  apply bind_Ok in H as (intro' & Ei' & H).
  rewrite Ei in Ei'. injection Ei' as <-.
  apply bind_Ok in H as (title & Et & H).
  apply bind_Ok in H as (intro' & Ei' & H).
  rewrite Ei in Ei'. injection Ei' as <-.
  apply bind_Ok in H as (description & Ed & H).
  apply bind_Ok in H as (footer & Ef & H).
  injection H as <-.
  pose proof (publications_head_free _ _ _ Hhead Eh) as Hh.
  specialize (Hbrand _ Enb).
  destruct (Hintro _ Ei) as (Hlinks & Htitle & Hdescription).
  specialize (Htitle _ Et). specialize (Hdescription _ Ed).
  assert (Hil : counted abstracts_heading_mark intro_links 0).
  { pose proof Eil as Eil'. unfold build_publications.generate_intro_links in Eil'.
    apply bind_Ok in Eil' as (items & Hi & _).
    eapply intro_links_free; [simpl; auto | exact Hi | eauto | exact Eil]. }
  assert (Hph : counted abstracts_heading_mark publications_html 0).
  { unfold build_publications.generate_publications_html in Eph.
    apply bind_Ok in Eph as (items & Hi & Eph).
    apply bind_Ok in Eph as (sections & Hs & Eph). injection Eph as <-.
    eapply year_sections_free; [now left | exact (Hpubs _ Ep _ Hi) | exact Hs]. }
  pose proof (sidebar_html_free _ _ Hside Es) as Hs.
  pose proof (footer_html_free _ _ Hfoot Ef) as Hf.
  apply counted_total. eapply counted_eq.
  - eapply counted_app; [piece |].
    eapply (text_then _ head (tpl "
<body>
  <!-- Navigation Bar -->"));
      [exact Hh | vm_compute; reflexivity | starts |].
    walk.
    eapply (text_then _ _ " <");
      [ exact Hdescription
      | vm_compute; reflexivity
      | destruct (intro_links_head _ _ Eil) as [-> | [r ->]]; eexists; reflexivity
      | ].
    walk.
  - sum_up.
Qed.

(** C6, amended.  The publications page is built from a content
    document whose [conference_abstracts] is absent or an empty list:
    if none of the texts the builder puts into the page holds the
    conference-abstracts heading, the page has no such heading.  The
    texts are title, description and theme colours in the head, the
    brand, the texts of the sidebar, the introduction (its title taken
    with the closing tag of its heading), year, authors, title, venue,
    image and links of the papers, and year and name of the footer.
    When [conference_abstracts] is a non-empty list, the page has the
    heading block followed by the year groups of the list rendered by
    the year-group template of the publications with the thumbnails
    off; this part has no thumbnail block if none of the texts of the
    abstracts holds the opening tag of one, and the page has the heading
    exactly once if none of its texts holds it. *)
Theorem conference_abstracts_section (content sb abstracts : json) (html : string) :
  build_publications.build_html content sb = Ok html ->
  get content "conference_abstracts" (JList []) = Ok abstracts ->
  (abstracts = JList [] ->
   publications_free abstracts_heading_mark content sb ->
   occurrences abstracts_heading_mark html = 0) /\
  (forall groups : list json,
     abstracts = JList groups ->
     groups <> [] ->
     exists sections,
       traverse (fun g => build_publications.generate_year_section g false) groups
       = Ok sections /\
       contains (build_publications.abstracts_heading ++ join "
      " sections) html /\
       (year_groups_free paper_image_tag false abstracts ->
        occurrences paper_image_tag (join "
      " sections) = 0) /\
       (publications_free abstracts_heading_mark content sb ->
        occurrences abstracts_heading_mark html = 1)).
Proof.
  intros H Ha.
  destruct (publications_has_block content sb html H) as (block & Hblock & Hpart).
  pose proof Hblock as Hb.
  unfold build_publications.conference_abstracts_block in Hb.
  rewrite Ha in Hb. cbn [bind] in Hb.
  split.
  - intros -> Hfree. cbn [truthy] in Hb. injection Hb as <-.
    apply (publications_frame _ _ _ _ Hfree H Hblock). apply counted_nil.
  - intros groups -> Hne.
    assert (Ht : truthy (JList groups) = true)
      by (destruct groups; [now elim Hne | reflexivity]).
    rewrite Ht in Hb.
    unfold build_publications.generate_conference_abstracts_html in Hb.
    rewrite Ht in Hb. cbn [negb bind iter] in Hb.
    apply bind_Ok in Hb as (out & Hb & Eo).
    apply bind_Ok in Hb as (sections & Hs & Hb).
    injection Hb as <-. injection Eo as <-.
    exists sections. split; [exact Hs |]. split; [exact Hpart |]. split.
    + intros Hfree. apply counted_total.
      eapply year_sections_free; [right; now split | exact (Hfree _ eq_refl) | exact Hs].
    + intros Hfree.
      apply (publications_frame _ _ _ _ Hfree H Hblock).
      destruct Hfree as (_ & _ & _ & _ & _ & Habs & _).
      eapply counted_eq.
      * eapply counted_app; [apply counted_lit; vm_compute; reflexivity |].
        eapply year_sections_free;
          [now left | exact (Habs _ Ha Ht _ eq_refl) | exact Hs].
      * vm_compute. reflexivity.
Qed.

(** Why the title of the introduction is taken with the closing tag
    after it: a title that holds no abstracts heading, but lacks only
    the closing tag of one, puts the heading on a page without
    abstracts. *)
Lemma title_finished_by_closing_tag :
  exists html,
    build_publications.build_html unfinished_heading_in_title themed_sidebar
    = Ok html /\
    free_of abstracts_heading_mark
      (tpl "<h1 class=`section-title`>Selected Conference Abstracts") /\
    occurrences abstracts_heading_mark html = 1.
Proof. eexists. split; [reflexivity |]. split; vm_compute; reflexivity. Qed.

(** Why year and name of the footer are taken together: neither half
    holds the heading, the line made of them does. *)
Lemma heading_made_by_footer :
  exists html,
    build_publications.build_html publications_without_abstracts
      heading_across_footer = Ok html /\
    free_of abstracts_heading_mark "<h1" /\
    free_of abstracts_heading_mark
      (tpl "class=`section-title`>Selected Conference Abstracts</h1>") /\
    occurrences abstracts_heading_mark html = 1.
Proof.
  eexists. split; [reflexivity |]. repeat split; vm_compute; reflexivity.
Qed.

Lemma conference_abstracts_witness :
  (exists html,
     build_publications.build_html emphatic_publications themed_sidebar = Ok html /\
     occurrences abstracts_heading_mark html = 0) /\
  (exists html sections,
     build_publications.build_html sample_publications themed_sidebar = Ok html /\
     contains (build_publications.abstracts_heading ++ join "
      " sections) html /\
     occurrences paper_image_tag (join "
      " sections) = 0 /\
     occurrences abstracts_heading_mark html = 1).
Proof.
  split.
  - eexists. split; [reflexivity |].
    apply (proj1 (conference_abstracts_section emphatic_publications
                    themed_sidebar (JList []) _ eq_refl eq_refl)).
    + reflexivity.
    + given_texts.
  - destruct (proj2 (conference_abstracts_section sample_publications
                       themed_sidebar _ _ eq_refl eq_refl) _ eq_refl)
      as (sections & _ & Hpart & Himage & Hheading); [discriminate |].
    eexists. exists sections. split; [reflexivity |]. split; [exact Hpart |].
    split; [apply Himage | apply Hheading]; given_texts.
Defined.

End PublicationsClaims.

(* ===================================================================== *)
(** * Runs of the build drivers: success, malformed input, other files *)
(* ===================================================================== *)

Module DriverRuns.

Section Driver.
Variable json_loads : string -> result json.
Variables content_path output_path : string.
Variable build_html : json -> json -> result string.

Let main := driver json_loads content_path output_path build_html.

Lemma driver_writes :
  writes_the_page json_loads content_path output_path build_html main.
Proof.
  intros w st ct sb c html H1 H2 H3 H4 H5 H6.
  unfold main. rewrite (driver_loaded _ _ _ _ w st ct sb c H1 H2 H3 H4), H5, H6.
  reflexivity.
Qed.

Lemma driver_empties :
  empties_the_output json_loads content_path output_path build_html main.
Proof.
  intros w st ct sb c html H1 H2 H3 H4 H5 H6.
  unfold main. rewrite (driver_loaded _ _ _ _ w st ct sb c H1 H2 H3 H4), H5, H6.
  reflexivity.
Qed.

Lemma driver_malformed_sidebar :
  stops_at_malformed_sidebar json_loads content_path main.
Proof.
  intros w st ct e H1 H2 H3.
  unfold main, driver, sidebar.load_sidebar, and_then, path_exists, read_text,
    print, lift, render, write_text, ret, emit.
  repeat (progress (rewrite ?H1, ?H2, ?H3; simpl)).
  repeat rewrite <- app_assoc. reflexivity.
Qed.

Lemma driver_malformed_content :
  stops_at_malformed_content json_loads content_path main.
Proof.
  intros w st ct sb e H1 H2 H3 H4.
  unfold main, driver, sidebar.load_sidebar, and_then, path_exists, read_text,
    print, lift, render, write_text, ret, emit.
  repeat (progress (rewrite ?H1, ?H2, ?H3, ?H4; simpl)).
  repeat rewrite <- app_assoc. reflexivity.
Qed.

(** The files a run leaves, by the page it writes. *)
Lemma driver_files (w : world) :
  files (snd (main w)) =
  match page_written json_loads content_path build_html (files w) with
  | Some html => <[output_path := html]> (files w)
  | None => files w
  end.
Proof.
  unfold page_written.
  destruct (files w !! "sidebar.json") as [st|] eqn:Hs.
  2:{ unfold main. now rewrite (driver_no_sidebar _ _ _ _ w Hs). }
  destruct (files w !! content_path) as [ct|] eqn:Hc.
  2:{ unfold main. now rewrite (driver_no_content _ _ _ _ w st Hs Hc). }
  destruct (json_loads st) as [sb|e] eqn:Esb.
  2:{ now rewrite (driver_malformed_sidebar w st ct e Hs Hc Esb). }
  destruct (json_loads ct) as [c|e] eqn:Ec.
  2:{ now rewrite (driver_malformed_content w st ct sb e Hs Hc Esb Ec). }
  unfold main. rewrite (driver_loaded _ _ _ _ w st ct sb c Hs Hc Esb Ec).
  destruct (build_html c sb) as [html|e]; [| reflexivity].
  now destruct (encodable html).
Qed.

Lemma driver_touches_only : touches_only output_path main.
Proof.
  intros w path Hp. rewrite driver_files.
  destruct (page_written json_loads content_path build_html (files w)); [| reflexivity].
  now rewrite lookup_insert_ne.
Qed.

Lemma driver_exit_code : exit_code_is_honest output_path main.
Proof.
  intros w.
  destruct (files w !! "sidebar.json") as [st|] eqn:Hs.
  2:{ unfold main. rewrite (driver_no_sidebar _ _ _ _ w Hs). right. now split. }
  destruct (files w !! content_path) as [ct|] eqn:Hc.
  2:{ unfold main. rewrite (driver_no_content _ _ _ _ w st Hs Hc). right. now split. }
  destruct (json_loads st) as [sb|e] eqn:Esb.
  2:{ rewrite (driver_malformed_sidebar w st ct e Hs Hc Esb). now left. }
  destruct (json_loads ct) as [c|e] eqn:Ec.
  2:{ rewrite (driver_malformed_content w st ct sb e Hs Hc Esb Ec). now left. }
  unfold main. rewrite (driver_loaded _ _ _ _ w st ct sb c Hs Hc Esb Ec).
  destruct (build_html c sb) as [html|e]; [| now left].
  destruct (encodable html).
  - left. split; [reflexivity |]. now exists html.
  - right. now split.
Qed.

End Driver.

(** The page written depends on the two input files only. *)
Lemma page_written_insert (json_loads : string -> result json) (content_path : string)
    (build_html : json -> json -> result string) (fs : gmap string string)
    (path data : string) :
  path <> "sidebar.json" -> path <> content_path ->
  page_written json_loads content_path build_html (<[path := data]> fs) =
  page_written json_loads content_path build_html fs.
Proof.
  intros H1 H2. unfold page_written. now rewrite !lookup_insert_ne.
Qed.

Lemma drivers_commute (json_loads : string -> result json)
    (content1 output1 content2 output2 : string)
    (build1 build2 : json -> json -> result string) :
  output1 <> "sidebar.json" -> output1 <> content2 ->
  output2 <> "sidebar.json" -> output2 <> content1 ->
  output1 <> output2 ->
  same_files_either_order (driver json_loads content1 output1 build1)
    (driver json_loads content2 output2 build2).
Proof.
  intros H1 H2 H3 H4 H5 w. rewrite !driver_files.
  destruct (page_written json_loads content1 build1 (files w)) as [p1|] eqn:E1;
    destruct (page_written json_loads content2 build2 (files w)) as [p2|] eqn:E2;
    rewrite ?page_written_insert, ?E1, ?E2 by assumption;
    try reflexivity.
  now apply insert_insert_ne.
Qed.

(** X1. When [sidebar.json] and the content file are there, [json.load]
    accepts both and the renderer returns a page, each of the four
    drivers announces and loads the sidebar, announces and loads the
    content, announces the build, renders, announces the write and opens
    its output file.  When the page can be encoded, exactly that page is
    written, the closing line is printed, the exit code is 0 and every
    other file is as it was.  When it cannot (it has a lone surrogate),
    the write raises [UnicodeEncodeError], uncaught, and the output file
    is left empty. *)
Theorem build_writes_the_page (json_loads : string -> result json) :
  (writes_the_page json_loads "content_index.json" "index.html"
     build_index.build_html (build_index.main json_loads) /\
   empties_the_output json_loads "content_index.json" "index.html"
     build_index.build_html (build_index.main json_loads)) /\
  (writes_the_page json_loads "content_research.json" "research.html"
     build_research.build_html (build_research.main json_loads) /\
   empties_the_output json_loads "content_research.json" "research.html"
     build_research.build_html (build_research.main json_loads)) /\
  (writes_the_page json_loads "content_publications.json" "publications.html"
     build_publications.build_html (build_publications.main json_loads) /\
   empties_the_output json_loads "content_publications.json" "publications.html"
     build_publications.build_html (build_publications.main json_loads)) /\
  (writes_the_page json_loads "content_teaching.json" "teaching.html"
     build_teaching.build_html (build_teaching.main json_loads) /\
   empties_the_output json_loads "content_teaching.json" "teaching.html"
     build_teaching.build_html (build_teaching.main json_loads)).
Proof.
  rewrite main_index, main_research, main_publications, main_teaching.
  repeat split; first [apply driver_writes | apply driver_empties].
Qed.

Lemma build_writes_witness :
  (exists html,
     build_index.build_html sample_index themed_sidebar = Ok html /\
     build_index.main sample_loads sample_directory =
     (Ok 0%Z,
      World (<["index.html" := html]> (files sample_directory))
        (events_until_render "content_index.json" "index.html"
         ++ events_of_write "index.html" html))) /\
  fst (build_index.main surrogate_loads sample_directory) = Raise UnicodeEncodeError /\
  files (snd (build_index.main surrogate_loads sample_directory)) !! "index.html"
  = Some EmptyString.
Proof.
  destruct (build_writes_the_page sample_loads) as ((Hwrites & _) & _).
  destruct (build_writes_the_page surrogate_loads) as ((_ & Hempties) & _).
  split.
  - eexists. split; [reflexivity |].
    apply (Hwrites sample_directory "sidebar" "index" themed_sidebar sample_index);
      reflexivity.
  - destruct (build_index.build_html sample_index surrogate_sidebar) as [html|e] eqn:E;
      [| discriminate E].
    rewrite (Hempties sample_directory "sidebar" "index" surrogate_sidebar sample_index
               html eq_refl eq_refl eq_refl eq_refl E).
    + split; reflexivity.
    + revert E. unfold surrogate_sidebar, sample_index. intros E.
      vm_compute in E. injection E as <-. vm_compute. reflexivity.
Defined.

(** X2. A sidebar file or a content file that [json.load] rejects ends
    each of the four drivers with that exception, uncaught: for the
    sidebar right after the file has been opened, before the content
    file is opened; for the content after both have been opened; in
    both cases nothing is rendered and no file is written. *)
Theorem malformed_input_stops_the_build (json_loads : string -> result json) :
  (stops_at_malformed_sidebar json_loads "content_index.json"
     (build_index.main json_loads) /\
   stops_at_malformed_content json_loads "content_index.json"
     (build_index.main json_loads)) /\
  (stops_at_malformed_sidebar json_loads "content_research.json"
     (build_research.main json_loads) /\
   stops_at_malformed_content json_loads "content_research.json"
     (build_research.main json_loads)) /\
  (stops_at_malformed_sidebar json_loads "content_publications.json"
     (build_publications.main json_loads) /\
   stops_at_malformed_content json_loads "content_publications.json"
     (build_publications.main json_loads)) /\
  (stops_at_malformed_sidebar json_loads "content_teaching.json"
     (build_teaching.main json_loads) /\
   stops_at_malformed_content json_loads "content_teaching.json"
     (build_teaching.main json_loads)).
Proof.
  rewrite main_index, main_research, main_publications, main_teaching.
  repeat split; first [apply driver_malformed_sidebar | apply driver_malformed_content].
Qed.

Lemma malformed_input_witness :
  build_index.main sample_loads directory_with_bad_sidebar =
    (Raise JSONDecodeError,
     World (files directory_with_bad_sidebar)
       [ Print "Loading sidebar from sidebar.json..."; Load "sidebar.json" ]) /\
  build_index.main sample_loads directory_with_bad_content =
    (Raise JSONDecodeError,
     World (files directory_with_bad_content)
       [ Print "Loading sidebar from sidebar.json..."; Load "sidebar.json";
         Print "Loading content from content_index.json...";
         Load "content_index.json" ]).
Proof.
  destruct (malformed_input_stops_the_build sample_loads) as ((Hs & Hc) & _).
  split.
  - apply (Hs directory_with_bad_sidebar "{" "index" JSONDecodeError); reflexivity.
  - apply (Hc directory_with_bad_content "sidebar" "{" themed_sidebar JSONDecodeError);
      reflexivity.
Defined.

(** X3. Whatever a driver does (stops on a missing input, ends with an
    exception, or writes its page), every file other than its own output
    file is afterwards what it was before: the inputs are never written,
    and no page is touched by the build of another page. *)
Theorem build_touches_only_its_output (json_loads : string -> result json) :
  touches_only "index.html" (build_index.main json_loads) /\
  touches_only "research.html" (build_research.main json_loads) /\
  touches_only "publications.html" (build_publications.main json_loads) /\
  touches_only "teaching.html" (build_teaching.main json_loads).
Proof.
  rewrite main_index, main_research, main_publications, main_teaching.
  repeat split; apply driver_touches_only.
Qed.

Lemma build_touches_only_witness :
  files (snd (build_index.main sample_loads sample_directory)) !! "notes.txt"
  = Some "kept".
Proof.
  rewrite (proj1 (build_touches_only_its_output sample_loads)
             sample_directory "notes.txt"); [reflexivity | discriminate].
Defined.

(** X4. The four pages can be built in any order: two different drivers
    run one after the other leave the same files whichever goes first,
    since none of them writes a file that another one reads or writes. *)
Theorem builds_commute (json_loads : string -> result json) :
  same_files_either_order (build_index.main json_loads)
    (build_research.main json_loads) /\
  same_files_either_order (build_index.main json_loads)
    (build_publications.main json_loads) /\
  same_files_either_order (build_index.main json_loads)
    (build_teaching.main json_loads) /\
  same_files_either_order (build_research.main json_loads)
    (build_publications.main json_loads) /\
  same_files_either_order (build_research.main json_loads)
    (build_teaching.main json_loads) /\
  same_files_either_order (build_publications.main json_loads)
    (build_teaching.main json_loads).
Proof.
  rewrite main_index, main_research, main_publications, main_teaching.
  repeat split; apply drivers_commute; discriminate.
Qed.

(** X23. The exit code of a driver tells what happened to the files,
    in every run: it returns 0 only when it has written its output
    file, it returns 1 (never another code) with all files as they
    were; when it ends with an exception all files are as they were,
    except that the [UnicodeEncodeError] of the write leaves the
    output file, and no other file, emptied. *)
Theorem exit_code_tells_what_was_written (json_loads : string -> result json) :
  exit_code_is_honest "index.html" (build_index.main json_loads) /\
  exit_code_is_honest "research.html" (build_research.main json_loads) /\
  exit_code_is_honest "publications.html" (build_publications.main json_loads) /\
  exit_code_is_honest "teaching.html" (build_teaching.main json_loads).
Proof.
  rewrite main_index, main_research, main_publications, main_teaching.
  repeat split; apply driver_exit_code.
Qed.

End DriverRuns.

(* ===================================================================== *)
(** * Documents of the expected shape are rendered *)
(* ===================================================================== *)

Module ShapeFacts.

#[local] Arguments tpl : simpl never.

Create HintDb shapes.
#[export] Hint Unfold profile_shape footer_shape sidebar_shape theme_shape meta_shape
  affiliation_shape degree_shape news_shape sponsor_shape index_shape
  project_shape research_shape link_shape paper_shape year_group_shape
  intro_shape publications_shape course_shape role_group_shape student_shape
  category_shape teaching_shape : shapes.

Lemma traverse_total {A B : Type} (f : A -> result B) (l : list A) :
  Forall (fun x => exists y, f x = Ok y) l -> exists ys, traverse f l = Ok ys.
Proof.
  induction 1 as [|x l [y Hy] _ [ys Hys]]; [now exists [] |].
  exists (y :: ys). simpl. now rewrite Hy, Hys.
Qed.

(** A generator that renders the items of a list one by one and joins
    them. *)
Lemma listing_total (ok : json -> bool) (f : json -> result string)
    (sep : string) (v : json) :
  (forall x, ok x = true -> exists y, f x = Ok y) ->
  list_of ok v = true ->
  exists out,
    (let* xs := iter v in let* items := traverse f xs in Ok (join sep items)) = Ok out.
Proof.
  intros Hf Hv. destruct v as [| | | | items |]; try discriminate Hv.
  simpl in Hv. apply forallb_Forall in Hv.
  destruct (traverse_total f items) as [ys Hys].
  { eapply List.Forall_impl; [| exact Hv]. exact Hf. }
  exists (join sep ys). cbn [iter bind]. now rewrite Hys.
Qed.

Lemma strings_total (items : list json) :
  forallb is_string items = true -> exists parts, strings_of items = Ok parts.
Proof.
  induction items as [|x items IH]; [now exists [] |].
  simpl. intros H. apply andb_prop in H as [Hx H].
  destruct x; try discriminate Hx. destruct (IH H) as [parts ->].
  now exists (s :: parts).
Qed.

Lemma join_iterable_total (sep : string) (v : json) :
  list_of is_string v = true -> exists out, join_iterable sep v = Ok out.
Proof.
  intros Hv. destruct v as [| | | | items |]; try discriminate Hv.
  destruct (strings_total items Hv) as [parts Hp].
  exists (join sep parts). unfold join_iterable. cbn [iter bind]. now rewrite Hp.
Qed.

(** Opening a shape: the object and the values under its keys. *)
Ltac open_shape :=
  repeat match goal with
  | _ => progress autounfold with shapes in *
  | H : andb _ _ = true |- _ => apply andb_prop in H as [? ?]
  | H : anything _ = true |- _ => clear H
  | H : required _ _ ?v = true |- _ =>
      is_var v; destruct v; try (exfalso; clear - H; discriminate H)
  | H : optional _ _ ?v = true |- _ =>
      is_var v; destruct v; try (exfalso; clear - H; discriminate H)
  | H : is_list ?v = true |- _ =>
      is_var v; destruct v; try (exfalso; clear - H; discriminate H); clear H
  | H : is_string ?v = true |- _ =>
      is_var v; destruct v; try (exfalso; clear - H; discriminate H); clear H
  | H : is_dict ?v = true |- _ =>
      is_var v; destruct v; try (exfalso; clear - H; discriminate H); clear H
  | H : required ?k ?ok (JDict ?items) = true |- _ =>
      let E := fresh "E" in
      change (match dict_find k items with Some x => ok x | None => false end = true)
        in H;
      destruct (dict_find k items) eqn:E; [cbv beta in H | discriminate H]
  | H : optional ?k ?ok (JDict ?items) = true |- _ =>
      let E := fresh "E" in
      change (match dict_find k items with Some x => ok x | None => true end = true)
        in H;
      destruct (dict_find k items) eqn:E; [cbv beta in H | clear H]
  end.

(** Running a renderer on an opened shape. *)
Ltac run :=
  repeat first
    [ progress cbn [bind subscript get has iter Py.endswith]
    | progress change (truthy JNull) with false
    | progress change (truthy (JStr EmptyString)) with false
    | progress change (truthy (JList [])) with false
    | match goal with
      | E : dict_find ?k ?items = _ |- context [dict_find ?k ?items] => rewrite E
      end
    | match goal with
      | E : ?f ?x = Ok _ |- context [?f ?x] => rewrite E
      end
    | match goal with
      | |- context [if truthy ?x then _ else _] => destruct (truthy x)
      end
    | match goal with
      | |- context [dict_find ?k ?items] => destruct (dict_find k items)
      end ];
  try (eexists; reflexivity).

Lemma profile_image_total (profile : json) :
  profile_shape profile = true ->
  exists out, sidebar._generate_profile_image profile = Ok out.
Proof.
  intros H. open_shape; unfold sidebar._generate_profile_image; run.
Qed.

Lemma sidebar_link_total (link : json) :
  is_dict link = true -> exists out, sidebar.sidebar_link link = Ok out.
Proof.
  intros H. open_shape. unfold sidebar.sidebar_link. run.
Qed.

Lemma sidebar_links_total (links : json) :
  list_of is_dict links = true ->
  exists out, sidebar._generate_sidebar_links links = Ok out.
Proof.
  apply listing_total. exact sidebar_link_total.
Qed.

Lemma bio_html_total (profile : json) :
  profile_shape profile = true -> exists out, sidebar.bio_html profile = Ok out.
Proof.
  intros H. open_shape; unfold sidebar.bio_html; run.
Qed.

Lemma sidebar_html_total (sb : json) :
  sidebar_shape sb = true -> exists out, sidebar.get_sidebar_html sb = Ok out.
Proof.
  intros H. unfold sidebar_shape in H.
  repeat match goal with
  | H : andb _ _ = true |- _ => apply andb_prop in H as [? ?]
  end.
  destruct sb as [| | | | | items]; try discriminate.
  unfold required in *|-.
  destruct (dict_find "profile" items) as [profile|] eqn:Ep; [| discriminate].
  assert (Hl : exists links out,
             get (JDict items) "sidebar_links" (JList []) = Ok links /\
             sidebar._generate_sidebar_links links = Ok out).
  { unfold optional in *|-. cbn [get].
    destruct (dict_find "sidebar_links" items) as [links|].
    - destruct (sidebar_links_total links) as [out Hout]; [assumption |].
      now exists links, out.
    - exists (JList []), EmptyString. now split. }
  destruct Hl as (links & lout & Hl1 & Hl2).
  destruct (bio_html_total profile) as [bio Hbio]; [assumption |].
  destruct (profile_image_total profile) as [img Himg]; [assumption |].
  assert (Hn : exists name, subscript profile "name" = Ok name).
  { match goal with H : profile_shape profile = true |- _ => rename H into Hp end.
    clear - Hp. open_shape; run. }
  destruct Hn as [name Hn].
  unfold sidebar.get_sidebar_html. cbn [subscript bind]. rewrite Ep. cbn [bind].
  rewrite Hl1. cbn [bind]. rewrite Hbio, Himg. cbn [bind]. rewrite Hn. cbn [bind].
  rewrite Hl2. cbn [bind]. eexists; reflexivity.
Qed.

Lemma footer_total (sb : json) :
  sidebar_shape sb = true -> exists out, sidebar.get_footer_html sb = Ok out.
Proof.
  intros H. open_shape; unfold sidebar.get_footer_html; run.
Qed.

Lemma nav_brand_total (sb : json) :
  sidebar_shape sb = true -> exists out, sidebar.get_nav_brand sb = Ok out.
Proof.
  intros H. open_shape; unfold sidebar.get_nav_brand; run.
Qed.

Lemma nav_html_total (page : string) (sb : json) :
  sb = JNull \/ is_dict sb = true ->
  exists out, sidebar.get_nav_html page sb = Ok out.
Proof.
  intros [-> | H].
  - eexists; reflexivity.
  - destruct sb; try discriminate H.
    unfold sidebar.get_nav_html, sidebar.cv_file_of. run.
Qed.

Lemma get_total (v : json) (key : string) (default : json) :
  is_dict v = true -> exists x, get v key default = Ok x.
Proof.
  intros H. destruct v; try discriminate H. cbn [get].
  destruct (dict_find key items); eexists; reflexivity.
Qed.

Lemma theme_tables_total (sb : json) :
  is_dict sb = true -> theme_shape sb = true ->
  exists light dark,
    sidebar.theme_tables sb = Ok (light, dark) /\
    is_dict light = true /\ is_dict dark = true.
Proof.
  intros Hd H. destruct sb as [| | | | | d]; try discriminate Hd.
  rewrite PageClaims.theme_tables_dict.
  open_shape; run; do 2 eexists; (split; [reflexivity | split; reflexivity]).
Qed.

(** The style sheet as a function of the eight colours read from the
    two tables. *)
Lemma base_css_form :
  exists F : json -> json -> json -> json -> json -> json -> json -> json -> string,
  forall sb : json,
    sidebar.get_base_css sb =
    (let* tables := sidebar.theme_tables sb in
     let '(light, dark) := tables in
     let* accent_light := get light "accent_color" (JStr "#0D9488") in
     let* accent_hover_light := get light "accent_hover" (JStr "#0F766E") in
     let* link_color_light := get light "link_color" (JStr "#0066cc") in
     let* link_hover_light := get light "link_hover" (JStr "#004499") in
     let* accent_dark := get dark "accent_color" (JStr "#2DD4BF") in
     let* accent_hover_dark := get dark "accent_hover" (JStr "#5EEAD4") in
     let* link_color_dark := get dark "link_color" (JStr "#60A5FA") in
     let* link_hover_dark := get dark "link_hover" (JStr "#93C5FD") in
     Ok (F accent_light accent_hover_light link_color_light link_hover_light
           accent_dark accent_hover_dark link_color_dark link_hover_dark)).
Proof. unfold sidebar.get_base_css. eexists. intros sb. reflexivity. Qed.

Lemma base_css_total (sb : json) :
  is_dict sb = true -> theme_shape sb = true ->
  exists css, sidebar.get_base_css sb = Ok css.
Proof.
  intros Hd H.
  destruct (theme_tables_total sb Hd H) as (light & dark & E & Hl & Hk).
  destruct base_css_form as [F HF]. rewrite HF, E. cbn [bind].
  repeat match goal with
  | |- context [get light ?k ?d] =>
      let x := fresh "x" in let Ex := fresh "Ex" in
      destruct (get_total light k d Hl) as [x Ex]; rewrite Ex; cbn [bind]
  | |- context [get dark ?k ?d] =>
      let x := fresh "x" in let Ex := fresh "Ex" in
      destruct (get_total dark k d Hk) as [x Ex]; rewrite Ex; cbn [bind]
  end.
  eexists; reflexivity.
Qed.

Lemma head_total (title description : json) (page_css : string) (sb : json) :
  sb = JNull \/ (is_dict sb = true /\ theme_shape sb = true) ->
  exists head, sidebar.get_base_head_html title description page_css sb = Ok head.
Proof.
  intros H. unfold sidebar.get_base_head_html.
  assert (Hcss : exists css, sidebar.get_base_css sb = Ok css).
  { destruct H as [-> | [Hd Ht]]; [eexists; reflexivity | now apply base_css_total]. }
  destruct Hcss as [css ->]. cbn [bind]. eexists; reflexivity.
Qed.

Lemma sidebar_shape_dict (sb : json) : sidebar_shape sb = true -> is_dict sb = true.
Proof. intros H. now open_shape. Qed.

(** The items of the generators of the biography page. *)
Lemma affiliation_total (aff : json) :
  affiliation_shape aff = true -> exists out, build_index.affiliation aff = Ok out.
Proof.
  intros H. unfold affiliation_shape in H.
  repeat match goal with
  | H : andb _ _ = true |- _ => apply andb_prop in H as [? ?]
  end.
  assert (Hdep : exists d lines,
            get aff "department" (JList []) = Ok d /\
            join_iterable "<br>" d = Ok lines).
  { match goal with H : optional "department" _ _ = true |- _ => clear - H end.
    open_shape; run.
    - match goal with
      | H : list_of _ ?j = true |- _ =>
          destruct (join_iterable_total "<br>" j H) as [lines Hl]
      end.
      eexists _, lines. split; [reflexivity | exact Hl].
    - eexists _, _. split; reflexivity. }
  destruct Hdep as (d & lines & Hd1 & Hd2).
  unfold build_index.affiliation. rewrite Hd1. cbn [bind]. rewrite Hd2. cbn [bind].
  clear Hd1 Hd2. open_shape; run.
Qed.

Lemma degree_total (d : json) :
  degree_shape d = true -> exists out, build_index.degree d = Ok out.
Proof. intros H. open_shape; unfold build_index.degree; run. Qed.

Lemma news_item_total (n : json) :
  news_shape n = true -> exists out, build_index.news_item n = Ok out.
Proof. intros H. open_shape; unfold build_index.news_item; run. Qed.

Lemma sponsor_total (s : json) :
  sponsor_shape s = true -> exists out, build_index.sponsor s = Ok out.
Proof. intros H. open_shape; unfold build_index.sponsor; run. Qed.


Lemma affiliations_total (v : json) :
  list_of affiliation_shape v = true ->
  exists out, build_index.generate_affiliations v = Ok out.
Proof. apply listing_total. exact affiliation_total. Qed.

Lemma degrees_total (v : json) :
  list_of degree_shape v = true -> exists out, build_index.generate_degrees v = Ok out.
Proof. apply listing_total. exact degree_total. Qed.

Lemma news_total (v : json) :
  list_of news_shape v = true -> exists out, build_index.generate_news v = Ok out.
Proof. apply listing_total. exact news_item_total. Qed.

Lemma sponsors_total (v : json) :
  list_of sponsor_shape v = true -> exists out, build_index.generate_sponsors v = Ok out.
Proof. apply listing_total. exact sponsor_total. Qed.

(** The calls of the shell functions on a sidebar of the expected
    shape. *)
Ltac shell_results sb Hs :=
  let Hd := fresh "Hd" in
  pose proof (sidebar_shape_dict sb Hs) as Hd;
  destruct (nav_brand_total sb Hs) as [? ?];
  destruct (sidebar_html_total sb Hs) as [? ?];
  destruct (footer_total sb Hs) as [? ?].

(** A generator applied to the empty list that stands for a key left
    out. *)
Ltac run_page :=
  repeat first
    [ match goal with
      | |- context [?f (JList [])] =>
          is_const f;
          let r := eval cbv in (f (JList [])) in
          progress change (f (JList [])) with r
      end
    | match goal with
      | |- context [sidebar.get_nav_html ?p JNull] =>
          let r := eval cbv in (sidebar.get_nav_html p JNull) in
          change (sidebar.get_nav_html p JNull) with r
      end
    | progress run ].

(** The title and the description, read from the content. *)
Ltac read_meta :=
  repeat first
    [ progress cbn [subscript bind]
    | match goal with
      | E : dict_find ?k ?items = _ |- context [dict_find ?k ?items] => rewrite E
      end ].

Lemma each_total (ok : json -> bool) (f : json -> result string) (v : json) :
  (forall x, ok x = true -> exists y, f x = Ok y) ->
  list_of ok v = true ->
  exists items ys, iter v = Ok items /\ traverse f items = Ok ys.
Proof.
  intros Hf Hv. destruct v as [| | | | items |]; try discriminate Hv.
  simpl in Hv. apply forallb_Forall in Hv.
  destruct (traverse_total f items) as [ys Hys].
  { eapply List.Forall_impl; [| exact Hv]. exact Hf. }
  now exists items, ys.
Qed.

(** The research page. *)
Lemma project_total (project : json) :
  project_shape project = true ->
  exists out, build_research.generate_project_html project = Ok out.
Proof.
  intros H. open_shape; unfold build_research.generate_project_html; run.
Qed.

Lemma projects_total (v : json) :
  list_of project_shape v = true ->
  exists out, build_research.generate_projects_html v = Ok out.
Proof. apply listing_total. exact project_total. Qed.

(** The publications page. *)
Lemma intro_link_total (link : json) :
  link_shape link = true -> exists out, build_publications.intro_link link = Ok out.
Proof. intros H. open_shape; unfold build_publications.intro_link; run. Qed.

Lemma intro_links_total (v : json) :
  list_of link_shape v = true ->
  exists out, build_publications.generate_intro_links v = Ok out.
Proof. apply listing_total. exact intro_link_total. Qed.

Lemma paper_link_total (link : json) :
  link_shape link = true -> exists out, build_publications.paper_link link = Ok out.
Proof. intros H. open_shape; unfold build_publications.paper_link; run. Qed.

Lemma paper_links_total (v : json) :
  list_of link_shape v = true ->
  exists out, build_publications.generate_paper_links v = Ok out.
Proof. apply listing_total. exact paper_link_total. Qed.

Lemma paper_total (show_image : bool) (paper : json) :
  paper_shape paper = true ->
  exists out, build_publications.generate_paper_html paper show_image = Ok out.
Proof.
  intros H. unfold paper_shape in H.
  repeat match goal with
  | H : andb _ _ = true |- _ => apply andb_prop in H as [? ?]
  end.
  assert (Hl : exists links out,
            get paper "links" (JList []) = Ok links /\
            build_publications.generate_paper_links links = Ok out).
  { match goal with H : optional "links" _ _ = true |- _ => clear - H end.
    open_shape; run.
    - match goal with
      | H : list_of _ ?j = true |- _ =>
          destruct (paper_links_total j H) as [out Hout]
      end.
      eexists _, out. split; [reflexivity | exact Hout].
    - eexists _, _. split; reflexivity. }
  destruct Hl as (links & lout & Hl1 & Hl2).
  unfold build_publications.generate_paper_html.
  open_shape; cbn [get bind];
    match goal with
    | |- context [dict_find "authors" ?items] => destruct (dict_find "authors" items)
    end;
    cbn [bind]; cbn [get] in Hl1; rewrite Hl1; cbn [bind]; rewrite Hl2; cbn [bind];
    destruct show_image; run.
Qed.

Lemma year_section_total (show_image : bool) (year_group : json) :
  year_group_shape year_group = true ->
  exists out, build_publications.generate_year_section year_group show_image = Ok out.
Proof.
  intros H. unfold build_publications.generate_year_section.
  open_shape.
  match goal with
  | H : list_of _ ?j = true |- _ =>
      destruct (each_total paper_shape
                  (fun paper => build_publications.generate_paper_html paper show_image)
                  j (paper_total show_image) H) as (items' & ys & E1 & E2)
  end.
  cbn [get bind subscript].
  match goal with
  | |- context [dict_find "year" ?items] => destruct (dict_find "year" items)
  end;
    rewrite ?E; cbn [bind]; rewrite E1; cbn [bind]; rewrite E2; cbn [bind];
    run.
Qed.

Lemma publications_total (v : json) :
  list_of year_group_shape v = true ->
  exists out, build_publications.generate_publications_html v = Ok out.
Proof. apply listing_total. exact (year_section_total true). Qed.

Lemma abstracts_block_total (content : json) :
  optional "conference_abstracts" (list_of year_group_shape) content = true ->
  exists out, build_publications.conference_abstracts_block content = Ok out.
Proof.
  intros H. unfold build_publications.conference_abstracts_block.
  open_shape; cbn [get bind]; rewrite E; cbn [bind]; [| eexists; reflexivity].
  destruct (truthy j) eqn:Et; [| eexists; reflexivity].
  unfold build_publications.generate_conference_abstracts_html. rewrite Et.
  cbn [negb].
  destruct (listing_total year_group_shape
              (fun g => build_publications.generate_year_section g false) "
      " j (year_section_total false) H) as [out Hout].
  rewrite Hout. cbn [bind]. eexists; reflexivity.
Qed.

(** The teaching page. *)
Lemma course_total (course : json) :
  course_shape course = true ->
  exists out, build_teaching.generate_course_html course = Ok out.
Proof.
  intros H. unfold build_teaching.generate_course_html. open_shape.
  match goal with
  | H : list_of _ ?j = true |- _ =>
      destruct (join_iterable_total ", " j H) as [sem Hsem]
  end.
  run.
Qed.

Lemma role_section_total (role_group : json) :
  role_group_shape role_group = true ->
  exists out, build_teaching.generate_role_section_html role_group = Ok out.
Proof.
  intros H. unfold build_teaching.generate_role_section_html. open_shape.
  match goal with
  | H : list_of _ ?j = true |- _ =>
      destruct (each_total course_shape build_teaching.generate_course_html
                  j course_total H) as (items' & ys & Hit & Htr)
  end.
  run.
Qed.

Lemma courses_total (v : json) :
  list_of role_group_shape v = true ->
  exists out, build_teaching.generate_courses_html v = Ok out.
Proof. apply listing_total. exact role_section_total. Qed.

Lemma student_total (student : json) :
  student_shape student = true ->
  exists out, build_teaching.generate_student_html student = Ok out.
Proof. intros H. open_shape; unfold build_teaching.generate_student_html; run. Qed.

Lemma category_total (category : json) :
  category_shape category = true ->
  exists out, build_teaching.generate_mentoring_category_html category = Ok out.
Proof.
  intros H. unfold build_teaching.generate_mentoring_category_html. open_shape.
  match goal with
  | H : list_of _ ?j = true |- _ =>
      destruct (each_total student_shape build_teaching.generate_student_html
                  j student_total H) as (items' & ys & Hit & Htr)
  end.
  run.
Qed.

Lemma mentoring_total (v : json) :
  list_of category_shape v = true ->
  exists out, build_teaching.generate_mentoring_html v = Ok out.
Proof. apply listing_total. exact category_total. Qed.

End ShapeFacts.

Import ShapeFacts.

(* ===================================================================== *)
(** * The four pages are rendered for documents of the expected shape *)
(* ===================================================================== *)

Module WellShaped.

#[local] Arguments tpl : simpl never.

(** X5. For a [content_index.json] and a [sidebar.json] of the shape the
    builder is written for (the keys it subscripts are there, the values
    it goes through are lists of objects with their required keys, the
    department lines and the logo are strings), [build_index.build_html]
    raises nothing and returns a page.  Optional are: [degrees],
    [sponsors], an affiliation's [department] and [logo_icon], and in
    the sidebar [sidebar_links], [bio_lines], [bio], [image], [cv_file]
    and the theme, which this page does not read. *)
Theorem index_page_is_rendered (content sb : json) :
  index_shape content = true ->
  sidebar_shape sb = true ->
  exists html, build_index.build_html content sb = Ok html.
Proof.
  intros Hc Hs. shell_results sb Hs.
  destruct (nav_html_total "bio" sb) as [nav Hnav]; [now right |].
  unfold build_index.build_html, build_index.head_html.
  clear Hs. open_shape.
  all: repeat match goal with
       | H : list_of _ ?j = true |- _ =>
           first [ destruct (affiliations_total j H) as [? ?]
                 | destruct (degrees_total j H) as [? ?]
                 | destruct (news_total j H) as [? ?]
                 | destruct (sponsors_total j H) as [? ?] ];
           clear H
       end.
  all: read_meta.
  all: match goal with
       | |- context [sidebar.get_base_head_html ?t ?d ?c JNull] =>
           destruct (head_total t d c JNull) as [? ->]; [now left |]
       end.
  all: unfold build_index.generate_bio_paragraphs.
  all: run_page.
Qed.

Lemma index_page_witness :
  exists html, build_index.build_html sample_index themed_sidebar = Ok html.
Proof.
  apply (index_page_is_rendered sample_index themed_sidebar); reflexivity.
Defined.

(** X6. For a [content_research.json] and a [sidebar.json] of the
    expected shape, [build_research.build_html] raises nothing and
    returns a page.  A project's [image] is optional; the theme and
    [cv_file] of the sidebar are not read by this page. *)
Theorem research_page_is_rendered (content sb : json) :
  research_shape content = true ->
  sidebar_shape sb = true ->
  exists html, build_research.build_html content sb = Ok html.
Proof.
  intros Hc Hs. shell_results sb Hs.
  unfold build_research.build_html, build_research.head_html,
    build_research.generate_interests_html, sidebar.get_head_html.
  clear Hs. open_shape.
  all: repeat match goal with
       | H : list_of _ ?j = true |- _ =>
           first [ destruct (join_iterable_total ", " j H) as [? ?]
                 | destruct (projects_total j H) as [? ?] ];
           clear H
       end.
  all: read_meta.
  all: match goal with
       | |- context [sidebar.get_base_head_html ?t ?d ?c JNull] =>
           destruct (head_total t d c JNull) as [? ->]; [now left |]
       end.
  all: run_page.
Qed.

Lemma research_page_witness :
  exists html, build_research.build_html sample_research themed_sidebar = Ok html.
Proof.
  apply (research_page_is_rendered sample_research themed_sidebar); reflexivity.
Defined.

(** X7. For a [content_publications.json] and a [sidebar.json] of the
    expected shape, the sidebar's theme (when given) being an object
    whose [light] and [dark] (when given) are objects,
    [build_publications.build_html] raises nothing and returns a page.
    Optional are [conference_abstracts], a group's [year], and a paper's
    [authors], [links] and [image]. *)
Theorem publications_page_is_rendered (content sb : json) :
  publications_shape content = true ->
  sidebar_shape sb = true ->
  theme_shape sb = true ->
  exists html, build_publications.build_html content sb = Ok html.
Proof.
  intros Hc Hs Ht. shell_results sb Hs.
  assert (Hb : exists out, build_publications.conference_abstracts_block content = Ok out).
  { apply abstracts_block_total. unfold publications_shape in Hc.
    now apply andb_prop in Hc as [_ Hc]. }
  destruct Hb as [block Hblock].
  pose proof (fun t d c => head_total t d c sb (or_intror (conj Hd Ht))) as Hhead.
  unfold build_publications.build_html, build_publications.head_html,
    sidebar.get_head_html.
  clear Hs Ht. open_shape.
  all: repeat match goal with
       | H : list_of _ ?j = true |- _ =>
           first [ destruct (intro_links_total j H) as [? ?]
                 | destruct (publications_total j H) as [? ?] ];
           clear H
       end.
  all: read_meta.
  all: match goal with
       | |- context [sidebar.get_base_head_html ?t ?d ?c _] =>
           destruct (Hhead t d c) as [? ->]
       end.
  all: run_page.
Qed.

Lemma publications_page_witness :
  exists html,
    build_publications.build_html sample_publications themed_sidebar = Ok html.
Proof.
  apply (publications_page_is_rendered sample_publications themed_sidebar);
    reflexivity.
Defined.

(** X8. For a [content_teaching.json] and a [sidebar.json] of the
    expected shape, the sidebar's theme (when given) being an object
    whose [light] and [dark] (when given) are objects,
    [build_teaching.build_html] raises nothing and returns a page.
    Optional are a role's [department] and a course's [host]. *)
Theorem teaching_page_is_rendered (content sb : json) :
  teaching_shape content = true ->
  sidebar_shape sb = true ->
  theme_shape sb = true ->
  exists html, build_teaching.build_html content sb = Ok html.
Proof.
  intros Hc Hs Ht. shell_results sb Hs.
  pose proof (fun t d c => head_total t d c sb (or_intror (conj Hd Ht))) as Hhead.
  unfold build_teaching.build_html, build_teaching.head_html, sidebar.get_head_html.
  clear Hs Ht. open_shape.
  all: repeat match goal with
       | H : list_of _ ?j = true |- _ =>
           first [ destruct (courses_total j H) as [? ?]
                 | destruct (mentoring_total j H) as [? ?] ];
           clear H
       end.
  all: read_meta.
  all: match goal with
       | |- context [sidebar.get_base_head_html ?t ?d ?c _] =>
           destruct (Hhead t d c) as [? ->]
       end.
  all: run_page.
Qed.

Lemma teaching_page_witness :
  exists html, build_teaching.build_html sample_teaching themed_sidebar = Ok html.
Proof.
  apply (teaching_page_is_rendered sample_teaching themed_sidebar); reflexivity.
Defined.

End WellShaped.

(* ===================================================================== *)
(** * One element per entry *)
(* ===================================================================== *)

Module CountFacts.

#[local] Arguments tpl : simpl never.

Lemma counted_join_by (p sep : string) (ys : list string) (ks : list nat) :
  counted p sep 0 ->
  Forall2 (fun y k => counted p y k) ys ks ->
  counted p (join sep ys) (list_sum ks).
Proof.
  intros Hsep H. induction H as [|y k ys ks Hy Hrest IH]; [apply counted_nil |].
  destruct Hrest as [|y' k' ys ks Hy' Hrest].
  - simpl. eapply counted_eq; [exact Hy | lia].
  - change (join sep (y :: y' :: ys)) with (y ++ sep ++ join sep (y' :: ys)).
    eapply counted_eq.
    + eapply counted_app; [exact Hy |]. eapply counted_app; [exact Hsep | exact IH].
    + simpl. lia.
Qed.

Lemma traverse_counted_by (p : string) (f : json -> result string) (n : json -> nat)
    (l : list json) (ys : list string) :
  (forall x y, markup_free x = true -> f x = Ok y -> counted p y (n x)) ->
  Forall (fun x => markup_free x = true) l ->
  traverse f l = Ok ys ->
  Forall2 (fun y k => counted p y k) ys (map n l).
Proof.
  intros Hf Hl H. apply traverse_Ok in H.
  induction H as [|x y l ys Hxy Hrest IH]; [constructor |].
  inversion Hl; subst. constructor; eauto.
Qed.

(** A generator that renders the items of a list one by one and joins
    them: the marks of the items add up. *)
Lemma listing_counted (p sep : string) (f : json -> result string) (n : json -> nat)
    (items : list json) (out : string) :
  (forall x y, markup_free x = true -> f x = Ok y -> counted p y (n x)) ->
  counted p sep 0 ->
  markup_free (JList items) = true ->
  (let* xs := iter (JList items) in
   let* ys := traverse f xs in Ok (join sep ys)) = Ok out ->
  counted p out (total n items).
Proof.
  intros Hf Hsep Hm H. cbn [iter bind] in H. inv_ok. subst out.
  apply counted_join_by; [exact Hsep |].
  eapply traverse_counted_by; eauto. now apply forallb_Forall.
Qed.

Lemma total_ones (items : list json) : total (fun _ => 1) items = List.length items.
Proof. unfold total. induction items as [|x l IH]; simpl; [reflexivity | now rewrite IH]. Qed.

Lemma total_zero (items : list json) : total (fun _ => 0) items = 0.
Proof. unfold total. induction items as [|x l IH]; simpl; [reflexivity | exact IH]. Qed.

Lemma listing_one_each (p sep : string) (f : json -> result string)
    (items : list json) (out : string) :
  (forall x y, markup_free x = true -> f x = Ok y -> counted p y 1) ->
  counted p sep 0 ->
  markup_free (JList items) = true ->
  (let* xs := iter (JList items) in
   let* ys := traverse f xs in Ok (join sep ys)) = Ok out ->
  occurrences p out = List.length items.
Proof.
  intros Hf Hsep Hm H. rewrite <- total_ones. apply counted_total.
  now apply (listing_counted p sep f (fun _ => 1)).
Qed.

(** Pieces of a rendered text taken one after the other, their marks
    added up. *)
Ltac tally :=
  lazymatch goal with
  | |- counted _ (_ ++ _) _ => eapply counted_app; tally
  | |- counted _ EmptyString _ => apply counted_nil
  | |- counted _ (str _) _ =>
      apply counted_value; apply markup_free_str; mf
  | |- counted _ _ _ =>
      first [ eassumption | apply counted_lit; vm_compute; reflexivity ]
  end.

Ltac count_arith :=
  repeat match goal with
  | |- context [lit_count ?p ?t] =>
      let v := eval vm_compute in (lit_count p t) in
      change (lit_count p t) with v
  end;
  rewrite ?total_zero; simpl; lia.

Ltac counting := eapply counted_eq; [tally | count_arith].

Lemma sidebar_link_items (link : json) (out : string) :
  markup_free link = true ->
  sidebar.sidebar_link link = Ok out ->
  counted "<li>" out 1.
Proof.
  intros Hm H. unfold sidebar.sidebar_link in H. inv_ok.
  destruct (truthy v1); inv_ok; subst out; counting.
Qed.

Lemma sidebar_link_anchors (link : json) (out : string) :
  markup_free link = true ->
  sidebar.sidebar_link link = Ok out ->
  counted (tpl "<a href=`") out (flag (given "url" link)).
Proof.
  intros Hm H. unfold sidebar.sidebar_link in H. inv_ok.
  unfold given. rewrite E1.
  destruct (truthy v1); inv_ok; subst out; counting.
Qed.

Lemma given_get (key : string) (v default x : json) :
  truthy default = false ->
  get v key default = Ok x ->
  given key v = truthy x.
Proof.
  intros Hd H. unfold given. destruct v; try discriminate H. cbn [get] in *.
  destruct (dict_find key items); injection H as <-; [reflexivity | now rewrite Hd].
Qed.

Lemma items_of_iter (key : string) (v x : json) (l : list json) :
  subscript v key = Ok x -> iter x = Ok l -> items_of key v = l.
Proof. intros H1 H2. unfold items_of. now rewrite H1, H2. Qed.

(** The text [sep.join(v)] of strings without tags starts no tag. *)
Lemma joined_quiet (p' sep : string) (v : json) (out : string) :
  counted (String lt_char p') sep 0 ->
  markup_free v = true ->
  join_iterable sep v = Ok out ->
  counted (String lt_char p') out 0.
Proof.
  intros Hsep Hm H. unfold join_iterable in H. inv_ok. subst out.
  apply counted_join; [exact Hsep |].
  eapply List.Forall_impl; [| eapply markup_free_strings_of; [| eassumption]].
  - intros s Hs. now apply counted_hole.
  - eapply markup_free_iter; eauto.
Qed.

(** Paragraphs made of the items of a list, as the biography and the
    projects have them. *)
Lemma paragraphs_counted (sep : string) (items : list json) :
  counted "<p>" sep 0 ->
  Forall (fun x => markup_free x = true) items ->
  counted "<p>" (join sep (map (fun p => "<p>" ++ str p ++ "</p>") items))
    (List.length items).
Proof.
  intros Hsep H.
  rewrite <- (length_map (fun p => "<p>" ++ str p ++ "</p>") items).
  eapply counted_eq; [apply (counted_join_each "<p>" sep _ 1); [exact Hsep |] | lia].
  apply Forall_map_intro. eapply List.Forall_impl; [| exact H].
  intros x Hx. cbv beta. counting.
Qed.

Lemma paragraphs_quiet (p' sep : string) (items : list json) :
  counted (String lt_char p') sep 0 ->
  lit_scan (String lt_char p') "<p>" = Some 0 ->
  lit_scan (String lt_char p') "</p>" = Some 0 ->
  Forall (fun x => markup_free x = true) items ->
  counted (String lt_char p')
    (join sep (map (fun p => "<p>" ++ str p ++ "</p>") items)) 0.
Proof.
  intros Hsep H1 H2 H. apply counted_join; [exact Hsep |].
  apply Forall_map_intro. eapply List.Forall_impl; [| exact H].
  intros x Hx. cbv beta.
  apply counted_app0; [now apply lit_scan_sound |].
  apply counted_app0; [| now apply lit_scan_sound].
  apply counted_hole. now apply markup_free_str.
Qed.

(** The items of the biography page. *)
Lemma affiliation_items (aff : json) (out : string) :
  markup_free aff = true ->
  build_index.affiliation aff = Ok out ->
  counted (tpl "<div class=`affiliation-item`>") out 1.
Proof.
  intros Hm H. unfold build_index.affiliation in H. inv_ok. subst out.
  match goal with
  | E : join_iterable _ _ = Ok _ |- _ =>
      apply (joined_quiet (tpl "div class=`affiliation-item`>")) in E;
      [| apply counted_lit0; vm_compute; reflexivity | mf]
  end.
  destruct v2; counting.
Qed.

Lemma degree_items (d : json) (out : string) :
  markup_free d = true -> build_index.degree d = Ok out -> counted "<li>" out 1.
Proof. intros Hm H. unfold build_index.degree in H. inv_ok. subst out. counting. Qed.

Lemma news_items (n : json) (out : string) :
  markup_free n = true -> build_index.news_item n = Ok out ->
  counted (tpl "<li class=`news-item`>") out 1.
Proof. intros Hm H. unfold build_index.news_item in H. inv_ok. subst out. counting. Qed.

Lemma sponsor_items (s : json) (out : string) :
  markup_free s = true -> build_index.sponsor s = Ok out ->
  counted (tpl "<img src=`") out 1.
Proof. intros Hm H. unfold build_index.sponsor in H. inv_ok. subst out. counting. Qed.

(** Entries rendered one by one and joined. *)
Lemma entries_counted (p sep : string) (f : json -> result string) (n : json -> nat)
    (l : list json) (ys : list string) :
  (forall x y, markup_free x = true -> f x = Ok y -> counted p y (n x)) ->
  counted p sep 0 ->
  Forall (fun x => markup_free x = true) l ->
  traverse f l = Ok ys ->
  counted p (join sep ys) (total n l).
Proof.
  intros Hf Hsep Hl H. apply counted_join_by; [exact Hsep |].
  eapply traverse_counted_by; eauto.
Qed.

Lemma entries_quiet (p sep : string) (f : json -> result string)
    (l : list json) (ys : list string) :
  (forall x y, markup_free x = true -> f x = Ok y -> counted p y 0) ->
  counted p sep 0 ->
  Forall (fun x => markup_free x = true) l ->
  traverse f l = Ok ys ->
  counted p (join sep ys) 0.
Proof.
  intros Hf Hsep Hl H. rewrite <- (total_zero l).
  now apply (entries_counted p sep f (fun _ => 0)).
Qed.

Ltac lit0 := apply counted_lit0; vm_compute; reflexivity.

(** Comparisons of two marks, evaluated. *)
Ltac decide_marks :=
  repeat match goal with
  | |- context [String.eqb ?a ?b] =>
      let v := eval vm_compute in (String.eqb a b) in
      change (String.eqb a b) with v
  | H : context [String.eqb ?a ?b] |- _ =>
      let v := eval vm_compute in (String.eqb a b) in
      change (String.eqb a b) with v in H
  end;
  cbv beta iota in *.

(** The items of a value looked up in a document without tags. *)
Ltac mf_items :=
  lazymatch goal with
  | |- Forall (fun x => markup_free x = true) ?l =>
      first
        [ assumption
        | match goal with
          | E : iter ?v = Ok l |- _ => apply (markup_free_iter v l); [mf | exact E]
          end ]
  end.

(** The research page: a project. *)
Lemma project_counts (p : string) (project : json) (out : string) :
  In p research_marks ->
  markup_free project = true ->
  build_research.generate_project_html project = Ok out ->
  counted p out
    (if String.eqb p project_item_tag then 1 else flag (given "image" project)).
Proof.
  intros Hp Hm H. unfold build_research.generate_project_html in H. inv_ok.
  match goal with
  | E : get project "image" ?d = Ok ?v |- _ =>
      rewrite (given_get "image" project d v eq_refl E)
  end.
  match goal with
  | E : iter _ = Ok ?l |- _ =>
      assert (Hpar : forall p', lit_scan (String lt_char p') "<p>" = Some 0 ->
                lit_scan (String lt_char p') "</p>" = Some 0 ->
                counted (String lt_char p') "
          " 0 ->
                counted (String lt_char p')
                  (join "
          " (map (fun para => "<p>" ++ str para ++ "</p>") l)) 0)
        by (intros p' H1 H2 H3; apply paragraphs_quiet; [exact H3 | exact H1 | exact H2 | mf_items])
  end.
  each_tag Hp.
  all: match goal with
       | |- counted ?p _ _ =>
           let q := eval vm_compute in p in
           match q with
           | String _ ?p' => pose proof (Hpar p' eq_refl eq_refl ltac:(lit0))
           end
       end.
  all: destruct (truthy v); inv_ok; subst; counting.
Qed.

(** The publications page: a paper and a year group. *)
Lemma paper_link_marks (p : string) (link : json) (out : string) :
  In p publication_marks ->
  markup_free link = true ->
  build_publications.paper_link link = Ok out ->
  counted p out 0.
Proof.
  intros Hp Hm H. unfold build_publications.paper_link in H. inv_ok. subst out.
  each_tag Hp. all: counting.
Qed.

Lemma paper_links_marks (p : string) (links : json) (out : string) :
  In p publication_marks ->
  markup_free links = true ->
  build_publications.generate_paper_links links = Ok out ->
  counted p out 0.
Proof.
  intros Hp Hm H. unfold build_publications.generate_paper_links in H. inv_ok.
  subst out. eapply entries_quiet; [| | | eassumption].
  - intros x y Hx Hy. eapply paper_link_marks; eauto.
  - each_tag Hp. all: lit0.
  - mf_items.
Qed.

Lemma paper_counts (p : string) (paper : json) (out : string) :
  In p publication_marks ->
  markup_free paper = true ->
  build_publications.generate_paper_html paper true = Ok out ->
  counted p out (if String.eqb p paper_image_tag then 1 else 0).
Proof.
  intros Hp Hm H. unfold build_publications.generate_paper_html in H. inv_ok.
  subst out.
  match goal with
  | E : build_publications.generate_paper_links _ = Ok _ |- _ =>
      apply (paper_links_marks p) in E; [| exact Hp | mf]
  end.
  each_tag Hp. all: counting.
Qed.

Lemma year_section_sections (year_group : json) (out : string) :
  markup_free year_group = true ->
  build_publications.generate_year_section year_group true = Ok out ->
  counted year_section_tag out 1.
Proof.
  intros Hm H. unfold build_publications.generate_year_section in H. inv_ok.
  match goal with
  | E : traverse _ _ = Ok _ |- _ =>
      apply (entries_quiet year_section_tag "
        ") in E;
      [ | intros x y Hx Hy;
          apply (paper_counts year_section_tag x y (or_introl eq_refl) Hx Hy)
        | lit0 | mf_items ]
  end.
  destruct (truthy v); inv_ok; subst out; counting.
Qed.

Lemma year_section_headings (year_group : json) (out : string) :
  markup_free year_group = true ->
  build_publications.generate_year_section year_group true = Ok out ->
  counted year_heading_tag out (flag (given "year" year_group)).
Proof.
  intros Hm H. unfold build_publications.generate_year_section in H. inv_ok.
  match goal with
  | E : get year_group "year" ?d = Ok ?v |- _ =>
      rewrite (given_get "year" year_group d v eq_refl E)
  end.
  match goal with
  | E : traverse _ _ = Ok _ |- _ =>
      apply (entries_quiet year_heading_tag "
        ") in E;
      [ | intros x y Hx Hy;
          apply (paper_counts year_heading_tag x y (or_intror (or_introl eq_refl)) Hx Hy)
        | lit0 | mf_items ]
  end.
  destruct (truthy v); inv_ok; subst out; counting.
Qed.

Lemma year_section_images (year_group : json) (out : string) :
  markup_free year_group = true ->
  build_publications.generate_year_section year_group true = Ok out ->
  counted paper_image_tag out (size_of "papers" year_group).
Proof.
  intros Hm H. unfold build_publications.generate_year_section in H. inv_ok.
  match goal with
  | E1 : subscript year_group "papers" = Ok ?x, E2 : iter ?x = Ok ?l |- _ =>
      unfold size_of; rewrite (items_of_iter "papers" year_group x l E1 E2);
      rewrite <- (total_ones l)
  end.
  match goal with
  | E : traverse _ _ = Ok _ |- _ =>
      apply (entries_counted paper_image_tag "
        " _ (fun _ => 1)) in E;
      [ | intros x y Hx Hy;
          apply (paper_counts paper_image_tag x y
                   (or_intror (or_intror (or_introl eq_refl))) Hx Hy)
        | lit0 | mf_items ]
  end.
  destruct (truthy v); inv_ok; subst out; counting.
Qed.

(** The teaching page: courses, role groups, students, categories. *)
Lemma given_host (course : json) (has_host : bool) :
  has "host" course = Ok has_host ->
  given "host" course =
  has_host && match subscript course "host" with
              | Ok host => truthy host
              | Raise _ => false
              end.
Proof.
  unfold given, has, get, subscript. destruct course; try discriminate.
  - intros [= <-]. now rewrite andb_false_r.
  - intros [= <-]. now rewrite andb_false_r.
  - intros [= <-]. destruct (dict_find "host" items); reflexivity.
Qed.

Lemma course_counts (p : string) (course : json) (out : string) :
  In p teaching_marks ->
  markup_free course = true ->
  build_teaching.generate_course_html course = Ok out ->
  counted p out
    (if String.eqb p course_item_tag then 1
     else if String.eqb p course_host_tag then flag (given "host" course)
     else 0).
Proof.
  intros Hp Hm H. unfold build_teaching.generate_course_html in H. inv_ok.
  match goal with
  | E : has "host" course = Ok ?b |- _ => rewrite (given_host course b E)
  end.
  match goal with
  | E : join_iterable ", " _ = Ok ?s |- _ =>
      assert (Hsem : forall p', counted (String lt_char p') ", " 0 ->
                counted (String lt_char p') s 0)
        by (intros p' Hp'; eapply joined_quiet; [exact Hp' | | exact E]; mf)
  end.
  each_tag Hp.
  all: match goal with
       | |- counted ?p _ _ =>
           let q := eval vm_compute in p in
           match q with
           | String _ ?p' => pose proof (Hsem p' ltac:(lit0))
           end
       end.
  all: destruct v1; inv_ok;
       [ match goal with E : subscript _ "host" = Ok ?h |- _ =>
           rewrite E in *; destruct (truthy h); inv_ok end
       | ];
       subst; counting.
Qed.

Lemma role_section_counts (p : string) (role_group : json) (out : string) :
  In p teaching_marks ->
  markup_free role_group = true ->
  build_teaching.generate_role_section_html role_group = Ok out ->
  counted p out
    (if String.eqb p role_section_tag then 1
     else if String.eqb p role_department_tag
          then flag (given "department" role_group)
     else if String.eqb p course_item_tag then size_of "courses_list" role_group
     else if String.eqb p course_host_tag
          then total (fun course => flag (given "host" course))
                 (items_of "courses_list" role_group)
     else 0).
Proof.
  intros Hp Hm H. unfold build_teaching.generate_role_section_html in H. inv_ok.
  subst out.
  match goal with
  | E : get role_group "department" ?d = Ok ?v |- _ =>
      rewrite (given_get "department" role_group d v eq_refl E)
  end.
  match goal with
  | E1 : subscript role_group "courses_list" = Ok ?x, E2 : iter ?x = Ok ?l |- _ =>
      unfold size_of; rewrite (items_of_iter "courses_list" role_group x l E1 E2);
      rewrite <- (total_ones l)
  end.
  match goal with
  | E : traverse _ _ = Ok _ |- _ =>
      apply (entries_counted p "
          " _ _ _ _ (fun x y Hx Hy => course_counts p x y Hp Hx Hy)) in E;
      [ | clear E; each_tag Hp; lit0 | mf_items ]
  end.
  each_tag Hp.
  all: decide_marks.
  all: match goal with
       | |- context [truthy ?v] => destruct (truthy v)
       end.
  all: counting.
Qed.

Lemma student_counts (p : string) (student : json) (out : string) :
  In p teaching_marks ->
  markup_free student = true ->
  build_teaching.generate_student_html student = Ok out ->
  counted p out (if String.eqb p student_item_tag then 1 else 0).
Proof.
  intros Hp Hm H. unfold build_teaching.generate_student_html in H. inv_ok.
  subst out. each_tag Hp. all: counting.
Qed.

Lemma category_counts (p : string) (category : json) (out : string) :
  In p teaching_marks ->
  markup_free category = true ->
  build_teaching.generate_mentoring_category_html category = Ok out ->
  counted p out
    (if String.eqb p category_tag then 1
     else if String.eqb p student_item_tag then size_of "students" category
     else 0).
Proof.
  intros Hp Hm H. unfold build_teaching.generate_mentoring_category_html in H.
  inv_ok. subst out.
  match goal with
  | E1 : subscript category "students" = Ok ?x, E2 : iter ?x = Ok ?l |- _ =>
      unfold size_of; rewrite (items_of_iter "students" category x l E1 E2);
      rewrite <- (total_ones l)
  end.
  match goal with
  | E : traverse _ _ = Ok _ |- _ =>
      apply (entries_counted p "
          " _ _ _ _ (fun x y Hx Hy => student_counts p x y Hp Hx Hy)) in E;
      [ | clear E; each_tag Hp; lit0 | mf_items ]
  end.
  each_tag Hp.
  all: decide_marks.
  all: counting.
Qed.

End CountFacts.

Import CountFacts.

(* ===================================================================== *)
(** * Every entry of a list is rendered as one element *)
(* ===================================================================== *)

Module Counting.

#[local] Arguments tpl : simpl never.

(** X9. The sidebar links, for a list none of whose strings has the
    character [<]: the generated markup has one list item per link, and
    an anchor exactly for the links whose [url] is there and not empty;
    a link without [url] (or with an empty or null one) is rendered as
    plain text with its icon. *)
Theorem sidebar_links_one_item_per_link :
  one_per_item "<li>" sidebar._generate_sidebar_links /\
  marks_per_item (tpl "<a href=`") (fun link => flag (given "url" link))
    sidebar._generate_sidebar_links.
Proof.
  split.
  - intros items out Hm H. unfold sidebar._generate_sidebar_links in H.
    eapply listing_one_each; [| | exact Hm | exact H].
    + exact sidebar_link_items.
    + apply counted_lit0. vm_compute. reflexivity.
  - intros items out Hm H. unfold sidebar._generate_sidebar_links in H.
    apply counted_total.
    eapply listing_counted; [| | exact Hm | exact H].
    + exact sidebar_link_anchors.
    + apply counted_lit0. vm_compute. reflexivity.
Qed.

Lemma sidebar_links_witness :
  exists out,
    sidebar._generate_sidebar_links (JList sample_links) = Ok out /\
    occurrences "<li>" out = 3 /\
    occurrences (tpl "<a href=`") out = 1.
Proof.
  eexists. split; [reflexivity |].
  destruct sidebar_links_one_item_per_link as [Hitems Hanchors].
  split.
  - apply (Hitems sample_links); reflexivity.
  - apply (Hanchors sample_links); reflexivity.
Defined.

(** X10. The lists of the biography page, each without the character
    [<] in its strings: one paragraph per item of [bio], one
    affiliation block per affiliation, one list item per degree, one
    news item per entry of [news] and one image per sponsor; an empty
    list gives none. *)
Theorem index_lists_one_element_per_entry :
  one_per_item "<p>" build_index.generate_bio_paragraphs /\
  one_per_item (tpl "<div class=`affiliation-item`>") build_index.generate_affiliations /\
  one_per_item "<li>" build_index.generate_degrees /\
  one_per_item (tpl "<li class=`news-item`>") build_index.generate_news /\
  one_per_item (tpl "<img src=`") build_index.generate_sponsors.
Proof.
  repeat split; intros items out Hm H.
  - unfold build_index.generate_bio_paragraphs in H. cbn [iter bind] in H.
    injection H as <-. apply counted_total. apply paragraphs_counted.
    + apply counted_lit0. vm_compute. reflexivity.
    + now apply forallb_Forall.
  - unfold build_index.generate_affiliations in H.
    eapply listing_one_each; [exact affiliation_items | | exact Hm | exact H].
    apply counted_lit0. vm_compute. reflexivity.
  - unfold build_index.generate_degrees in H.
    eapply listing_one_each; [exact degree_items | | exact Hm | exact H].
    apply counted_lit0. vm_compute. reflexivity.
  - unfold build_index.generate_news in H.
    eapply listing_one_each; [exact news_items | | exact Hm | exact H].
    apply counted_lit0. vm_compute. reflexivity.
  - unfold build_index.generate_sponsors in H.
    eapply listing_one_each; [exact sponsor_items | | exact Hm | exact H].
    apply counted_lit0. vm_compute. reflexivity.
Qed.

Lemma index_lists_witness :
  exists out,
    build_index.generate_bio_paragraphs
      (JList [JStr "First paragraph."; JStr "Second paragraph."]) = Ok out /\
    occurrences "<p>" out = 2.
Proof.
  eexists. split; [reflexivity |].
  apply (proj1 index_lists_one_element_per_entry
           [JStr "First paragraph."; JStr "Second paragraph."]); reflexivity.
Defined.

(** X11. The projects of the research page, for a list without the
    character [<] in its strings: one project block per project, and an
    image block exactly for the projects whose [image] is there and not
    empty. *)
Theorem one_block_per_project :
  one_per_item project_item_tag build_research.generate_projects_html /\
  marks_per_item project_image_tag (fun project => flag (given "image" project))
    build_research.generate_projects_html.
Proof.
  split; intros items out Hm H; unfold build_research.generate_projects_html in H.
  - eapply listing_one_each; [| | exact Hm | exact H].
    + intros x y Hx Hy. apply (project_counts project_item_tag x y); auto.
      now left.
    + lit0.
  - apply counted_total. eapply listing_counted; [| | exact Hm | exact H].
    + intros x y Hx Hy. apply (project_counts project_image_tag x y); auto.
      right. now left.
    + lit0.
Qed.

Lemma one_block_per_project_witness :
  exists out,
    build_research.generate_projects_html (JList sample_projects) = Ok out /\
    occurrences project_item_tag out = 2 /\
    occurrences project_image_tag out = 1.
Proof.
  eexists. split; [reflexivity |].
  destruct one_block_per_project as [Hitems Himages].
  split; [apply (Hitems sample_projects) | apply (Himages sample_projects)];
    reflexivity.
Defined.

(** X12. The publication list, for year groups without the character
    [<] in their strings: one year section per group, a year heading
    exactly for the groups whose [year] is there and not empty, and one
    thumbnail block per paper, summed over the groups. *)
Theorem one_section_per_year_group :
  one_per_item year_section_tag build_publications.generate_publications_html /\
  marks_per_item year_heading_tag (fun year_group => flag (given "year" year_group))
    build_publications.generate_publications_html /\
  marks_per_item paper_image_tag (size_of "papers")
    build_publications.generate_publications_html.
Proof.
  repeat split; intros items out Hm H;
    unfold build_publications.generate_publications_html in H.
  - eapply listing_one_each; [exact year_section_sections | | exact Hm | exact H]; [lit0].
  - apply counted_total.
    eapply listing_counted; [exact year_section_headings | | exact Hm | exact H]; [lit0].
  - apply counted_total.
    eapply listing_counted; [exact year_section_images | | exact Hm | exact H]; [lit0].
Qed.

Lemma one_section_per_year_group_witness :
  exists out,
    build_publications.generate_publications_html (JList sample_year_groups)
    = Ok out /\
    occurrences year_section_tag out = 2 /\
    occurrences year_heading_tag out = 1 /\
    occurrences paper_image_tag out = 3.
Proof.
  eexists. split; [reflexivity |].
  destruct one_section_per_year_group as (Hsections & Hheadings & Himages).
  split; [| split];
    [ apply (Hsections sample_year_groups) | apply (Hheadings sample_year_groups)
    | apply (Himages sample_year_groups) ];
    reflexivity.
Defined.

(** X13. The courses of the teaching page, for role groups without the
    character [<] in their strings: one role section per group, a
    department span exactly for the groups whose [department] is there
    and not empty, one list item per course, and a host span exactly
    for the courses whose [host] is there and not empty. *)
Theorem one_item_per_course :
  one_per_item role_section_tag build_teaching.generate_courses_html /\
  marks_per_item role_department_tag
    (fun role_group => flag (given "department" role_group))
    build_teaching.generate_courses_html /\
  marks_per_item course_item_tag (size_of "courses_list")
    build_teaching.generate_courses_html /\
  marks_per_item course_host_tag
    (fun role_group =>
       total (fun course => flag (given "host" course))
         (items_of "courses_list" role_group))
    build_teaching.generate_courses_html.
Proof.
  repeat split; intros items out Hm H;
    unfold build_teaching.generate_courses_html in H.
  - eapply listing_one_each; [| | exact Hm | exact H]; [| lit0].
    intros x y Hx Hy.
    apply (role_section_counts role_section_tag x y); auto. now left.
  - apply counted_total. eapply listing_counted; [| | exact Hm | exact H]; [| lit0].
    intros x y Hx Hy.
    apply (role_section_counts role_department_tag x y); auto. right. now left.
  - apply counted_total. eapply listing_counted; [| | exact Hm | exact H]; [| lit0].
    intros x y Hx Hy.
    apply (role_section_counts course_item_tag x y); auto. do 2 right. now left.
  - apply counted_total. eapply listing_counted; [| | exact Hm | exact H]; [| lit0].
    intros x y Hx Hy.
    apply (role_section_counts course_host_tag x y); auto. do 3 right. now left.
Qed.

Lemma one_item_per_course_witness :
  exists out,
    build_teaching.generate_courses_html (JList sample_role_groups) = Ok out /\
    occurrences role_section_tag out = 1 /\
    occurrences role_department_tag out = 0 /\
    occurrences course_item_tag out = 2 /\
    occurrences course_host_tag out = 1.
Proof.
  eexists. split; [reflexivity |].
  destruct one_item_per_course as (Hsections & Hdepartments & Hcourses & Hhosts).
  split; [| split; [| split]];
    [ apply (Hsections sample_role_groups) | apply (Hdepartments sample_role_groups)
    | apply (Hcourses sample_role_groups) | apply (Hhosts sample_role_groups) ];
    reflexivity.
Defined.

(** X14. The mentoring list of the teaching page, for categories
    without the character [<] in their strings: one category block per
    category and one student block per student, summed over the
    categories. *)
Theorem one_block_per_student :
  one_per_item category_tag build_teaching.generate_mentoring_html /\
  marks_per_item student_item_tag (size_of "students")
    build_teaching.generate_mentoring_html.
Proof.
  split; intros items out Hm H; unfold build_teaching.generate_mentoring_html in H.
  - eapply listing_one_each; [| | exact Hm | exact H]; [| lit0].
    intros x y Hx Hy.
    apply (category_counts category_tag x y); auto. do 4 right. now left.
  - apply counted_total. eapply listing_counted; [| | exact Hm | exact H]; [| lit0].
    intros x y Hx Hy.
    apply (category_counts student_item_tag x y); auto. do 5 right. now left.
Qed.

Lemma one_block_per_student_witness :
  exists out,
    build_teaching.generate_mentoring_html (JList sample_categories) = Ok out /\
    occurrences category_tag out = 2 /\
    occurrences student_item_tag out = 2.
Proof.
  eexists. split; [reflexivity |].
  destruct one_block_per_student as (Hcategories & Hstudents).
  split; [apply (Hcategories sample_categories) | apply (Hstudents sample_categories)];
    reflexivity.
Defined.

End Counting.

(* ===================================================================== *)
(** * Keys left out and their defaults *)
(* ===================================================================== *)

Module DefaultClaims.

#[local] Arguments tpl : simpl never.

(** Looking up a key other than the one put in front. *)
Ltac pass_key :=
  cbn [subscript get has bind];
  repeat match goal with
  | |- context [dict_find ?k (?kv :: ?items)] =>
      let r := eval cbv in (String.eqb (fst kv) k) in
      match r with
      | true => change (dict_find k (kv :: items)) with (Some (snd kv))
      | false => change (dict_find k (kv :: items)) with (dict_find k items)
      end
  end;
  cbn [snd bind].

(** X15. The optional sections of the pages: a biography content
    without [degrees] (without [sponsors]) gives the page of the same
    content with an empty list there; a publications content without
    [conference_abstracts] gives the page of the same content with any
    value there that counts as false (an empty list, null, an empty
    string, 0, false): no heading and no abstracts are rendered for
    it. *)
Theorem optional_sections_left_out (sb : json) :
  same_with "degrees" (JList []) (fun content => build_index.build_html content sb) /\
  same_with "sponsors" (JList []) (fun content => build_index.build_html content sb) /\
  same_with_falsy "conference_abstracts"
    (fun content => build_publications.build_html content sb).
Proof.
  split; [| split].
  - intros items H.
    unfold build_index.build_html, build_index.head_html. pass_key.
    now rewrite H.
  - intros items H.
    unfold build_index.build_html, build_index.head_html. pass_key.
    now rewrite H.
  - intros v Hv items H.
    unfold build_publications.build_html, build_publications.head_html,
      build_publications.conference_abstracts_block.
    pass_key. rewrite H. cbn [bind truthy]. rewrite Hv. reflexivity.
Qed.

Lemma optional_sections_witness :
  build_index.build_html (JDict (("degrees", JList []) :: bare_index)) themed_sidebar
  = build_index.build_html (JDict bare_index) themed_sidebar.
Proof.
  apply (proj1 (optional_sections_left_out themed_sidebar) bare_index).
  reflexivity.
Defined.

(** X16. The optional fields that are tested for truth: a year group's
    [year], a role's [department], a course's [host], a project's
    [image] and the profile's [image], when set to a value that counts
    as false (null, an empty string, an empty list, 0, false), are
    rendered as if the key were left out: no year heading, no
    department span, no host span, no project image, the fallback
    icon. *)
Theorem falsy_fields_left_out (show_image : bool) :
  same_with_falsy "year"
    (fun year_group => build_publications.generate_year_section year_group show_image) /\
  same_with_falsy "department" build_teaching.generate_role_section_html /\
  same_with_falsy "host" build_teaching.generate_course_html /\
  same_with_falsy "image" build_research.generate_project_html /\
  same_with_falsy "image" sidebar._generate_profile_image.
Proof.
  split; [| split; [| split; [| split]]]; intros v Hv items H.
  - unfold build_publications.generate_year_section. pass_key.
    rewrite H. cbn [bind truthy]. now rewrite Hv.
  - unfold build_teaching.generate_role_section_html. pass_key.
    rewrite H. cbn [bind truthy]. now rewrite Hv.
  - unfold build_teaching.generate_course_html. pass_key.
    rewrite H. cbn [bind truthy]. now rewrite Hv.
  - unfold build_research.generate_project_html. pass_key.
    rewrite H. cbn [bind truthy]. now rewrite Hv.
  - unfold sidebar._generate_profile_image. pass_key.
    rewrite H. cbn [bind truthy]. now rewrite Hv.
Qed.

Lemma falsy_fields_witness :
  build_teaching.generate_course_html
    (JDict [("host", JStr EmptyString); ("semesters", JList [JStr "Fall 2025"]);
            ("code", JStr "C1"); ("name", JStr "Logic")])
  = build_teaching.generate_course_html
      (JDict [("semesters", JList [JStr "Fall 2025"]);
              ("code", JStr "C1"); ("name", JStr "Logic")]).
Proof.
  apply (proj1 (proj2 (proj2 (falsy_fields_left_out true))) (JStr EmptyString));
    reflexivity.
Defined.


End DefaultClaims.

(* ===================================================================== *)
(** * The page CSS in the head *)
(* ===================================================================== *)

Module HeadClaims.

#[local] Arguments tpl : simpl never.

(** A template piece in which [old] does not start is left as it is. *)
Lemma lit_unchanged (old new t : string) :
  lit_scan old t = Some 0 -> replaced old new t t.
Proof.
  induction t as [|c t IH]; intros H r; [reflexivity |].
  simpl in H.
  destruct (pmatch old (String c t)) eqn:Ep;
    destruct (lit_scan old t) as [k|] eqn:Es; try discriminate H.
  injection H as ->.
  rewrite app_cons, replace_from_cons.
  rewrite <- app_cons, (pmatch_mismatch _ _ Ep r), app_cons.
  now rewrite (IH eq_refl r).
Qed.

(** Replacing the one occurrence of [old] between two texts that have
    none. *)
Lemma replace_between (old new a b : string) :
  replaced old new a a ->
  replaced old new b b ->
  lit_replace old new 0 old = Some (new ++ EmptyString) ->
  str_replace (a ++ old ++ b) old new = a ++ new ++ b.
Proof.
  intros Ha Hb Hold. apply replaced_total.
  apply replaced_app; [exact Ha |]. apply replaced_app; [| exact Hb].
  intros r. rewrite (lit_replace_sound old new old 0 _ Hold r).
  now rewrite append_nil_r.
Qed.

Ltac unchanged :=
  lazymatch goal with
  | |- replaced _ _ (_ ++ _) (_ ++ _) => apply replaced_app; unchanged
  | |- replaced _ _ EmptyString _ => apply replaced_nil
  | |- replaced _ _ (str _) _ =>
      apply replaced_value; apply markup_free_str; mf
  | |- replaced _ _ _ _ =>
      first [ assumption | apply lit_unchanged; vm_compute; reflexivity ]
  end.

(** The style sheet of the shell has no closing style tag. *)
Lemma base_css_unchanged (sb : json) (css new : string) :
  markup_free sb = true ->
  sidebar.get_base_css sb = Ok css ->
  replaced "</style>" new css css /\ counted "</style>" css 0.
Proof.
  intros Hs H. unfold sidebar.get_base_css in H. inv_ok.
  match goal with
  | E : sidebar.theme_tables _ = Ok (_, _) |- _ =>
      destruct (theme_tables_markup_free _ _ _ Hs E) as [Hlight Hdark]
  end.
  inv_ok. subst css. split; [unchanged | quiet].
Qed.

(** The plain head ends with the closing tags, and replacing the
    closing style tag in it changes that place only. *)
Lemma head_with_css (title description sb : json) (page_css plain : string) :
  markup_free title = true ->
  markup_free description = true ->
  markup_free sb = true ->
  lit_scan "</style>" page_css = Some 0 ->
  sidebar.get_head_html title description sb = Ok plain ->
  inserted page_css (Ok plain) (str_replace plain "</style>" (page_css ++ "</style>")).
Proof.
  intros Ht Hd Hs Hcss H.
  unfold sidebar.get_head_html, sidebar.get_base_head_html in H. inv_ok.
  match goal with
  | E : sidebar.get_base_css _ = Ok _ |- _ =>
      destruct (base_css_unchanged _ _ (page_css ++ "</style>") Hs E)
        as [Hsame Hnone]
  end.
  subst plain.
  change "
  </style>
</head>" with ("
  " ++ "</style>" ++ "
</head>").
  rewrite <- !append_assoc.
  match goal with
  | |- inserted _ (Ok ((?a ++ "</style>") ++ ?b)) _ =>
      exists a; rewrite (append_assoc a "</style>" b)
  end.
  split; [reflexivity |].
  rewrite replace_between; [| unchanged | unchanged | reflexivity].
  split.
  - now rewrite !append_assoc.
  - pose proof (counted_lit0 _ _ Hcss) as Hquiet.
    rewrite !append_assoc. apply counted_total. counting.
Qed.

Ltac read_head H :=
  inv_ok;
  match goal with
  | E : subscript ?c "meta" = Ok ?m, E' : subscript ?c "meta" = Ok ?m' |- _ =>
      rewrite E in E'; injection E' as <-
  end;
  unfold plain_head;
  repeat match goal with
  | E : subscript ?v ?k = Ok _ |- context [subscript ?v ?k] => rewrite E; cbn [bind]
  end;
  match goal with
  | E : sidebar.get_head_html _ _ _ = Ok _ |- _ => rewrite E
  end;
  subst;
  eapply head_with_css; [ | | | | eassumption ];
    [ mf | mf | first [assumption | reflexivity] | vm_compute; reflexivity ].

(** X17. The research, publications and teaching pages put their own
    CSS into the head by replacing the closing style tag.  For a content
    and a sidebar without the character [<] in their strings, the
    resulting head is the head [get_head_html] returns with the page CSS
    put right in front of its closing style tag, everything else
    unchanged, and it has exactly one closing style tag. *)
Theorem page_css_is_inserted_once (content sb : json) :
  markup_free content = true ->
  markup_free sb = true ->
  (forall head, build_research.head_html content = Ok head ->
     inserted build_research.get_research_css (plain_head content JNull) head) /\
  (forall head, build_publications.head_html content sb = Ok head ->
     inserted build_publications.get_publications_css (plain_head content sb) head) /\
  (forall head, build_teaching.head_html content sb = Ok head ->
     inserted build_teaching.get_teaching_css (plain_head content sb) head).
Proof.
  intros Hc Hs. split; [| split]; intros head H.
  - unfold build_research.head_html in H. read_head H.
  - unfold build_publications.head_html in H. read_head H.
  - unfold build_teaching.head_html in H. read_head H.
Qed.

Lemma page_css_witness :
  exists head,
    build_research.head_html sample_research = Ok head /\
    inserted build_research.get_research_css (plain_head sample_research JNull) head.
Proof.
  eexists. split; [reflexivity |].
  apply (proj1 (page_css_is_inserted_once sample_research JNull eq_refl eq_refl)).
  reflexivity.
Defined.

End HeadClaims.

(* ===================================================================== *)
(** * The theme in the style sheet *)
(* ===================================================================== *)

Module ThemeClaims.

#[local] Arguments tpl : simpl never.

Lemma strip_suffix_sound (suffix s pre : string) :
  strip_suffix suffix s = Some pre -> s = pre ++ suffix.
Proof.
  revert pre. induction s as [|c s IH]; intros pre H.
  - destruct suffix; [| discriminate H]. now injection H as <-.
  - change (strip_suffix suffix (String c s))
      with (if String.eqb (String c s) suffix then Some EmptyString
            else option_map (String c) (strip_suffix suffix s)) in H.
    destruct (String.eqb_spec (String c s) suffix) as [<- | _].
    + now injection H as <-.
    + destruct (strip_suffix suffix s) as [pre'|]; [| discriminate H].
      injection H as <-. rewrite app_cons. f_equal. now apply IH.
Qed.

Lemma has_suffix_split (suffix s : string) :
  has_suffix suffix s = true -> exists pre, s = pre ++ suffix.
Proof.
  unfold has_suffix. destruct (strip_suffix suffix s) as [pre|] eqn:E; [| discriminate].
  intros _. exists pre. now apply strip_suffix_sound.
Qed.

(** A text that begins at the end of one template piece, goes over
    four interpolated values and ends at the beginning of a later
    piece. *)
Lemma contains_block (opening closing piece1 piece2 h1 l2 h2 l3 h3 l4 h4 rest : string) :
  has_suffix opening piece1 = true ->
  has_prefix closing piece2 = true ->
  contains (opening ++ h1 ++ l2 ++ h2 ++ l3 ++ h3 ++ l4 ++ h4 ++ closing)
    (piece1 ++ h1 ++ l2 ++ h2 ++ l3 ++ h3 ++ l4 ++ h4 ++ piece2 ++ rest).
Proof.
  intros H1 H2.
  destruct (has_suffix_split _ _ H1) as [pre ->].
  destruct (has_prefix_split _ _ H2) as [post ->].
  exists pre, (post ++ rest). now rewrite !append_assoc.
Qed.

Lemma contains_last_block (opening closing piece1 piece2 h1 l2 h2 l3 h3 l4 h4 : string) :
  has_suffix opening piece1 = true ->
  has_prefix closing piece2 = true ->
  contains (opening ++ h1 ++ l2 ++ h2 ++ l3 ++ h3 ++ l4 ++ h4 ++ closing)
    (piece1 ++ h1 ++ l2 ++ h2 ++ l3 ++ h3 ++ l4 ++ h4 ++ piece2).
Proof.
  intros H1 H2.
  pose proof (contains_block opening closing piece1 piece2 h1 l2 h2 l3 h3 l4 h4
                EmptyString H1 H2) as H.
  now rewrite append_nil_r in H.
Qed.

Lemma colour_read (table : json) (key default : string) (v : json) :
  get table key (JStr default) = Ok v -> colour table key default = str v.
Proof. intros H. unfold colour. now rewrite H. Qed.

Lemma base_css_themed (sb light dark : json) (css : string) :
  sidebar.theme_tables sb = Ok (light, dark) ->
  sidebar.get_base_css sb = Ok css ->
  themed css light dark.
Proof.
  intros Ht H. unfold sidebar.get_base_css in H. rewrite Ht in H. cbn [bind] in H.
  inv_ok. unfold themed.
  repeat match goal with
  | E : get ?t ?k (JStr ?d) = Ok _ |- context [colour ?t ?k ?d] =>
      rewrite (colour_read t k d _ E)
  end.
  subst css. unfold variables. split.
  - apply contains_block; vm_compute; reflexivity.
  - do 8 apply contains_app_r.
    apply contains_last_block; vm_compute; reflexivity.
Qed.

(** X18. The colours of the theme reach the style sheet: when
    [get_base_css] returns, the variable block of the light mode (the
    [:root] rule) has the four colours of [theme.light] and the one of
    the dark mode (the [data-theme] rule) the four colours of
    [theme.dark], each written as it is given, with the default colour
    where a table leaves one out or is itself left out; without a
    sidebar, or with a sidebar that has no [theme], all eight are the
    defaults. *)
Theorem theme_colours_reach_the_stylesheet (sb : json) (css : string) :
  sidebar.get_base_css sb = Ok css ->
  (forall theme light dark : json,
     subscript sb "theme" = Ok theme ->
     get theme "light" (JDict []) = Ok light ->
     get theme "dark" (JDict []) = Ok dark ->
     themed css light dark) /\
  (truthy sb = false \/ has "theme" sb = Ok false ->
   themed css (JDict []) (JDict [])).
Proof.
  intros H. split.
  - intros theme light dark Hth Hl Hd. apply (base_css_themed sb); [| exact H].
    destruct sb as [| | | | | items]; try discriminate Hth.
    rewrite PageClaims.theme_tables_dict. unfold subscript in Hth.
    destruct (dict_find "theme" items); [| discriminate Hth].
    injection Hth as ->. now rewrite Hl, Hd.
  - intros Hs. apply (base_css_themed sb); [| exact H].
    unfold sidebar.theme_tables. destruct Hs as [Hf | Hh].
    + now rewrite Hf.
    + destruct (truthy sb); [now rewrite Hh | reflexivity].
Qed.

Lemma theme_colours_witness :
  exists css,
    sidebar.get_base_css themed_sidebar = Ok css /\
    themed css
      (JDict [("accent_color", JStr "#FF0000"); ("link_color", JStr "#00FF00")])
      (JDict [("accent_color", JStr "#0000FF")]).
Proof.
  eexists. split; [reflexivity |].
  eapply (proj1 (theme_colours_reach_the_stylesheet themed_sidebar _ eq_refl));
    reflexivity.
Defined.

(** X19. A theme of the wrong shape is not caught: when the sidebar is
    an object whose [theme] is not an object, or whose [theme.light] or
    [theme.dark] is there and not an object, [get_base_css] raises
    AttributeError, and so do the builders of the publications and the
    teaching page, which pass the sidebar to the head, for every content
    that has its title and description.  (The biography and the research
    page do not read the theme.) *)
Theorem malformed_theme_raises (content sb : json) :
  meta_shape content = true ->
  is_dict sb = true ->
  theme_shape sb = false ->
  sidebar.get_base_css sb = Raise AttributeError /\
  build_publications.build_html content sb = Raise AttributeError /\
  build_teaching.build_html content sb = Raise AttributeError.
Proof.
  intros Hc Hd Ht.
  assert (Hcss : sidebar.get_base_css sb = Raise AttributeError).
  { destruct sb as [| | | | | items]; try discriminate Hd. clear Hd.
    destruct base_css_form as [F HF]. rewrite HF. clear HF.
    rewrite PageClaims.theme_tables_dict.
    unfold theme_shape, optional in Ht.
    destruct (dict_find "theme" items) as [theme|]; [| discriminate Ht].
    destruct theme as [| | | | | table]; try reflexivity.
    cbn [get bind].
    destruct (dict_find "light" table) as [light|];
      [destruct light as [| | | | | lights]; try reflexivity |];
      (destruct (dict_find "dark" table) as [dark|];
       [destruct dark as [| | | | | darks]; try discriminate Ht |];
       try discriminate Ht);
      cbn [bind get];
      repeat match goal with
      | |- context [dict_find ?k ?t] => is_var t; destruct (dict_find k t)
      end;
      reflexivity. }
  split; [exact Hcss |].
  split.
  - unfold build_publications.build_html, build_publications.head_html,
      sidebar.get_head_html, sidebar.get_base_head_html.
    open_shape. read_meta. now rewrite Hcss.
  - unfold build_teaching.build_html, build_teaching.head_html,
      sidebar.get_head_html, sidebar.get_base_head_html.
    open_shape. read_meta. now rewrite Hcss.
Qed.

Lemma malformed_theme_witness :
  build_publications.build_html sample_publications
    (JDict [("nav_brand", JStr "A. Author"); ("theme", JStr "dark")])
  = Raise AttributeError.
Proof.
  apply (malformed_theme_raises sample_publications
           (JDict [("nav_brand", JStr "A. Author"); ("theme", JStr "dark")]));
    reflexivity.
Defined.

End ThemeClaims.

(* ===================================================================== *)
(** * The bio block of the sidebar *)
(* ===================================================================== *)

Module BioClaims.

#[local] Arguments tpl : simpl never.

(** The bio block when the lines are left out or count as false. *)
Lemma bio_html_without_lines (profile lines bio : json) (out : string) :
  markup_free profile = true ->
  get profile "bio_lines" JNull = Ok lines ->
  truthy lines = false ->
  get profile "bio" JNull = Ok bio ->
  sidebar.bio_html profile = Ok out ->
  counted bio_line_tag out 0 /\
  counted bio_paragraph_tag out (flag (truthy bio)).
Proof.
  intros Hm Hl Hf Hb H. unfold sidebar.bio_html in H. rewrite Hl in H.
  cbn [bind] in H. rewrite Hf, Hb in H. cbn [bind] in H.
  destruct (truthy bio); inv_ok; subst out; split; counting.
Qed.

(** X20. The bio block of the sidebar, for a sidebar without the
    character [<] in its strings, in the cases where [bio_lines] and
    [bio] are both given or both left out: a non-empty list of
    [bio_lines] wins over [bio], which is then not rendered (as many
    bio-line spans as lines, no bio paragraph); when [bio_lines] is
    left out or counts as false (null, an empty list), there is no
    bio-line span, and a bio paragraph exactly when [bio] is there and
    not empty, so with neither the sidebar has no bio element. *)
Theorem bio_lines_take_precedence (sb profile given_lines bio : json) (html : string) :
  markup_free sb = true ->
  subscript sb "profile" = Ok profile ->
  get profile "bio_lines" JNull = Ok given_lines ->
  get profile "bio" JNull = Ok bio ->
  sidebar.get_sidebar_html sb = Ok html ->
  (forall lines : list json,
     given_lines = JList lines ->
     lines <> [] ->
     occurrences bio_line_tag html = List.length lines /\
     occurrences bio_paragraph_tag html = 0) /\
  (truthy given_lines = false ->
   occurrences bio_line_tag html = 0 /\
   occurrences bio_paragraph_tag html = flag (truthy bio)).
Proof.
  intros Hm Hp Hl Hb H.
  destruct (sidebar_frame bio_line_tag sb html) as (pr & out & Hpr & Hout & Hline);
    [simpl; auto | exact Hm | exact H |].
  destruct (sidebar_frame bio_paragraph_tag sb html) as (pr' & out' & Hpr' & Hout' & Hpara);
    [simpl; auto | exact Hm | exact H |].
  rewrite Hp in Hpr, Hpr'. injection Hpr as <-. injection Hpr' as <-.
  rewrite Hout in Hout'. injection Hout' as <-.
  assert (Hmp : markup_free profile = true) by mf.
  split.
  - intros lines -> Hne.
    destruct (bio_html_lines profile out lines Hmp Hl Hne Hout) as [H1 H2].
    split; apply counted_total; auto.
  - intros Hf.
    destruct (bio_html_without_lines profile given_lines bio out Hmp Hl Hf Hb Hout)
      as [H1 H2].
    split; apply counted_total; auto.
Qed.

Lemma bio_lines_witness :
  exists html,
    sidebar.get_sidebar_html both_bios_sidebar = Ok html /\
    occurrences bio_line_tag html = 2 /\
    occurrences bio_paragraph_tag html = 0.
Proof.
  eexists. split; [reflexivity |].
  apply (proj1 (bio_lines_take_precedence both_bios_sidebar both_bios_profile
                  (JList [JStr "A"; JStr "B"]) (JStr "About me") _
                  eq_refl eq_refl eq_refl eq_refl eq_refl)
           [JStr "A"; JStr "B"] eq_refl).
  discriminate.
Defined.


End BioClaims.

(* ===================================================================== *)
(** * Which exception leaves a builder *)
(* ===================================================================== *)

Module ErrorClaims.

#[local] Arguments tpl : simpl never.

Lemma traverse_first_failure {A B : Type} (f : A -> result B)
    (good : list A) (bad : A) (rest : list A) (e : exn) :
  Forall (fun x => exists y, f x = Ok y) good ->
  f bad = Raise e ->
  traverse f (good ++ bad :: rest) = Raise e.
Proof.
  intros Hgood Hbad. induction Hgood as [|x good [y Hy] _ IH]; simpl.
  - now rewrite Hbad.
  - now rewrite Hy, IH.
Qed.

(** A generator that renders the items of a list one by one and joins
    them. *)
Lemma listing_first_failure (f : json -> result string) (sep : string) :
  first_failure
    (fun v => let* xs := iter v in let* items := traverse f xs in Ok (join sep items)).
Proof.
  intros good bad rest e Hgood Hbad. cbn [iter bind] in *.
  rewrite (traverse_first_failure f good bad rest e); [reflexivity | |].
  - eapply List.Forall_impl; [| exact Hgood]. intros x [out Hx]. cbv beta in Hx.
    simpl in Hx. destruct (f x) as [y|]; [now exists y | discriminate Hx].
  - simpl in Hbad. destruct (f bad) as [y|e']; [discriminate Hbad |].
    now injection Hbad as ->.
Qed.

(** X21. Every generator that renders the entries of a list one by one
    stops at the first entry it cannot render, with the exception that
    entry raises on its own (KeyError for a missing key, TypeError or
    AttributeError for an entry that is not an object): the entries
    before it render, the entries after it are not looked at, and no
    partial markup is returned. *)
Theorem first_bad_entry_decides :
  first_failure sidebar._generate_sidebar_links /\
  (first_failure build_index.generate_affiliations /\
   first_failure build_index.generate_degrees /\
   first_failure build_index.generate_news /\
   first_failure build_index.generate_sponsors) /\
  first_failure build_research.generate_projects_html /\
  (first_failure build_publications.generate_intro_links /\
   first_failure build_publications.generate_paper_links /\
   first_failure build_publications.generate_publications_html) /\
  (first_failure build_teaching.generate_courses_html /\
   first_failure build_teaching.generate_mentoring_html).
Proof.
  repeat split; apply listing_first_failure.
Qed.

Lemma first_bad_entry_witness :
  build_index.generate_news (JList news_with_a_gap) = Raise (KeyError "content").
Proof.
  apply (proj1 (proj2 (proj2 (proj1 (proj2 first_bad_entry_decides))))
           [JDict [("date", JStr "2025"); ("content", JStr "News.")]]
           (JDict [("date", JStr "2024")]) [JStr "not an entry"]).
  - repeat constructor. eexists. reflexivity.
  - reflexivity.
Defined.

(** The head of a page whose sidebar has a theme of the right shape. *)
Ltac styled_head Hhead :=
  match goal with
  | |- context [sidebar.get_base_head_html ?t ?d ?c _] =>
      destruct (Hhead t d c) as [? ->]
  end.

Ltac list_results :=
  repeat match goal with
  | H : list_of _ ?j = true |- _ =>
      first [ destruct (affiliations_total j H) as [? ?]
            | destruct (degrees_total j H) as [? ?]
            | destruct (join_iterable_total ", " j H) as [? ?]
            | destruct (intro_links_total j H) as [? ?]
            | destruct (courses_total j H) as [? ?] ];
      clear H
  end.

(** X22. A required section that is missing raises [KeyError] with its
    name, once what is read before it is in order.  The biography page
    reads the sidebar first (brand, navigation, sidebar markup) and then
    [bio], [affiliations], [news]; the research page reads [interests]
    and [projects], the publications page [intro] and [publications],
    the teaching page [courses] and [mentoring], all three before they
    read anything of the sidebar but the theme. *)
Theorem missing_section_raises_key_error (sb : json) :
  (sidebar_shape sb = true ->
   missing_key_raises "bio" meta_shape
     (fun content => build_index.build_html content sb) /\
   missing_key_raises "affiliations"
     (fun content => meta_shape content && required "bio" is_list content)
     (fun content => build_index.build_html content sb) /\
   missing_key_raises "news"
     (fun content =>
        meta_shape content && required "bio" is_list content
        && required "affiliations" (list_of affiliation_shape) content
        && optional "degrees" (list_of degree_shape) content)
     (fun content => build_index.build_html content sb)) /\
  (missing_key_raises "interests" meta_shape
     (fun content => build_research.build_html content sb) /\
   missing_key_raises "projects"
     (fun content =>
        meta_shape content && required "interests" (list_of is_string) content)
     (fun content => build_research.build_html content sb)) /\
  (is_dict sb = true ->
   theme_shape sb = true ->
   (missing_key_raises "intro" meta_shape
      (fun content => build_publications.build_html content sb) /\
    missing_key_raises "publications"
      (fun content =>
         meta_shape content
         && required "intro" (required "links" (list_of link_shape)) content)
      (fun content => build_publications.build_html content sb)) /\
   (missing_key_raises "courses" meta_shape
      (fun content => build_teaching.build_html content sb) /\
    missing_key_raises "mentoring"
      (fun content =>
         meta_shape content && required "courses" (list_of role_group_shape) content)
      (fun content => build_teaching.build_html content sb))).
Proof.
  split; [| split].
  - intros Hs. shell_results sb Hs.
    destruct (nav_html_total "bio" sb) as [nav Hnav]; [now right |].
    clear Hs.
    split; [| split]; intros items Hready Hmiss; cbv beta in *;
      unfold build_index.build_html, build_index.head_html,
        build_index.generate_bio_paragraphs;
      open_shape; list_results; read_meta;
      match goal with
      | |- context [sidebar.get_base_head_html ?t ?d ?c JNull] =>
          destruct (head_total t d c JNull) as [? ->]; [now left |]
      end;
      run_page; reflexivity.
  - split; intros items Hready Hmiss; cbv beta in *;
      unfold build_research.build_html, build_research.head_html,
        build_research.generate_interests_html, sidebar.get_head_html;
      open_shape; list_results; read_meta;
      match goal with
      | |- context [sidebar.get_base_head_html ?t ?d ?c JNull] =>
          destruct (head_total t d c JNull) as [? ->]; [now left |]
      end;
      run_page; reflexivity.
  - intros Hd Ht.
    pose proof (fun t d c => head_total t d c sb (or_intror (conj Hd Ht))) as Hhead.
    clear Hd Ht.
    split; split; intros items Hready Hmiss; cbv beta in *;
      unfold build_publications.build_html, build_publications.head_html,
        build_teaching.build_html, build_teaching.head_html, sidebar.get_head_html;
      open_shape; list_results; read_meta; styled_head Hhead;
      run_page; reflexivity.
Qed.

Lemma missing_section_witness :
  build_research.build_html
    (JDict [("meta", JDict [("title", JStr "Research"); ("description", JStr "R")]);
            ("interests", JList [JStr "Logic"])])
    JNull
  = Raise (KeyError "projects").
Proof.
  apply (proj2 (proj1 (proj2 (missing_section_raises_key_error JNull))));
    reflexivity.
Defined.

End ErrorClaims.

(* ===================================================================== *)
(** * The navigation list in the pages *)
(* ===================================================================== *)

Module NavClaims.

#[local] Arguments tpl : simpl never.




End NavClaims.
